(** * Falcon protection cloud function: a shallow embedding of
      [terraform/functions/cluster_protection/main.py]

    The handler reacts to a cluster-creation event, waits for the cluster
    to be ready, and installs the Falcon operator and the FalconDeployment
    custom resource.  The Python code is embedded as computations in a small
    monad that threads the state of the outside world, records every call made
    to it (the trace), and propagates Python exceptions. *)

From Stdlib Require Import String Ascii List ZArith Bool Lia DecimalString.
Import ListNotations.
Open Scope string_scope.
Open Scope list_scope.
Set Warnings "-register-all".

(** ** Python values *)

(** The fragment of Python's object model the handler manipulates: the
    decoded JSON payload and the manifest are nested mappings.  A [dict] keeps
    its insertion order, so it is an association list. *)
Inductive pyval : Type :=
| PNone
| PBool (b : bool)
| PInt (n : Z)
| PStr (s : string)
| PList (l : list pyval)
| PDict (d : list (string * pyval)).

Definition dict := list (string * pyval).

Definition newline : string := String "010"%char EmptyString.

(** Truth value of a string in a condition: [if s:]. *)
Definition truthy (s : string) : bool :=
  match s with
  | EmptyString => false
  | String _ _ => true
  end.

(** What an [ApiException] carries besides its status: the reason phrase
    and, as [str] prints them, the headers and the body of the HTTP response
    (the empty text when the response had none). *)
Record api_response : Type := mkResponse {
  api_reason : string;
  api_headers : string;
  api_body : string
}.

(** Python exceptions.  All of them derive from [Exception]. *)
Inductive exn : Type :=
| ApiException (status : Z) (response : api_response)
| KeyError (key : string)
| IndexError
| TypeError (msg : string)
| AttributeError (msg : string)
| UnboundLocalError (var : string)
| OSError (msg : string)
| OtherException (msg : string).

(** [str(e)].  An [ApiException] prints its status and reason on two
    lines, then the headers and the body of the response when it has them. *)
Definition exn_str (e : exn) : string :=
  match e with
  | ApiException status response =>
      "(" ++ NilZero.string_of_int (Z.to_int status) ++ ")" ++ newline
      ++ "Reason: " ++ api_reason response ++ newline
      ++ (if truthy (api_headers response)
          then "HTTP response headers: " ++ api_headers response ++ newline
          else "")
      ++ (if truthy (api_body response)
          then "HTTP response body: " ++ api_body response ++ newline
          else "")
  | KeyError key => "'" ++ key ++ "'"
  | IndexError => "list index out of range"
  | TypeError msg => msg
  | AttributeError msg => msg
  | UnboundLocalError var =>
      "cannot access local variable '" ++ var ++ "' where it is not associated with a value"
  | OSError msg => msg
  | OtherException msg => msg
  end.

Definition result (A : Type) : Type := (exn + A)%type.

Module Dict.

(** [k in d] / [d.get(k)] *)
Fixpoint get (d : dict) (k : string) : option pyval :=
  match d with
  | [] => None
  | (k', v) :: d' => if String.eqb k' k then Some v else get d' k
  end.

(** [d[k] = v]: an existing key keeps its position, a new key goes last. *)
Fixpoint set (d : dict) (k : string) (v : pyval) : dict :=
  match d with
  | [] => [(k, v)]
  | (k', v') :: d' =>
      if String.eqb k' k then (k', v) :: d' else (k', v') :: set d' k v
  end.

Definition mem (d : dict) (k : string) : bool :=
  match get d k with Some _ => true | None => false end.

(** [d.update(other)] *)
Definition update (d other : dict) : dict :=
  fold_left (fun acc kv => set acc (fst kv) (snd kv)) other d.

End Dict.

(** [type(v).__name__] *)
Definition type_name (v : pyval) : string :=
  match v with
  | PNone => "NoneType"
  | PBool _ => "bool"
  | PInt _ => "int"
  | PStr _ => "str"
  | PList _ => "list"
  | PDict _ => "dict"
  end.

(** [v[k]] for a string key [k]. *)
Definition getitem (v : pyval) (k : string) : result pyval :=
  match v with
  | PDict d =>
      match Dict.get d k with
      | Some x => inr x
      | None => inl (KeyError k)
      end
  | PList _ => inl (TypeError "list indices must be integers or slices, not str")
  | PStr _ => inl (TypeError "string indices must be integers, not 'str'")
  | _ => inl (TypeError ("'" ++ type_name v ++ "' object is not subscriptable"))
  end.

(** [v[k] = x] for a string key [k]. *)
Definition setitem (v : pyval) (k : string) (x : pyval) : result pyval :=
  match v with
  | PDict d => inr (PDict (Dict.set d k x))
  | PList _ => inl (TypeError "list indices must be integers or slices, not str")
  | _ => inl (TypeError ("'" ++ type_name v
                         ++ "' object does not support item assignment"))
  end.

(** [d[k1][k2] = v] on a dict held in a local variable: the inner mapping is
    shared with the outer one, so the outer one sees the update. *)
Definition setitem2 (d : dict) (k1 k2 : string) (v : pyval) : result dict :=
  match Dict.get d k1 with
  | Some inner =>
      match setitem inner k2 v with
      | inr inner' => inr (Dict.set d k1 inner')
      | inl e => inl e
      end
  | None => inl (KeyError k1)
  end.

(** [k not in v] for a string [k]: a key of a mapping, an element of a list,
    a part of a text. *)
Definition not_in (k : string) (v : pyval) : result bool :=
  match v with
  | PDict d => inr (negb (Dict.mem d k))
  | PList l =>
      inr (negb (existsb (fun x => match x with
                                   | PStr s => String.eqb s k
                                   | _ => false
                                   end) l))
  | PStr s =>
      inr (match String.index 0 k s with Some _ => false | None => true end)
  | _ => inl (TypeError ("argument of type '" ++ type_name v ++ "' is not iterable"))
  end.

(** [s.split(sep)] for a one-character separator.  The result is never
    empty: a string with [n] separators has [n + 1] segments.  The separator
    used by the handler is ["/"], one byte that occurs in no multi-byte UTF-8
    sequence, so splitting the byte string is splitting the text. *)
Fixpoint split (sep : ascii) (s : string) : list string :=
  match s with
  | EmptyString => [EmptyString]
  | String c s' =>
      if Ascii.eqb c sep then EmptyString :: split sep s'
      else match split sep s' with
           | seg :: segs => String c seg :: segs
           | [] => [String c EmptyString]
           end
  end.

(** [l[i]] *)
Definition index (l : list string) (i : nat) : result string :=
  match nth_error l i with
  | Some x => inr x
  | None => inl IndexError
  end.

(** [v.split("/")]: only [str] objects have the method. *)
Definition split_slash (v : pyval) : result (list string) :=
  match v with
  | PStr s => inr (split "/"%char s)
  | _ => inl (AttributeError ("'" ++ type_name v
                              ++ "' object has no attribute 'split'"))
  end.

(** ** The outside world *)

Record Cluster : Type := mkCluster {
  cluster_self_link : string;
(** [cluster.status.name] *)
  cluster_status_name : string
}.

Record ApiClient : Type := mkApiClient { api_host : string }.

Record Pod : Type := mkPod {
  pod_name : string;
(** [pod.status.phase] *)
  pod_phase : string
}.

Inductive level : Type := DEBUG | INFO | WARNING | ERROR.

(** Every call the handler makes to a collaborator, with its arguments. *)
Inductive event : Type :=
| EvLog (lvl : level) (msg : string)
| EvGetCluster (cluster_name zone project_id : string)
| EvGetKubeClients (cluster : Cluster)
| EvSleep (seconds : Z)
| EvUrlRetrieve (url filename : string)
| EvReadFile (filename : string)
| EvWriteFile (filename content : string)
| EvReadNamespace (api : ApiClient) (name : string)
| EvListNamespacedPod (api : ApiClient) (namespace : string)
| EvCreateFromYaml (api : ApiClient) (yaml_file : string)
| EvListClusterCustomObject (api : ApiClient) (group version plural : string)
| EvDynamicClient (api : ApiClient)
| EvResourcesGet (api : ApiClient) (api_version kind : string)
| EvCreate (api : ApiClient) (api_version kind : string) (body : pyval)
           (namespace : string).

(** The collaborators: the cloud cluster API and the helper module [utils]
    ([get_cluster], [get_kube_clients]), the clock, the network and the local
    file system, and the Kubernetes API server.  Each operation answers from
    the current state of the world and moves it on; any of them but [sleep]
    may raise.  [list_cluster_custom_object_op] answers with the ["items"] of
    the listing; [dynamic_client_op] is the API discovery that constructing a
    [dynamic.DynamicClient] runs; [resources_get_op] resolves a resource kind;
    [create_op] takes the API version and the kind of the resource it posts
    to, then the body and the namespace. *)
Class World (W : Type) : Type := {
  get_cluster_op : string -> string -> string -> W -> result Cluster * W;
  get_kube_clients_op : Cluster -> W -> result ApiClient * W;
  sleep_op : Z -> W -> W;
  urlretrieve_op : string -> string -> W -> result unit * W;
  read_file_op : string -> W -> result string * W;
  write_file_op : string -> string -> W -> result unit * W;
  read_namespace_op : ApiClient -> string -> W -> result unit * W;
  list_namespaced_pod_op : ApiClient -> string -> W -> result (list Pod) * W;
  create_from_yaml_op : ApiClient -> string -> W -> result unit * W;
  list_cluster_custom_object_op :
    ApiClient -> string -> string -> string -> W -> result (list pyval) * W;
  dynamic_client_op : ApiClient -> W -> result unit * W;
  resources_get_op : ApiClient -> string -> string -> W -> result unit * W;
  create_op :
    ApiClient -> string -> string -> pyval -> string -> W -> result unit * W
}.

(** ** The monad of the handler *)

(** How a run ends: it returns, it raises, or (an unbounded wait whose fuel
    ran out) it is still running. *)
Inductive outcome (A : Type) : Type :=
| Ret (a : A)
| Raise (e : exn)
| Diverge.
Arguments Ret {A} a.
Arguments Raise {A} e.
Arguments Diverge {A}.

(** A run from a world state: the outcome, the world it leaves, and the calls
    it made, oldest first. *)
Record run (W A : Type) : Type := mkRun {
  out : outcome A;
  world : W;
  evs : list event
}.
Arguments mkRun {W A} out world evs.
Arguments out {W A} r.
Arguments world {W A} r.
Arguments evs {W A} r.

Definition M (W A : Type) : Type := W -> run W A.

Section Monad.
Context {W : Type}.

Definition ret {A} (a : A) : M W A := fun w => mkRun (Ret a) w [].

Definition raise {A} (e : exn) : M W A := fun w => mkRun (Raise e) w [].

Definition diverge {A} : M W A := fun w => mkRun Diverge w [].

Definition bind {A B} (m : M W A) (f : A -> M W B) : M W B :=
  fun w =>
    match m w with
    | mkRun (Ret a) w' t =>
        match f a w' with
        | mkRun o w'' t' => mkRun o w'' (t ++ t')
        end
    | mkRun (Raise e) w' t => mkRun (Raise e) w' t
    | mkRun Diverge w' t => mkRun Diverge w' t
    end.

(** [try: m  except Exception as e: h e] *)
Definition try_except {A} (m : M W A) (h : exn -> M W A) : M W A :=
  fun w =>
    match m w with
    | mkRun (Raise e) w' t =>
        match h e w' with
        | mkRun o w'' t' => mkRun o w'' (t ++ t')
        end
    | r => r
    end.

(** A pure step that may raise. *)
Definition lift {A} (r : result A) : M W A :=
  match r with
  | inl e => raise e
  | inr a => ret a
  end.

(** A call to a collaborator: the call is recorded, then answered. *)
Definition call {A} (ev : event) (op : W -> result A * W) : M W A :=
  fun w =>
    let (r, w') := op w in
    mkRun (match r with inl e => Raise e | inr a => Ret a end) w' [ev].

(** [logging.<lvl>(msg)] *)
Definition log (lvl : level) (msg : string) : M W unit :=
  fun w => mkRun (Ret tt) w [EvLog lvl msg].

End Monad.

Declare Scope monad_scope.
Delimit Scope monad_scope with monad.
Notation "x <- m ;; k" := (bind m (fun x => k))
  (at level 61, m at next level, right associativity) : monad_scope.
Notation "m ;; k" := (bind m (fun _ => k))
  (at level 61, right associativity) : monad_scope.
Open Scope monad_scope.

(** Sequencing of pure steps that may raise. *)
Definition rbind {A B} (r : result A) (f : A -> result B) : result B :=
  match r with
  | inl e => inl e
  | inr a => f a
  end.

(** What a loop body tells its loop: go round again with the new values of
    the loop's variables, or leave the enclosing function ([return]). *)
Inductive ctl (S : Type) : Type :=
| Next (s : S)
| Return.
Arguments Next {S} s.
Arguments Return {S}.

(** [while cond: body].  Every iteration uses one unit of fuel; a loop whose
    condition still holds when none is left is still running. *)
Fixpoint while {W S} (fuel : nat) (cond : S -> bool) (body : S -> M W (ctl S))
    (s : S) : M W (ctl S) :=
  if cond s then
    match fuel with
    | O => diverge
    | Datatypes.S fuel' =>
        c <- body s;;
        match c with
        | Next s' => while fuel' cond body s'
        | Return => ret Return
        end
    end
  else ret (Next s).

(** ** The handler *)

(** The module-level configuration, read from the environment at import. *)
Record Config : Type := mkConfig {
  FALCON_CLIENT_ID : string;
  FALCON_CLIENT_SECRET : string;
  FALCON_AUTO_UPDATE : string;
  FALCON_UPDATE_POLICY : string;
  FALCON_SENSOR_VERSION : string;
  FALCON_SENSOR_TAGS : string
}.

Definition MAX_CLUSTER_STATUS_CHECK_COUNT : Z := 20.
Definition POD_READY_STATE_SECONDS_TO_SLEEP : Z := 10.
Definition FALCON_OPERATOR_URL : string :=
  "https://github.com/crowdstrike/falcon-operator/releases/latest/download/falcon-operator.yaml".

(** [x in [a, b, ...]] on strings *)
Definition str_in (x : string) (l : list string) : bool :=
  existsb (String.eqb x) l.

(** The text an f-string inserts for a value. *)
Definition format (v : pyval) : string :=
  match v with
  | PStr s => s
  | PNone => "None"
  | PBool true => "True"
  | PBool false => "False"
  | _ => "<object>"
  end.

(** The variables of the readiness loop of [main]; [cluster] is unbound
    until the first iteration assigns it. *)
Record poll_vars : Type := mkPoll {
  cluster : option Cluster;
  cluster_status : string;
  cluster_status_check_counter : Z
}.

(** [dynamic.DynamicClient(api_client)], once its discovery has run. *)
Record DynamicClient : Type := mkDynamicClient {
  dynamic_api_client : ApiClient
}.

(** The handle [dynamic_client.resources.get(api_version=..., kind=...)]
    gives: it names the resource kind that [create] then posts to. *)
Record Resource : Type := mkResource {
  res_api_version : string;
  res_kind : string
}.

Section Handler.
Context {W : Type} {world_ops : World W}.

(** The configuration of the running process. *)
Variable cfg : Config.
(** [yaml.dump] *)
Variable yaml_dump : pyval -> string.
(** [json.loads(base64.b64decode(x).decode("utf-8"))] *)
Variable b64_json_loads : pyval -> result pyval.

(** *** Calls to the collaborators *)

Definition get_cluster (cluster_name zone project_id : string) : M W Cluster :=
  call (EvGetCluster cluster_name zone project_id)
       (get_cluster_op cluster_name zone project_id).

Definition get_kube_clients (c : Cluster) : M W ApiClient :=
  call (EvGetKubeClients c) (get_kube_clients_op c).

Definition sleep (seconds : Z) : M W unit :=
  fun w => mkRun (Ret tt) (sleep_op seconds w) [EvSleep seconds].

Definition urlretrieve (url filename : string) : M W unit :=
  call (EvUrlRetrieve url filename) (urlretrieve_op url filename).

Definition read_file (filename : string) : M W string :=
  call (EvReadFile filename) (read_file_op filename).

Definition write_file (filename content : string) : M W unit :=
  call (EvWriteFile filename content) (write_file_op filename content).

Definition read_namespace (api : ApiClient) (name : string) : M W unit :=
  call (EvReadNamespace api name) (read_namespace_op api name).

Definition list_namespaced_pod (api : ApiClient) (namespace : string)
  : M W (list Pod) :=
  call (EvListNamespacedPod api namespace) (list_namespaced_pod_op api namespace).

Definition create_from_yaml (api : ApiClient) (yaml_file : string) : M W unit :=
  call (EvCreateFromYaml api yaml_file) (create_from_yaml_op api yaml_file).

Definition list_cluster_custom_object (api : ApiClient)
    (group version plural : string) : M W (list pyval) :=
  call (EvListClusterCustomObject api group version plural)
       (list_cluster_custom_object_op api group version plural).

(** [dynamic.DynamicClient(api_client)]: the constructor discovers the API
    of the cluster, which may raise. *)
Definition new_dynamic_client (api : ApiClient) : M W DynamicClient :=
  call (EvDynamicClient api) (dynamic_client_op api);;
  ret (mkDynamicClient api).

(** [dynamic_client.resources.get(api_version=..., kind=...)]: raises when
    the cluster does not serve the kind. *)
Definition resources_get (dynamic_client : DynamicClient)
    (api_version kind : string) : M W Resource :=
  call (EvResourcesGet (dynamic_api_client dynamic_client) api_version kind)
       (resources_get_op (dynamic_api_client dynamic_client) api_version kind);;
  ret (mkResource api_version kind).

Definition create (api : ApiClient) (r : Resource) (body : pyval)
    (namespace : string) : M W unit :=
  call (EvCreate api (res_api_version r) (res_kind r) body namespace)
       (create_op api (res_api_version r) (res_kind r) body namespace).

(** *** [configure_falcon_deployment_manifest] *)

Definition base_manifest : dict :=
  [ ("apiVersion", PStr "falcon.crowdstrike.com/v1alpha1");
    ("kind", PStr "FalconDeployment");
    ("metadata", PDict [("name", PStr "falcon-deployment")]);
    ("spec", PDict
       [ ("falcon_api", PDict
            [ ("client_id", PStr (FALCON_CLIENT_ID cfg));
              ("client_secret", PStr (FALCON_CLIENT_SECRET cfg));
              ("cloud_region", PStr "us-2") ]);
         ("deployAdmissionController", PBool true);
         ("deployNodeSensor", PBool true);
         ("deployImageAnalyzer", PBool false);
         ("deployContainerSensor", PBool false) ]) ].

Definition autopilot_config : dict :=
  [ ("backend", PStr "bpf");
    ("gke", PDict [("autopilot", PBool true)]);
    ("resources", PDict
       [("requests", PDict [("cpu", PStr "750m"); ("memory", PStr "1.5Gi")])]);
    ("tolerations", PList
       [ PDict [ ("effect", PStr "NoSchedule");
                 ("operator", PStr "Equal");
                 ("key", PStr "kubernetes.io/arch");
                 ("value", PStr "amd64") ] ]) ].

Definition configure_falcon_deployment_manifest (is_autopilot : bool)
  : M W pyval :=
  let manifest := base_manifest in
  let node_config : dict := [] in
  (* Add advanced settings if specified *)
  node_config <-
    (if negb (FALCON_AUTO_UPDATE cfg =? "off")%string
        || truthy (FALCON_UPDATE_POLICY cfg)
     then
       let node_config := Dict.set node_config "advanced" (PDict []) in
       node_config <-
         (if negb (FALCON_AUTO_UPDATE cfg =? "off")%string then
            node_config <- lift (setitem2 node_config "advanced" "autoUpdate"
                                   (PStr (FALCON_AUTO_UPDATE cfg)));;
            log INFO ("Auto-update enabled with mode: " ++ FALCON_AUTO_UPDATE cfg);;
            ret node_config
          else ret node_config);;
       (if truthy (FALCON_UPDATE_POLICY cfg) then
          node_config <- lift (setitem2 node_config "advanced" "updatePolicy"
                                 (PStr (FALCON_UPDATE_POLICY cfg)));;
          log INFO ("Using update policy: " ++ FALCON_UPDATE_POLICY cfg);;
          ret node_config
        else ret node_config)
     else ret node_config);;
  (* Add specific sensor version if specified *)
  node_config <-
    (if truthy (FALCON_SENSOR_VERSION cfg) then
       let node_config :=
         Dict.set node_config "version" (PStr (FALCON_SENSOR_VERSION cfg)) in
       log INFO ("Pinning sensor version to: " ++ FALCON_SENSOR_VERSION cfg);;
       ret node_config
     else ret node_config);;
  (* Merge autopilot-specific config if needed *)
  let node_config :=
    if is_autopilot then Dict.update node_config autopilot_config
    else node_config in
  (* Add sensor tags if specified (goes in falcon spec, not node spec) *)
  manifest <-
    (if truthy (FALCON_SENSOR_TAGS cfg) then
       spec <- lift (getitem (PDict manifest) "spec");;
       absent <- lift (not_in "falcon" spec);;
       manifest <-
         (if absent
          then lift (setitem2 manifest "spec" "falcon" (PDict []))
          else ret manifest);;
       spec <- lift (getitem (PDict manifest) "spec");;
       manifest <-
         (match spec with
          | PDict spec_d =>
              spec_d <- lift (setitem2 spec_d "falcon" "tags"
                                (PStr (FALCON_SENSOR_TAGS cfg)));;
              ret (Dict.set manifest "spec" (PDict spec_d))
          | other =>
              (* [other["falcon"]] raises: [other] is no mapping *)
              falcon <- lift (getitem other "falcon");;
              lift (rbind (setitem falcon "tags" (PStr (FALCON_SENSOR_TAGS cfg)))
                          (fun _ => inr manifest))
          end);;
       log INFO ("Adding sensor tags: " ++ FALCON_SENSOR_TAGS cfg);;
       ret manifest
     else ret manifest);;
  (* Add node config to manifest *)
  manifest <- lift (setitem2 manifest "spec" "falconNodeSensor"
                      (PDict [("node", PDict node_config)]));;
  (* convert back to yaml and write file *)
  let manifest_yaml := yaml_dump (PDict manifest) in
  write_file "node_sensor_manifest.yaml" manifest_yaml;;
  log DEBUG ("Generated manifest:" ++ newline ++ manifest_yaml);;
  ret (PDict manifest).

(** *** [check_resources_deployed] *)

Definition check_resources_deployed (api_client : ApiClient)
    (namespace_name : string) : M W bool :=
  log DEBUG ("Checking for namespace: " ++ namespace_name ++ ".");;
  (* the first [try]: [Return] stands for the [return False] of its handler *)
  r <- try_except
         (read_namespace api_client namespace_name;;
          log DEBUG ("Namespace " ++ namespace_name ++ " exists.");;
          ret (Next tt))
         (fun e =>
            match e with
            | ApiException status _ =>
                if (status =? 404)%Z then ret Return else raise e
            | _ => raise e
            end);;
  match r with
  | Return => ret false
  | Next _ =>
      try_except
        (pod_list <- list_namespaced_pod api_client namespace_name;;
         if (0 <? length pod_list)%nat then ret true else ret false)
        (fun e => log ERROR (exn_str e);; raise e)
  end.

(** *** [check_pods_are_ready] *)

(** The [for] loop with its [break]. *)
Fixpoint any_pod_running (items : list Pod) (pods_ready : bool) : bool :=
  match items with
  | [] => pods_ready
  | pod :: items' =>
      if (pod_phase pod =? "Running")%string then true
      else any_pod_running items' pods_ready
  end.

Definition check_pods_are_ready (api_client : ApiClient)
    (namespace_name : string) : M W bool :=
  let pods_ready := false in
  pod_list <- list_namespaced_pod api_client namespace_name;;
  ret (any_pod_running pod_list pods_ready).

(** *** [download_operator_manifest] *)

Definition download_operator_manifest : M W string :=
  urlretrieve FALCON_OPERATOR_URL "falcon_operator.yaml";;
  manifest <- read_file "falcon_operator.yaml";;
  ret manifest.

(** *** [deploy_operator] *)

(** Lines 280-293: the wait for the operator's pods.  It has no bound in
    the source: [fuel] is the number of rounds a run is followed for. *)
Definition await_operator_pods (fuel : nat) (api_client : ApiClient)
  : M W unit :=
  log INFO "Checking to see if pods in falcon-operator are ready.";;
  pods_ready <- check_pods_are_ready api_client "falcon-operator";;
  r <- while fuel (fun pods_ready => negb pods_ready)
         (fun _ =>
            log INFO "Pods are not yet ready. Sleeping for 10 seconds";;
            sleep POD_READY_STATE_SECONDS_TO_SLEEP;;
            pods_ready <- check_pods_are_ready api_client "falcon-operator";;
            ret (Next pods_ready))
         pods_ready;;
  match r with
  | Next pods_ready =>
      if pods_ready then
        log INFO "Pods are in ready state. Proceeding with deployment."
      else ret tt
  | Return => ret tt
  end.

Definition deploy_operator (fuel : nat) (api_client : ApiClient) : M W unit :=
  (* Check if namespace already exists *)
  deployed <- check_resources_deployed api_client "falcon-operator";;
  (if deployed then
     log INFO "Pod resources exist... Skipping deployment"
   else
     try_except
       (log INFO "Deploying Falcon operator";;
        create_from_yaml api_client "falcon_operator.yaml")
       (fun e => log ERROR (exn_str e);; raise e));;
  (* Check if pods are ready *)
  await_operator_pods fuel api_client.

(** *** [list_falcon_deployments] *)

Definition list_falcon_deployments (api_client : ApiClient)
  : M W (list pyval) :=
  log INFO "Checking to see if there are existing Falcon deployments";;
  try_except
    (falcon_deployments <-
       list_cluster_custom_object api_client
         "falcon.crowdstrike.com" "v1alpha1" "falcondeployments";;
     ret falcon_deployments)
    (fun e =>
       match e with
       | ApiException status _ =>
           if (status =? 404)%Z then ret [] else raise e
       | _ => raise e
       end).

(** *** [deploy_falcon_manifest] *)

Definition deploy_falcon_manifest (api_client : ApiClient)
    (manifest_json : pyval) : M W unit :=
  dynamic_client <- new_dynamic_client api_client;;
  (* Get list of FalconDeployments *)
  deployments <- list_falcon_deployments api_client;;
  if (length deployments =? 0)%nat then
    log INFO "There are no existing Falcon deployments";;
    log INFO "Deploying Falcon";;
    try_except
      (falcon_deployment <-
         resources_get dynamic_client
           "falcon.crowdstrike.com/v1alpha1" "FalconDeployment";;
       create (dynamic_api_client dynamic_client) falcon_deployment
         manifest_json "falcon-operator")
      (fun e => log ERROR (exn_str e);; raise e)
  else
    log INFO "There are existing Falcon deployments. Exiting...".

(** *** [main] *)

(** Lines 56-58: the asset name carried by the event. *)
Definition payload_asset_name (data : pyval) : result pyval :=
  rbind (getitem data "data") (fun blob =>
  rbind (b64_json_loads blob) (fun payload =>
  rbind (getitem payload "asset") (fun asset =>
  getitem asset "name"))).

Definition unmanageable : list string :=
  ["STOPPING"; "ERROR"; "DEGRADED"; "STATUS_UNSPECIFIED"].

(** The condition and the body of the readiness loop. *)
Definition poll_cond (st : poll_vars) : bool :=
  negb (cluster_status st =? "RUNNING")%string
  && (cluster_status_check_counter st <=? MAX_CLUSTER_STATUS_CHECK_COUNT)%Z.

Definition poll_body (cluster_name zone project_id : string) (st : poll_vars)
  : M W (ctl poll_vars) :=
  cluster <- get_cluster cluster_name zone project_id;;
  let cluster_status := cluster_status_name cluster in
  log DEBUG ("Cluster status: " ++ cluster_status ++ " ");;
  if str_in cluster_status unmanageable then
    log WARNING ("Cluster in unmanageable state: " ++ cluster_status ++ "... Exiting");;
    ret Return
  else
    (if str_in cluster_status ["PROVISIONING"] then
       log INFO "Cluster in provisioning state... Sleeping.";;
       sleep 60
     else if str_in cluster_status ["RUNNING"] then
       log INFO "Deploying operator on cluster"
     else ret tt);;
    ret (Next (mkPoll (Some cluster) cluster_status
                      (cluster_status_check_counter st + 1))).

(** Lines 87-98: what follows the readiness loop. *)
Definition protect_cluster (fuel : nat) (is_autopilot : bool)
    (cluster_name : string) (st : poll_vars) : M W unit :=
  (* retrieve manifests *)
  operator_manifest <- download_operator_manifest;;
  falcon_deployment_manifest <-
    configure_falcon_deployment_manifest is_autopilot;;
  (* get kubernetes clients *)
  cluster <- lift (match cluster st with
                   | Some c => inr c
                   | None => inl (UnboundLocalError "cluster")
                   end);;
  api_client <- get_kube_clients cluster;;
  (* protect cluster *)
  deploy_operator fuel api_client;;
  deploy_falcon_manifest api_client falcon_deployment_manifest;;
  log INFO ("Cluster " ++ cluster_name ++ " protected.");;
  ret tt.

(** Lines 70-85: the readiness loop.  Its counter stops it after
    [MAX_CLUSTER_STATUS_CHECK_COUNT + 1] rounds at the latest, which is the
    fuel it is given. *)
Definition await_cluster (cluster_name zone project_id : string)
  : M W (ctl poll_vars) :=
  let cluster_status_check_counter := 0%Z in
  let cluster_status := "" in
  while (Z.to_nat (MAX_CLUSTER_STATUS_CHECK_COUNT + 1)) poll_cond
    (poll_body cluster_name zone project_id)
    (mkPoll None cluster_status cluster_status_check_counter).

(** Lines 69-98: the handler once the identity of the cluster is known. *)
Definition ready_then_protect (fuel : nat) (is_autopilot : bool)
    (cluster_name zone project_id : string) : M W unit :=
  (* check if cluster is ready *)
  r <- await_cluster cluster_name zone project_id;;
  match r with
  | Return => ret tt
  | Next st => protect_cluster fuel is_autopilot cluster_name st
  end.

(** The body of the [try] of [main]. *)
Definition main_try (fuel : nat) (data : pyval) : M W unit :=
  (* decode payload, parse fields *)
  asset_name <- lift (payload_asset_name data);;
  cluster_name <- lift (rbind (split_slash asset_name) (fun l => index l 8));;
  project_id <- lift (rbind (split_slash asset_name) (fun l => index l 4));;
  zone <- lift (rbind (split_slash asset_name) (fun l => index l 6));;
  let is_autopilot := true in
  log INFO ("asset name: " ++ format asset_name);;
  log INFO ("cluster_name: " ++ cluster_name);;
  log INFO ("project_id: " ++ project_id);;
  log INFO ("zone: " ++ zone);;
  ready_then_protect fuel is_autopilot cluster_name zone project_id.

(** The [except Exception] clause of [main]. *)
Definition main_except (e : exn) : M W unit :=
  log ERROR ("Unexpected error in main function: " ++ exn_str e);;
  raise e.

Definition main (fuel : nat) (data : pyval) : M W unit :=
  try_except (main_try fuel data) main_except.

End Handler.

(** ** A scripted world *)

(** A world that answers from a script: the n-th status fetch and the n-th
    pod listing get the n-th answer, every other call a fixed one.  Its state
    counts the fetches and the listings made so far. *)
Record Script : Type := mkScript {
  sc_cluster : nat -> result Cluster;
  sc_kube_clients : result ApiClient;
  sc_urlretrieve : result unit;
  sc_read_file : result string;
  sc_write_file : result unit;
  sc_read_namespace : result unit;
  sc_pods : nat -> result (list Pod);
  sc_create_from_yaml : result unit;
  sc_custom_objects : result (list pyval);
  sc_create : result unit;
  sc_dynamic_client : result unit;
  sc_resources_get : result unit
}.

Record counters : Type := mkCounters {
  fetches : nat;
  listings : nat
}.

#[global] Instance scripted (sc : Script) : World counters := {|
  get_cluster_op := fun _ _ _ w =>
    (sc_cluster sc (fetches w), mkCounters (S (fetches w)) (listings w));
  get_kube_clients_op := fun _ w => (sc_kube_clients sc, w);
  sleep_op := fun _ w => w;
  urlretrieve_op := fun _ _ w => (sc_urlretrieve sc, w);
  read_file_op := fun _ w => (sc_read_file sc, w);
  write_file_op := fun _ _ w => (sc_write_file sc, w);
  read_namespace_op := fun _ _ w => (sc_read_namespace sc, w);
  list_namespaced_pod_op := fun _ _ w =>
    (sc_pods sc (listings w), mkCounters (fetches w) (S (listings w)));
  create_from_yaml_op := fun _ _ w => (sc_create_from_yaml sc, w);
  list_cluster_custom_object_op := fun _ _ _ _ w => (sc_custom_objects sc, w);
  dynamic_client_op := fun _ w => (sc_dynamic_client sc, w);
  resources_get_op := fun _ _ _ w => (sc_resources_get sc, w);
  create_op := fun _ _ _ _ _ w => (sc_create sc, w)
|}.

Definition start : counters := mkCounters 0 0.

(** ** Reading traces *)

(** The manifests applied with [create_from_yaml], in order. *)
Fixpoint apply_calls (tr : list event) : list (ApiClient * string) :=
  match tr with
  | [] => []
  | EvCreateFromYaml api yaml_file :: tr' => (api, yaml_file) :: apply_calls tr'
  | _ :: tr' => apply_calls tr'
  end.

(** The custom resources created, in order: body and namespace. *)
Fixpoint create_calls (tr : list event) : list (ApiClient * pyval * string) :=
  match tr with
  | [] => []
  | EvCreate api _ _ body namespace :: tr' =>
      (api, body, namespace) :: create_calls tr'
  | _ :: tr' => create_calls tr'
  end.

(** The cluster status fetches, in order. *)
Fixpoint fetch_calls (tr : list event) : list (string * string * string) :=
  match tr with
  | [] => []
  | EvGetCluster cluster_name zone project_id :: tr' =>
      (cluster_name, zone, project_id) :: fetch_calls tr'
  | _ :: tr' => fetch_calls tr'
  end.

(** The sleeps, in order. *)
Fixpoint sleep_calls (tr : list event) : list Z :=
  match tr with
  | [] => []
  | EvSleep seconds :: tr' => seconds :: sleep_calls tr'
  | _ :: tr' => sleep_calls tr'
  end.

(** The calls that change the cluster (applies and creations), in order. *)
Fixpoint install_calls (tr : list event) : list event :=
  match tr with
  | [] => []
  | EvCreateFromYaml api yaml_file :: tr' =>
      EvCreateFromYaml api yaml_file :: install_calls tr'
  | EvCreate api api_version kind body namespace :: tr' =>
      EvCreate api api_version kind body namespace :: install_calls tr'
  | _ :: tr' => install_calls tr'
  end.

(** The clusters a Kubernetes client was asked for, in order. *)
Fixpoint client_calls (tr : list event) : list Cluster :=
  match tr with
  | [] => []
  | EvGetKubeClients c :: tr' => c :: client_calls tr'
  | _ :: tr' => client_calls tr'
  end.

(** The files written, in order: name and content. *)
Fixpoint write_calls (tr : list event) : list (string * string) :=
  match tr with
  | [] => []
  | EvWriteFile filename content :: tr' => (filename, content) :: write_calls tr'
  | _ :: tr' => write_calls tr'
  end.

(** The downloads, in order: URL and local file. *)
Fixpoint download_calls (tr : list event) : list (string * string) :=
  match tr with
  | [] => []
  | EvUrlRetrieve url filename :: tr' => (url, filename) :: download_calls tr'
  | _ :: tr' => download_calls tr'
  end.

(** Every call of every run of [m] satisfies [P]. *)
Definition emits {W A} (P : event -> Prop) (m : M W A) : Prop :=
  forall w, Forall P (evs (m w)).

Definition is_apply (ev : event) : Prop :=
  match ev with EvCreateFromYaml _ _ => True | _ => False end.

Definition is_fetch (ev : event) : Prop :=
  match ev with EvGetCluster _ _ _ => True | _ => False end.

(** [r] with the calls [t] made before it. *)
Definition prepend {W A} (t : list event) (r : run W A) : run W A :=
  mkRun (out r) (world r) (t ++ evs r).

(** The cluster-scoped listing [list_falcon_deployments] makes. *)
Definition custom_list_event (api : ApiClient) : event :=
  EvListClusterCustomObject api "falcon.crowdstrike.com" "v1alpha1" "falcondeployments".


(** ** The manifest as a document *)

(** The [advanced] settings of the node sensor. *)
Definition advanced_settings (cfg : Config) : dict :=
  (if negb (FALCON_AUTO_UPDATE cfg =? "off")%string
   then [("autoUpdate", PStr (FALCON_AUTO_UPDATE cfg))] else [])
  ++ (if truthy (FALCON_UPDATE_POLICY cfg)
      then [("updatePolicy", PStr (FALCON_UPDATE_POLICY cfg))] else []).

(** The [node] section. *)
Definition node_section (cfg : Config) (is_autopilot : bool) : dict :=
  (if negb (FALCON_AUTO_UPDATE cfg =? "off")%string
      || truthy (FALCON_UPDATE_POLICY cfg)
   then [("advanced", PDict (advanced_settings cfg))] else [])
  ++ (if truthy (FALCON_SENSOR_VERSION cfg)
      then [("version", PStr (FALCON_SENSOR_VERSION cfg))] else [])
  ++ (if is_autopilot then autopilot_config else []).

(** The whole document, entry by entry in insertion order. *)
Definition rendered_manifest (cfg : Config) (is_autopilot : bool) : pyval :=
  PDict
    [ ("apiVersion", PStr "falcon.crowdstrike.com/v1alpha1");
      ("kind", PStr "FalconDeployment");
      ("metadata", PDict [("name", PStr "falcon-deployment")]);
      ("spec", PDict
         ([ ("falcon_api", PDict
               [ ("client_id", PStr (FALCON_CLIENT_ID cfg));
                 ("client_secret", PStr (FALCON_CLIENT_SECRET cfg));
                 ("cloud_region", PStr "us-2") ]);
            ("deployAdmissionController", PBool true);
            ("deployNodeSensor", PBool true);
            ("deployImageAnalyzer", PBool false);
            ("deployContainerSensor", PBool false) ]
          ++ (if truthy (FALCON_SENSOR_TAGS cfg)
              then [("falcon", PDict [("tags", PStr (FALCON_SENSOR_TAGS cfg))])]
              else [])
          ++ [("falconNodeSensor",
               PDict [("node", PDict (node_section cfg is_autopilot))])])) ].

(** What building the manifest logs before it writes the file. *)
Definition build_log (cfg : Config) : list event :=
  (if negb (FALCON_AUTO_UPDATE cfg =? "off")%string
   then [EvLog INFO ("Auto-update enabled with mode: " ++ FALCON_AUTO_UPDATE cfg)]
   else [])
  ++ (if truthy (FALCON_UPDATE_POLICY cfg)
      then [EvLog INFO ("Using update policy: " ++ FALCON_UPDATE_POLICY cfg)]
      else [])
  ++ (if truthy (FALCON_SENSOR_VERSION cfg)
      then [EvLog INFO ("Pinning sensor version to: " ++ FALCON_SENSOR_VERSION cfg)]
      else [])
  ++ (if truthy (FALCON_SENSOR_TAGS cfg)
      then [EvLog INFO ("Adding sensor tags: " ++ FALCON_SENSOR_TAGS cfg)]
      else []).

(** The key paths, from the root, at which the key [k] occurs in a
    document. *)
Fixpoint key_paths (k : string) (v : pyval) : list (list string) :=
  match v with
  | PDict d =>
      (fix entries (d : list (string * pyval)) : list (list string) :=
         match d with
         | [] => []
         | (k', v') :: d' =>
             (if (k' =? k)%string then [[k']] else [])
             ++ map (cons k') (key_paths k v')
             ++ entries d'
         end) d
  | PList l =>
      (fix items (l : list pyval) : list (list string) :=
         match l with
         | [] => []
         | v' :: l' => key_paths k v' ++ items l'
         end) l
  | _ => []
  end.

(** [v[k1][k2]...], when every key on the way is there. *)
Fixpoint lookup_path (v : pyval) (path : list string) : option pyval :=
  match path with
  | [] => Some v
  | k :: path' =>
      match v with
      | PDict d =>
          match Dict.get d k with
          | Some v' => lookup_path v' path'
          | None => None
          end
      | _ => None
      end
  end.

(** The node section of a document holds every entry of the autopilot
    sub-config. *)
Definition autopilot_node (m : pyval) : Prop :=
  Forall
    (fun kv =>
       lookup_path m ["spec"; "falconNodeSensor"; "node"; fst kv] = Some (snd kv))
    autopilot_config.

(** What [main] logs once it has the identity of the cluster. *)
Definition identity_log (s cn p z : string) : list event :=
  [EvLog INFO ("asset name: " ++ s);
   EvLog INFO ("cluster_name: " ++ cn);
   EvLog INFO ("project_id: " ++ p);
   EvLog INFO ("zone: " ++ z)].

(** A call that carries the manifest carries the document built with the
    autopilot flag set. *)
Definition carries_autopilot_manifest (cfg : Config)
    (yaml_dump : pyval -> string) (ev : event) : Prop :=
  match ev with
  | EvCreate _ _ _ body _ => body = rendered_manifest cfg true
  | EvWriteFile _ content => content = yaml_dump (rendered_manifest cfg true)
  | _ => True
  end.

(** A status fetch asks for the cluster of the event. *)
Definition fetches_only (cn z p : string) (ev : event) : Prop :=
  match ev with
  | EvGetCluster cn' z' p' => (cn', z', p') = (cn, z, p)
  | _ => True
  end.

(** The creation [deploy_falcon_manifest] makes. *)
Definition falcon_create_event (api : ApiClient) (body : pyval) : event :=
  EvCreate api "falcon.crowdstrike.com/v1alpha1" "FalconDeployment" body
    "falcon-operator".

(** ** Sample worlds *)

Definition no_options : Config :=
  mkConfig "client-id" "client-secret" "off" "" "" "".

Definition all_options : Config :=
  mkConfig "client-id" "client-secret" "normal" "platform_default" "7.18.0"
    "env,prod".

(** A stand-in for [yaml.dump]: the key paths of the document. *)
Fixpoint outline (v : pyval) : string :=
  match v with
  | PDict d =>
      (fix entries (d : list (string * pyval)) : string :=
         match d with
         | [] => ""
         | (k, v') :: d' => (k ++ "{" ++ outline v' ++ "}" ++ entries d')%string
         end) d
  | PList l =>
      (fix items (l : list pyval) : string :=
         match l with
         | [] => ""
         | v' :: l' => ("[" ++ outline v' ++ "]" ++ items l')%string
         end) l
  | PStr s => s
  | other => format other
  end.

Definition demo_asset : string :=
  "//container.googleapis.com/projects/proj1/zones/us-central1-a/clusters/demo".

Definition short_asset : string :=
  "//container.googleapis.com/projects/proj1".

(** A stand-in for the decoder: the event carries what its [data] field
    holds, already decoded. *)
Definition decoded (blob : pyval) : result pyval :=
  inr (PDict [("asset", PDict [("name", blob)])]).

Definition event_for (asset_name : string) : pyval :=
  PDict [("data", PStr asset_name)].

Definition api0 : ApiClient := mkApiClient "https://10.0.0.2".

Definition running_pod : Pod :=
  mkPod "falcon-operator-controller-manager" "Running".

Definition running_cluster : Cluster := mkCluster "demo" "RUNNING".

Definition existing_deployment : pyval :=
  PDict [("kind", PStr "FalconDeployment");
         ("metadata", PDict [("name", PStr "falcon-deployment")])].

(** A running cluster that is already protected: the namespace exists, its
    pod runs, a FalconDeployment exists, and every call succeeds. *)
Definition protected : Script :=
  mkScript (fun _ => inr running_cluster) (inr api0) (inr tt)
    (inr "kind: Namespace") (inr tt) (inr tt) (fun _ => inr [running_pod])
    (inr tt) (inr [existing_deployment]) (inr tt) (inr tt) (inr tt).

Definition with_cluster (f : nat -> result Cluster) (sc : Script) : Script :=
  mkScript f (sc_kube_clients sc) (sc_urlretrieve sc) (sc_read_file sc)
    (sc_write_file sc) (sc_read_namespace sc) (sc_pods sc)
    (sc_create_from_yaml sc) (sc_custom_objects sc) (sc_create sc)
    (sc_dynamic_client sc) (sc_resources_get sc).

Definition with_read_namespace (r : result unit) (sc : Script) : Script :=
  mkScript (sc_cluster sc) (sc_kube_clients sc) (sc_urlretrieve sc)
    (sc_read_file sc) (sc_write_file sc) r (sc_pods sc)
    (sc_create_from_yaml sc) (sc_custom_objects sc) (sc_create sc)
    (sc_dynamic_client sc) (sc_resources_get sc).

Definition with_pods (f : nat -> result (list Pod)) (sc : Script) : Script :=
  mkScript (sc_cluster sc) (sc_kube_clients sc) (sc_urlretrieve sc)
    (sc_read_file sc) (sc_write_file sc) (sc_read_namespace sc) f
    (sc_create_from_yaml sc) (sc_custom_objects sc) (sc_create sc)
    (sc_dynamic_client sc) (sc_resources_get sc).

Definition with_custom_objects (r : result (list pyval)) (sc : Script) : Script :=
  mkScript (sc_cluster sc) (sc_kube_clients sc) (sc_urlretrieve sc)
    (sc_read_file sc) (sc_write_file sc) (sc_read_namespace sc) (sc_pods sc)
    (sc_create_from_yaml sc) r (sc_create sc)
    (sc_dynamic_client sc) (sc_resources_get sc).

Definition with_create (r : result unit) (sc : Script) : Script :=
  mkScript (sc_cluster sc) (sc_kube_clients sc) (sc_urlretrieve sc)
    (sc_read_file sc) (sc_write_file sc) (sc_read_namespace sc) (sc_pods sc)
    (sc_create_from_yaml sc) (sc_custom_objects sc) r
    (sc_dynamic_client sc) (sc_resources_get sc).

(** The pods of the operator appear after the first listing. *)
Definition pods_after_first (n : nat) : result (list Pod) :=
  match n with
  | O => inr []
  | S _ => inr [running_pod]
  end.

Definition not_found : exn := ApiException 404 (mkResponse "Not Found" "" "").
Definition forbidden : exn := ApiException 403 (mkResponse "Forbidden" "" "").
Definition conflict : exn := ApiException 409 (mkResponse "Conflict" "" "").

(** A running cluster nothing was installed on. *)
Definition fresh : Script :=
  with_read_namespace (inl not_found)
    (with_pods pods_after_first (with_custom_objects (inr []) protected)).

(** The namespace exists but no pod was ever scheduled in it. *)
Definition empty_namespace : Script :=
  with_pods pods_after_first protected.

Definition stopping_cluster : Cluster := mkCluster "demo" "STOPPING".
Definition provisioning_cluster : Cluster := mkCluster "demo" "PROVISIONING".

(** A cluster that is being torn down. *)
Definition stopping : Script :=
  with_cluster (fun _ => inr stopping_cluster) fresh.

(** A cluster that never leaves PROVISIONING. *)
Definition never_ready : Script :=
  with_cluster (fun _ => inr provisioning_cluster) fresh.

(** The scenario of the specification: the cluster is PROVISIONING twice,
    then RUNNING; the operator namespace is absent; the pods appear after the
    first listing; there is no FalconDeployment yet. *)
Definition becoming_ready : Script :=
  with_cluster
    (fun n => match n with
              | 0 | 1 => inr provisioning_cluster
              | _ => inr running_cluster
              end)
    fresh.

(** ** Waiting for the pods of the operator *)

(** The pod listings, in order. *)
Fixpoint pod_listing_calls (tr : list event) : list (ApiClient * string) :=
  match tr with
  | [] => []
  | EvListNamespacedPod api namespace :: tr' =>
      (api, namespace) :: pod_listing_calls tr'
  | _ :: tr' => pod_listing_calls tr'
  end.

(** The custom-resource listings, in order. *)
Fixpoint custom_listing_calls (tr : list event) : list ApiClient :=
  match tr with
  | [] => []
  | EvListClusterCustomObject api _ _ _ :: tr' => api :: custom_listing_calls tr'
  | _ :: tr' => custom_listing_calls tr'
  end.

(** A call that only logs or reads the state of the cluster. *)
Definition read_only (ev : event) : Prop :=
  match ev with
  | EvLog _ _ | EvReadNamespace _ _ | EvListNamespacedPod _ _
  | EvListClusterCustomObject _ _ _ _ => True
  | _ => False
  end.

(** A creation of a custom resource. *)
Definition is_create (ev : event) : Prop :=
  match ev with EvCreate _ _ _ _ _ => True | _ => False end.

Section Trajectories.
Context {W : Type} {world_ops : World W}.

(** The body of the [while not pods_ready] loop of [deploy_operator]. *)
Definition pod_wait_body (api_client : ApiClient) (_ : bool) : M W (ctl bool) :=
  log INFO "Pods are not yet ready. Sleeping for 10 seconds";;
  sleep POD_READY_STATE_SECONDS_TO_SLEEP;;
  pods_ready <- check_pods_are_ready api_client "falcon-operator";;
  ret (Next pods_ready).

(** From the world [w], the next [n] pod listings of the wait (a sleep of 10
    seconds apart) show no running pod, and the one after them does. *)
Fixpoint pods_ready_after (api : ApiClient) (n : nat) (w : W) : Prop :=
  match n with
  | O =>
      exists pods w',
        list_namespaced_pod_op api "falcon-operator" w = (inr pods, w') /\
        any_pod_running pods false = true
  | S n' =>
      exists pods w',
        list_namespaced_pod_op api "falcon-operator" w = (inr pods, w') /\
        any_pod_running pods false = false /\
        pods_ready_after api n' (sleep_op POD_READY_STATE_SECONDS_TO_SLEEP w')
  end.

(** No pod listing of the namespace of the operator ever shows a running
    pod. *)
Definition pods_never_ready (api : ApiClient) : Prop :=
  forall w : W, exists pods w',
    list_namespaced_pod_op api "falcon-operator" w = (inr pods, w') /\
    any_pod_running pods false = false.

End Trajectories.

(** The pods of the operator run from the third listing on. *)
Definition pods_after_two (n : nat) : result (list Pod) :=
  match n with
  | 0 | 1 => inr [mkPod "falcon-operator-controller-manager" "Pending"]
  | _ => inr [mkPod "falcon-operator-controller-manager" "Pending"; running_pod]
  end.

(** The operator is installed but its pod stays in [Pending]. *)
Definition stuck_pending : Script :=
  with_pods (fun _ => inr [mkPod "falcon-operator-controller-manager" "Pending"])
    protected.

(** What a run [r] of the readiness loop, entered with the variables [st] and
    followed for [fuel] rounds, shows: one status fetch a round, each for the
    cluster of the event; a one-minute sleep at most once a fetch; a counter
    that counts the fetches; and, when the loop is left by its condition, a
    bound [cluster] variable that holds a cluster in a manageable state. *)
Definition readiness_facts {W : Type} (cn z p : string) (st : poll_vars)
    (fuel : nat) (r : run W (ctl poll_vars)) : Prop :=
  length (fetch_calls (evs r)) <= fuel /\
  Forall (eq (cn, z, p)) (fetch_calls (evs r)) /\
  length (sleep_calls (evs r)) <= length (fetch_calls (evs r)) /\
  Forall (eq 60%Z) (sleep_calls (evs r)) /\
  (poll_cond st = true -> 0 < fuel -> 1 <= length (fetch_calls (evs r))) /\
  (forall st',
      out r = Ret (Next st') ->
      cluster_status_check_counter st' =
        (cluster_status_check_counter st
         + Z.of_nat (length (fetch_calls (evs r))))%Z /\
      poll_cond st' = false /\
      (poll_cond st = true ->
       exists c, cluster st' = Some c /\
                 cluster_status st' = cluster_status_name c /\
                 ~ In (cluster_status st') unmanageable)).

(** The statuses the readiness loop has a branch for. *)
Definition known_statuses : list string :=
  unmanageable ++ ["PROVISIONING"; "RUNNING"].

Definition reconciling_cluster : Cluster := mkCluster "demo" "RECONCILING".

(** A cluster under repair: its status is RECONCILING at every fetch. *)
Definition reconciling : Script :=
  with_cluster (fun _ => inr reconciling_cluster) fresh.

(** The cluster API is down. *)
Definition unreachable : Script :=
  with_cluster (fun _ => inl (OSError "503 Service Unavailable")) fresh.

Definition with_create_from_yaml (r : result unit) (sc : Script) : Script :=
  mkScript (sc_cluster sc) (sc_kube_clients sc) (sc_urlretrieve sc)
    (sc_read_file sc) (sc_write_file sc) (sc_read_namespace sc) (sc_pods sc)
    r (sc_custom_objects sc) (sc_create sc)
    (sc_dynamic_client sc) (sc_resources_get sc).

Definition with_urlretrieve (r : result unit) (sc : Script) : Script :=
  mkScript (sc_cluster sc) (sc_kube_clients sc) r
    (sc_read_file sc) (sc_write_file sc) (sc_read_namespace sc) (sc_pods sc)
    (sc_create_from_yaml sc) (sc_custom_objects sc) (sc_create sc)
    (sc_dynamic_client sc) (sc_resources_get sc).

Definition with_write_file (r : result unit) (sc : Script) : Script :=
  mkScript (sc_cluster sc) (sc_kube_clients sc) (sc_urlretrieve sc)
    (sc_read_file sc) r (sc_read_namespace sc) (sc_pods sc)
    (sc_create_from_yaml sc) (sc_custom_objects sc) (sc_create sc)
    (sc_dynamic_client sc) (sc_resources_get sc).

(** ** Text *)

(** [c in s] for a character [c]. *)
Fixpoint contains (c : ascii) (s : string) : bool :=
  match s with
  | EmptyString => false
  | String c' s' => Ascii.eqb c' c || contains c s'
  end.

(** [s.count(c)] for a character [c]. *)
Fixpoint count_char (c : ascii) (s : string) : nat :=
  match s with
  | EmptyString => 0
  | String c' s' => (if Ascii.eqb c' c then 1 else 0) + count_char c s'
  end.

(** The name of the asset of a zonal cluster, as the asset inventory writes
    it. *)
Definition gke_asset_name (project_id zone cluster_name : string) : string :=
  "//container.googleapis.com/projects/" ++ project_id
  ++ "/zones/" ++ zone ++ "/clusters/" ++ cluster_name.

(** The keys of the autopilot sub-config, at every depth. *)
Definition autopilot_keys : list string :=
  ["backend"; "gke"; "autopilot"; "resources"; "requests"; "cpu"; "memory";
   "tolerations"; "effect"; "operator"; "key"; "value"].

(** Auto-update set to the empty string, nothing else. *)
Definition blank_auto_update : Config :=
  mkConfig "client-id" "client-secret" "" "" "" "".

(** ** Counting calls *)

Definition applyb (ev : event) : bool :=
  match ev with EvCreateFromYaml _ _ => true | _ => false end.

Definition createb (ev : event) : bool :=
  match ev with EvCreate _ _ _ _ _ => true | _ => false end.

Fixpoint count_if (p : event -> bool) (tr : list event) : nat :=
  match tr with
  | [] => 0
  | ev :: tr' => (if p ev then 1 else 0) + count_if p tr'
  end.

(** No run of [m] makes more than [n] calls that satisfy [p]. *)
Definition at_most {W A} (p : event -> bool) (n : nat) (m : M W A) : Prop :=
  forall w, count_if p (evs (m w)) <= n.

(** A call that stays on the machine of the handler or fetches a file: it
    does not reach the cluster. *)
Definition local_only (ev : event) : Prop :=
  match ev with
  | EvLog _ _ | EvUrlRetrieve _ _ | EvReadFile _ | EvWriteFile _ _ => True
  | _ => False
  end.

(** An event without its [data] field. *)
Definition empty_event : pyval := PDict [].

Definition service_unavailable : exn := OSError "503 Service Unavailable".
Definition disk_full : exn := OSError "No space left on device".

(** ** The configuration at import *)

(** [os.environ]: the variables that are set. *)
Definition environ : Type := string -> option string.

(** [os.environ[key]] *)
Definition environ_getitem (env : environ) (key : string) : result string :=
  match env key with
  | Some v => inr v
  | None => inl (KeyError key)
  end.

(** [os.environ.get(key, default)] *)
Definition environ_get (env : environ) (key default : string) : string :=
  match env key with
  | Some v => v
  | None => default
  end.

(** Lines 34-39: the module-level configuration, read when the module is
    imported.  The credentials are required; the rest has defaults. *)
Definition load_config (env : environ) : result Config :=
  rbind (environ_getitem env "FALCON_CLIENT_ID") (fun client_id =>
  rbind (environ_getitem env "FALCON_CLIENT_SECRET") (fun client_secret =>
  inr (mkConfig client_id client_secret
         (environ_get env "FALCON_AUTO_UPDATE" "off")
         (environ_get env "FALCON_UPDATE_POLICY" "")
         (environ_get env "FALCON_SENSOR_VERSION" "")
         (environ_get env "FALCON_SENSOR_TAGS" "")))).

(** An environment that sets the credentials and nothing else. *)
Definition credentials_only (key : string) : option string :=
  if (key =? "FALCON_CLIENT_ID")%string then Some "client-id"
  else if (key =? "FALCON_CLIENT_SECRET")%string then Some "client-secret"
  else None.

(** An environment without the client secret. *)
Definition secret_missing (key : string) : option string :=
  if (key =? "FALCON_CLIENT_ID")%string then Some "client-id" else None.

Definition with_dynamic_client (r : result unit) (sc : Script) : Script :=
  mkScript (sc_cluster sc) (sc_kube_clients sc) (sc_urlretrieve sc)
    (sc_read_file sc) (sc_write_file sc) (sc_read_namespace sc) (sc_pods sc)
    (sc_create_from_yaml sc) (sc_custom_objects sc) (sc_create sc)
    r (sc_resources_get sc).

Definition with_resources_get (r : result unit) (sc : Script) : Script :=
  mkScript (sc_cluster sc) (sc_kube_clients sc) (sc_urlretrieve sc)
    (sc_read_file sc) (sc_write_file sc) (sc_read_namespace sc) (sc_pods sc)
    (sc_create_from_yaml sc) (sc_custom_objects sc) (sc_create sc)
    (sc_dynamic_client sc) r.

(** The cluster does not serve the kind: the operator has not registered
    its custom resources. *)
Definition kind_not_found : exn :=
  OtherException "No matches found for {'api_version': 'falcon.crowdstrike.com/v1alpha1', 'kind': 'FalconDeployment'}".

(** A call other than a file write. *)
Definition not_write (ev : event) : Prop :=
  match ev with EvWriteFile _ _ => False | _ => True end.
(** ** Laws of the monad *)

Section MonadFacts.
Context {W : Type}.

Lemma prepend_prepend {A} (t t' : list event) (r : run W A) :
  prepend t (prepend t' r) = prepend (t ++ t') r.
Proof. unfold prepend; cbn. now rewrite app_assoc. Qed.

Lemma bind_Ret {A B} (m : M W A) (f : A -> M W B) w a w' t :
  m w = mkRun (Ret a) w' t -> bind m f w = prepend t (f a w').
Proof. intros H. unfold bind, prepend. rewrite H. now destruct (f a w'). Qed.

Lemma bind_Raise {A B} (m : M W A) (f : A -> M W B) w e w' t :
  m w = mkRun (Raise e) w' t -> bind m f w = mkRun (Raise e) w' t.
Proof. intros H. unfold bind. now rewrite H. Qed.

Lemma bind_Diverge {A B} (m : M W A) (f : A -> M W B) w w' t :
  m w = mkRun Diverge w' t -> bind m f w = mkRun Diverge w' t.
Proof. intros H. unfold bind. now rewrite H. Qed.

Lemma try_Raise {A} (m : M W A) h w e w' t :
  m w = mkRun (Raise e) w' t -> try_except m h w = prepend t (h e w').
Proof. intros H. unfold try_except, prepend. rewrite H. now destruct (h e w'). Qed.

Lemma try_Ret {A} (m : M W A) h w a w' t :
  m w = mkRun (Ret a) w' t -> try_except m h w = mkRun (Ret a) w' t.
Proof. intros H. unfold try_except. now rewrite H. Qed.

Lemma try_Diverge {A} (m : M W A) h w w' t :
  m w = mkRun Diverge w' t -> try_except m h w = mkRun Diverge w' t.
Proof. intros H. unfold try_except. now rewrite H. Qed.

Lemma bind_log {B} lvl msg (f : unit -> M W B) w :
  bind (log lvl msg) f w = prepend [EvLog lvl msg] (f tt w).
Proof. unfold bind, log, prepend. now destruct (f tt w). Qed.

Lemma bind_ret {A B} (a : A) (f : A -> M W B) w : bind (ret a) f w = f a w.
Proof. unfold bind, ret. now destruct (f a w). Qed.

Lemma bind_lift_inr {A B} (a : A) (f : A -> M W B) w :
  bind (lift (inr a)) f w = f a w.
Proof. apply bind_ret. Qed.

Lemma bind_lift_inl {A B} e (f : A -> M W B) w :
  bind (lift (inl e)) f w = mkRun (Raise e) w [].
Proof. reflexivity. Qed.

Lemma call_inr {A} ev (op : W -> result A * W) w a w' :
  op w = (inr a, w') -> call ev op w = mkRun (Ret a) w' [ev].
Proof. intros H. unfold call. now rewrite H. Qed.

Lemma call_inl {A} ev (op : W -> result A * W) w e w' :
  op w = (inl e, w') -> call ev op w = mkRun (Raise e) w' [ev].
Proof. intros H. unfold call. now rewrite H. Qed.

Lemma evs_call {A} ev (op : W -> result A * W) w : evs (call ev op w) = [ev].
Proof. unfold call. now destruct (op w). Qed.

(** The calls of a sequence are those of its first part followed by those
    of the rest, when the first part returns. *)
Lemma evs_bind {A B} (m : M W A) (f : A -> M W B) w :
  evs (bind m f w) =
  evs (m w) ++ match out (m w) with
               | Ret a => evs (f a (world (m w)))
               | _ => []
               end.
Proof.
  unfold bind. destruct (m w) as [[a|e|] w' t]; cbn; auto using app_nil_r.
  now destruct (f a w').
Qed.

Lemma evs_try_except {A} (m : M W A) h w :
  evs (try_except m h w) =
  evs (m w) ++ match out (m w) with
               | Raise e => evs (h e (world (m w)))
               | _ => []
               end.
Proof.
  unfold try_except. destruct (m w) as [[a|e|] w' t]; cbn; auto using app_nil_r.
  now destruct (h e w').
Qed.

Lemma bind_prepend {A B} (m m' : M W A) (f : A -> M W B) w w' t :
  m w = prepend t (m' w') -> bind m f w = prepend t (bind m' f w').
Proof.
  intros H. unfold bind, prepend in *. rewrite H.
  destruct (m' w') as [[a|e|] w1 t1]; cbn; try reflexivity.
  destruct (f a w1); cbn. now rewrite app_assoc.
Qed.

Lemma try_except_prepend {A} (m m' : M W A) h w w' t :
  m w = prepend t (m' w') -> try_except m h w = prepend t (try_except m' h w').
Proof.
  intros H. unfold try_except, prepend in *. rewrite H.
  destruct (m' w') as [[a|e|] w1 t1]; cbn; try reflexivity.
  destruct (h e w1); cbn. now rewrite app_assoc.
Qed.

Lemma while_done {S} fuel cond (body : S -> M W (ctl S)) s :
  cond s = false -> while fuel cond body s = ret (Next s).
Proof. intros H. destruct fuel; cbn; now rewrite H. Qed.

Lemma while_step {S} fuel cond (body : S -> M W (ctl S)) s :
  cond s = true ->
  while (Datatypes.S fuel) cond body s =
  bind (body s) (fun c => match c with
                          | Next s' => while fuel cond body s'
                          | Return => ret Return
                          end).
Proof. intros H. cbn. now rewrite H. Qed.

(** *** Properties of every call of a run *)

Variable P : event -> Prop.

Lemma emits_ret {A} (a : A) : emits P (@ret W A a).
Proof. intro w; constructor. Qed.

Lemma emits_raise {A} e : emits P (@raise W A e).
Proof. intro w; constructor. Qed.

Lemma emits_diverge {A} : emits P (@diverge W A).
Proof. intro w; constructor. Qed.

Lemma emits_lift {A} (r : result A) : emits P (@lift W A r).
Proof. destruct r; [apply emits_raise | apply emits_ret]. Qed.

Lemma emits_log lvl msg : P (EvLog lvl msg) -> emits P (@log W lvl msg).
Proof. intros H w; cbn. auto. Qed.

Lemma emits_call {A} ev (op : W -> result A * W) : P ev -> emits P (call ev op).
Proof. intros H w. rewrite evs_call. auto. Qed.

Lemma emits_bind {A B} (m : M W A) (f : A -> M W B) :
  emits P m -> (forall a, emits P (f a)) -> emits P (bind m f).
Proof.
  intros Hm Hf w. rewrite evs_bind. apply Forall_app. split; [apply Hm|].
  destruct (out (m w)); [apply Hf | constructor | constructor].
Qed.

Lemma emits_bind_ret {A B} (Q : A -> Prop) (m : M W A) (f : A -> M W B) :
  emits P m -> (forall w a, out (m w) = Ret a -> Q a) ->
  (forall a, Q a -> emits P (f a)) -> emits P (bind m f).
Proof.
  intros Hm HQ Hf w. rewrite evs_bind. apply Forall_app. split; [apply Hm|].
  destruct (out (m w)) eqn:E; [apply Hf; eauto | constructor | constructor].
Qed.

Lemma emits_try_except {A} (m : M W A) h :
  emits P m -> (forall e, emits P (h e)) -> emits P (try_except m h).
Proof.
  intros Hm Hh w. rewrite evs_try_except. apply Forall_app. split; [apply Hm|].
  destruct (out (m w)); [constructor | apply Hh | constructor].
Qed.

Lemma emits_while {S} fuel cond (body : S -> M W (ctl S)) :
  (forall s, emits P (body s)) -> forall s, emits P (while fuel cond body s).
Proof.
  intros Hb. induction fuel as [|fuel IH]; intros s; cbn [while];
    destruct (cond s); try apply emits_ret; try apply emits_diverge.
  apply emits_bind; [apply Hb|].
  intros [s'|]; [apply IH | apply emits_ret].
Qed.

End MonadFacts.

Lemma apply_calls_app t1 t2 : apply_calls (t1 ++ t2) = apply_calls t1 ++ apply_calls t2.
Proof. induction t1 as [|[] t1 IH]; cbn; congruence. Qed.

Lemma create_calls_app t1 t2 :
  create_calls (t1 ++ t2) = create_calls t1 ++ create_calls t2.
Proof. induction t1 as [|[] t1 IH]; cbn; congruence. Qed.

Lemma fetch_calls_app t1 t2 : fetch_calls (t1 ++ t2) = fetch_calls t1 ++ fetch_calls t2.
Proof. induction t1 as [|[] t1 IH]; cbn; congruence. Qed.

Lemma sleep_calls_app t1 t2 : sleep_calls (t1 ++ t2) = sleep_calls t1 ++ sleep_calls t2.
Proof. induction t1 as [|[] t1 IH]; cbn; congruence. Qed.

Lemma write_calls_app t1 t2 : write_calls (t1 ++ t2) = write_calls t1 ++ write_calls t2.
Proof. induction t1 as [|[] t1 IH]; cbn; congruence. Qed.

Lemma download_calls_app t1 t2 :
  download_calls (t1 ++ t2) = download_calls t1 ++ download_calls t2.
Proof. induction t1 as [|[] t1 IH]; cbn; congruence. Qed.

Lemma no_apply_calls tr : Forall (fun ev => ~ is_apply ev) tr -> apply_calls tr = [].
Proof.
  induction 1 as [|ev tr H _ IH]; [reflexivity|].
  destruct ev; cbn in *; auto. tauto.
Qed.

Lemma no_fetch_calls tr : Forall (fun ev => ~ is_fetch ev) tr -> fetch_calls tr = [].
Proof.
  induction 1 as [|ev tr H _ IH]; [reflexivity|].
  destruct ev; cbn in *; auto. tauto.
Qed.

(** ** Properties of the handler *)

Ltac emits_step side :=
  first
    [ apply emits_ret | apply emits_raise | apply emits_diverge | apply emits_lift
    | apply emits_log; solve [side]
    | apply emits_call; solve [side]
    | apply emits_bind; [|intros ?]
    | apply emits_try_except; [|intros ?]
    | apply emits_while; intros ?
    | match goal with
      | |- emits _ (if ?b then _ else _) => destruct b
      | |- emits _ (match ?x with _ => _ end) => destruct x
      end ].

Ltac emits_with side := repeat emits_step side.

Ltac absent := cbn; tauto.

Section HandlerFacts.
Context {W : Type} {world_ops : World W}.
Variable cfg : Config.
Variable yaml_dump : pyval -> string.
Variable b64_json_loads : pyval -> result pyval.

Lemma emits_sleep (P : event -> Prop) seconds :
  P (EvSleep seconds) -> emits P (sleep seconds).
Proof. intros H w; cbn. auto. Qed.

(** *** The manifest *)

(** A run of the builder: what it logs, the one file it writes, and the
    document it returns when the write succeeds. *)
Lemma configure_falcon_deployment_manifest_run is_autopilot w :
  configure_falcon_deployment_manifest cfg yaml_dump is_autopilot w =
  let manifest := rendered_manifest cfg is_autopilot in
  let written :=
    EvWriteFile "node_sensor_manifest.yaml" (yaml_dump manifest) in
  match write_file_op "node_sensor_manifest.yaml" (yaml_dump manifest) w with
  | (inr _, w') =>
      mkRun (Ret manifest) w'
        (build_log cfg ++
         [written;
          EvLog DEBUG ("Generated manifest:" ++ newline ++ yaml_dump manifest)])
  | (inl e, w') => mkRun (Raise e) w' (build_log cfg ++ [written])
  end.
Proof.
  unfold configure_falcon_deployment_manifest, rendered_manifest, node_section,
    advanced_settings, build_log, write_file, call, autopilot_config,
    bind, lift, ret, raise, log.
  destruct cfg as [id secret auto policy version tags]; cbn [FALCON_CLIENT_ID
    FALCON_CLIENT_SECRET FALCON_AUTO_UPDATE FALCON_UPDATE_POLICY
    FALCON_SENSOR_VERSION FALCON_SENSOR_TAGS].
  destruct (auto =? "off")%string, policy, version, tags, is_autopilot;
    cbn;
    repeat match goal with
    | |- context [write_file_op ?f ?c w] =>
        destruct (write_file_op f c w) as [[e|[]] w']
    end; reflexivity.
Qed.

Lemma build_log_only_logs (c : Config) :
  Forall (fun ev => match ev with EvLog _ _ => True | _ => False end) (build_log c).
Proof.
  unfold build_log.
  destruct (negb (FALCON_AUTO_UPDATE c =? "off")%string),
    (truthy (FALCON_UPDATE_POLICY c)), (truthy (FALCON_SENSOR_VERSION c)),
    (truthy (FALCON_SENSOR_TAGS c)); cbn; repeat constructor.
Qed.

Lemma write_calls_build_log (c : Config) : write_calls (build_log c) = [].
Proof.
  induction (build_log_only_logs c) as [|ev tr H _ IH]; [reflexivity|].
  now destruct ev.
Qed.

Lemma configure_falcon_deployment_manifest_returns is_autopilot w m :
  out (configure_falcon_deployment_manifest cfg yaml_dump is_autopilot w) = Ret m ->
  m = rendered_manifest cfg is_autopilot.
Proof.
  rewrite configure_falcon_deployment_manifest_run. cbv zeta.
  destruct (write_file_op _ _ w) as [[e|u] w']; cbn; congruence.
Qed.

Lemma configure_falcon_deployment_manifest_writes is_autopilot w :
  write_calls
    (evs (configure_falcon_deployment_manifest cfg yaml_dump is_autopilot w)) =
  [("node_sensor_manifest.yaml", yaml_dump (rendered_manifest cfg is_autopilot))].
Proof.
  rewrite configure_falcon_deployment_manifest_run. cbv zeta.
  destruct (write_file_op _ _ w) as [[e|u] w']; cbn [evs];
    now rewrite write_calls_app, write_calls_build_log.
Qed.

Lemma configure_falcon_deployment_manifest_outcome is_autopilot w :
  out (configure_falcon_deployment_manifest cfg yaml_dump is_autopilot w) =
    Ret (rendered_manifest cfg is_autopilot) \/
  exists e,
    out (configure_falcon_deployment_manifest cfg yaml_dump is_autopilot w) =
      Raise e.
Proof.
  rewrite configure_falcon_deployment_manifest_run. cbv zeta.
  destruct (write_file_op _ _ w) as [[e|u] w']; cbn [out]; eauto.
Qed.

(** C7. Field placement.  In the manifest the builder returns, the key
    [tags] occurs exactly at [spec.falcon.tags] when tags are configured and
    nowhere otherwise, and [spec.falcon] holds nothing else; the keys
    [version], [advanced], [autoUpdate] and [updatePolicy] occur only under
    [spec.falconNodeSensor.node], each exactly when its setting is
    configured. *)
Theorem manifest_field_placement is_autopilot w m :
  out (configure_falcon_deployment_manifest cfg yaml_dump is_autopilot w) = Ret m ->
  key_paths "tags" m =
    (if truthy (FALCON_SENSOR_TAGS cfg)
     then [["spec"; "falcon"; "tags"]] else []) /\
  lookup_path m ["spec"; "falcon"] =
    (if truthy (FALCON_SENSOR_TAGS cfg)
     then Some (PDict [("tags", PStr (FALCON_SENSOR_TAGS cfg))]) else None) /\
  key_paths "version" m =
    (if truthy (FALCON_SENSOR_VERSION cfg)
     then [["spec"; "falconNodeSensor"; "node"; "version"]] else []) /\
  lookup_path m ["spec"; "falconNodeSensor"; "node"; "version"] =
    (if truthy (FALCON_SENSOR_VERSION cfg)
     then Some (PStr (FALCON_SENSOR_VERSION cfg)) else None) /\
  key_paths "advanced" m =
    (if negb (FALCON_AUTO_UPDATE cfg =? "off")%string
        || truthy (FALCON_UPDATE_POLICY cfg)
     then [["spec"; "falconNodeSensor"; "node"; "advanced"]] else []) /\
  key_paths "autoUpdate" m =
    (if negb (FALCON_AUTO_UPDATE cfg =? "off")%string
     then [["spec"; "falconNodeSensor"; "node"; "advanced"; "autoUpdate"]]
     else []) /\
  key_paths "updatePolicy" m =
    (if truthy (FALCON_UPDATE_POLICY cfg)
     then [["spec"; "falconNodeSensor"; "node"; "advanced"; "updatePolicy"]]
     else []).
Proof.
  intros H. apply configure_falcon_deployment_manifest_returns in H. subst m.
  unfold rendered_manifest, node_section, advanced_settings, autopilot_config.
  destruct cfg as [id secret auto policy version tags]; cbn [FALCON_CLIENT_ID
    FALCON_CLIENT_SECRET FALCON_AUTO_UPDATE FALCON_UPDATE_POLICY
    FALCON_SENSOR_VERSION FALCON_SENSOR_TAGS].
  destruct (auto =? "off")%string, policy, version, tags, is_autopilot;
    cbn; repeat split; reflexivity.
Qed.

Lemma rendered_manifest_autopilot_node (c : Config) :
  autopilot_node (rendered_manifest c true).
Proof.
  unfold autopilot_node, rendered_manifest, node_section, advanced_settings,
    autopilot_config.
  destruct (negb (FALCON_AUTO_UPDATE c =? "off")%string),
    (truthy (FALCON_UPDATE_POLICY c)), (truthy (FALCON_SENSOR_VERSION c)),
    (truthy (FALCON_SENSOR_TAGS c)); cbn; repeat constructor.
Qed.

(** *** The existence checks *)

Lemma check_resources_deployed_not_found api ns w reason w' :
  read_namespace_op api ns w = (inl (ApiException 404 reason), w') ->
  check_resources_deployed api ns w =
  mkRun (Ret false) w'
    [EvLog DEBUG ("Checking for namespace: " ++ ns ++ "."); EvReadNamespace api ns].
Proof.
  intros H. unfold check_resources_deployed, read_namespace, bind, try_except, call.
  cbn. rewrite H. reflexivity.
Qed.

Lemma check_resources_deployed_read_raises api ns w e w' :
  read_namespace_op api ns w = (inl e, w') ->
  (forall reason, e <> ApiException 404 reason) ->
  check_resources_deployed api ns w =
  mkRun (Raise e) w'
    [EvLog DEBUG ("Checking for namespace: " ++ ns ++ "."); EvReadNamespace api ns].
Proof.
  intros H Hne. unfold check_resources_deployed, read_namespace, bind, try_except, call.
  cbn. rewrite H. cbn. destruct e; try reflexivity.
  destruct (Z.eqb_spec status 404) as [->|]; [|reflexivity].
  now destruct (Hne response).
Qed.

Lemma check_resources_deployed_listed api ns w w1 pods w2 :
  read_namespace_op api ns w = (inr tt, w1) ->
  list_namespaced_pod_op api ns w1 = (inr pods, w2) ->
  check_resources_deployed api ns w =
  mkRun (Ret (0 <? length pods)%nat) w2
    [EvLog DEBUG ("Checking for namespace: " ++ ns ++ ".");
     EvReadNamespace api ns;
     EvLog DEBUG ("Namespace " ++ ns ++ " exists.");
     EvListNamespacedPod api ns].
Proof.
  intros H1 H2.
  unfold check_resources_deployed, read_namespace, list_namespaced_pod,
    bind, try_except, call.
  cbn. rewrite H1. cbn. rewrite H2. cbn. now destruct pods.
Qed.

Lemma check_resources_deployed_list_raises api ns w w1 e w2 :
  read_namespace_op api ns w = (inr tt, w1) ->
  list_namespaced_pod_op api ns w1 = (inl e, w2) ->
  check_resources_deployed api ns w =
  mkRun (Raise e) w2
    [EvLog DEBUG ("Checking for namespace: " ++ ns ++ ".");
     EvReadNamespace api ns;
     EvLog DEBUG ("Namespace " ++ ns ++ " exists.");
     EvListNamespacedPod api ns;
     EvLog ERROR (exn_str e)].
Proof.
  intros H1 H2.
  unfold check_resources_deployed, read_namespace, list_namespaced_pod,
    bind, try_except, call.
  cbn. rewrite H1. cbn. rewrite H2. reflexivity.
Qed.

Lemma list_falcon_deployments_listed api w items w' :
  list_cluster_custom_object_op api
    "falcon.crowdstrike.com" "v1alpha1" "falcondeployments" w = (inr items, w') ->
  list_falcon_deployments api w =
  mkRun (Ret items) w'
    [EvLog INFO "Checking to see if there are existing Falcon deployments";
     custom_list_event api].
Proof.
  intros H. unfold list_falcon_deployments, list_cluster_custom_object,
    bind, try_except, call.
  cbn. rewrite H. reflexivity.
Qed.

Lemma list_falcon_deployments_not_found api w reason w' :
  list_cluster_custom_object_op api
    "falcon.crowdstrike.com" "v1alpha1" "falcondeployments" w =
    (inl (ApiException 404 reason), w') ->
  list_falcon_deployments api w =
  mkRun (Ret []) w'
    [EvLog INFO "Checking to see if there are existing Falcon deployments";
     custom_list_event api].
Proof.
  intros H. unfold list_falcon_deployments, list_cluster_custom_object,
    bind, try_except, call.
  cbn. rewrite H. reflexivity.
Qed.

Lemma list_falcon_deployments_raises api w e w' :
  list_cluster_custom_object_op api
    "falcon.crowdstrike.com" "v1alpha1" "falcondeployments" w = (inl e, w') ->
  (forall reason, e <> ApiException 404 reason) ->
  list_falcon_deployments api w =
  mkRun (Raise e) w'
    [EvLog INFO "Checking to see if there are existing Falcon deployments";
     custom_list_event api].
Proof.
  intros H Hne. unfold list_falcon_deployments, list_cluster_custom_object,
    bind, try_except, call.
  cbn. rewrite H. cbn. destruct e; try reflexivity.
  destruct (Z.eqb_spec status 404) as [->|]; [|reflexivity].
  now destruct (Hne response).
Qed.

(** *** The readiness loop *)

Lemma str_in_In x l : str_in x l = true <-> In x l.
Proof.
  unfold str_in. rewrite existsb_exists. split.
  - intros [y [Hy E]]. apply String.eqb_eq in E. now subst.
  - intros H. exists x. split; [assumption | apply String.eqb_refl].
Qed.

(** The first round on a cluster in an unmanageable state. *)
Lemma await_cluster_unmanageable cn z p w c w1 :
  get_cluster_op cn z p w = (inr c, w1) ->
  In (cluster_status_name c) unmanageable ->
  await_cluster cn z p w =
  mkRun (Ret Return) w1
    [EvGetCluster cn z p;
     EvLog DEBUG ("Cluster status: " ++ cluster_status_name c ++ " ");
     EvLog WARNING ("Cluster in unmanageable state: " ++ cluster_status_name c
                    ++ "... Exiting")].
Proof.
  intros H Hs. apply str_in_In in Hs. unfold await_cluster.
  change (Z.to_nat (MAX_CLUSTER_STATUS_CHECK_COUNT + 1)) with 21%nat.
  rewrite while_step by reflexivity.
  unfold poll_body at 1, get_cluster, bind, call, log, ret.
  rewrite H, Hs. reflexivity.
Qed.

(** The first round on a running cluster. *)
Lemma await_cluster_running cn z p w c w1 :
  get_cluster_op cn z p w = (inr c, w1) ->
  cluster_status_name c = "RUNNING" ->
  await_cluster cn z p w =
  mkRun (Ret (Next (mkPoll (Some c) "RUNNING" 1))) w1
    [EvGetCluster cn z p;
     EvLog DEBUG "Cluster status: RUNNING ";
     EvLog INFO "Deploying operator on cluster"].
Proof.
  intros H Hs. unfold await_cluster.
  change (Z.to_nat (MAX_CLUSTER_STATUS_CHECK_COUNT + 1)) with 21%nat.
  rewrite while_step by reflexivity.
  unfold poll_body at 1, get_cluster, bind, call, log, ret.
  rewrite H, Hs. cbn -[while].
  now rewrite while_done.
Qed.

(** The loop starts with a status fetch, whatever the answer. *)
Lemma await_cluster_first_call cn z p w :
  exists rest, evs (await_cluster cn z p w) = EvGetCluster cn z p :: rest.
Proof.
  unfold await_cluster.
  change (Z.to_nat (MAX_CLUSTER_STATUS_CHECK_COUNT + 1)) with 21%nat.
  rewrite while_step by reflexivity.
  unfold poll_body at 1, get_cluster.
  rewrite evs_bind, evs_bind, evs_call. cbn [app]. eauto.
Qed.

(** The counter bounds the loop: its fuel is never exhausted. *)
Lemma readiness_loop_fuel_suffices cn z p fuel st w :
  (MAX_CLUSTER_STATUS_CHECK_COUNT + 1 - cluster_status_check_counter st
   <= Z.of_nat fuel)%Z ->
  out (while fuel poll_cond (poll_body cn z p) st w) <> Diverge.
Proof.
  revert st w. induction fuel as [|fuel IH]; intros st w Hle.
  - cbn [while]. destruct (poll_cond st) eqn:E; [|discriminate].
    unfold poll_cond in E. apply andb_prop in E as [_ E].
    apply Z.leb_le in E. unfold MAX_CLUSTER_STATUS_CHECK_COUNT in *. lia.
  - destruct (poll_cond st) eqn:E; [|rewrite while_done by assumption; discriminate].
    rewrite while_step by assumption.
    unfold bind. destruct (poll_body cn z p st w) as [[[st'|]|e|] w' t] eqn:Eb;
      try discriminate.
    + assert (Hc : cluster_status_check_counter st' =
                   (cluster_status_check_counter st + 1)%Z).
      { revert Eb. unfold poll_body, get_cluster, bind, call, log, ret, sleep.
        destruct (get_cluster_op cn z p w) as [[e|c] w0]; [discriminate|].
        destruct (str_in (cluster_status_name c) unmanageable); [discriminate|].
        destruct (str_in (cluster_status_name c) ["PROVISIONING"]);
          [|destruct (str_in (cluster_status_name c) ["RUNNING"])];
          cbn; intros Eq; inversion Eq; reflexivity. }
      specialize (IH st' w').
      destruct (while fuel poll_cond (poll_body cn z p) st' w') as [o w'' t'].
      cbn [out] in *. apply IH. lia.
    + exfalso. revert Eb. unfold poll_body, get_cluster, bind, call, log, ret, sleep.
      destruct (get_cluster_op cn z p w) as [[e|c] w0]; [discriminate|].
      destruct (str_in (cluster_status_name c) unmanageable); [discriminate|].
      destruct (str_in (cluster_status_name c) ["PROVISIONING"]);
        [|destruct (str_in (cluster_status_name c) ["RUNNING"])];
        cbn; discriminate.
Qed.

(** On a cluster that reports PROVISIONING at every fetch, a loop entered
    with [n] rounds left on its counter fetches and sleeps [n] times, then
    ends with the counter past the maximum. *)
Lemma readiness_loop_provisioning_rounds cn z p :
  (forall w, exists c w',
      get_cluster_op cn z p w = (inr c, w') /\
      cluster_status_name c = "PROVISIONING") ->
  forall n st w,
    cluster_status st <> "RUNNING" ->
    cluster_status_check_counter st =
      (MAX_CLUSTER_STATUS_CHECK_COUNT + 1 - Z.of_nat n)%Z ->
    let r := while n poll_cond (poll_body cn z p) st w in
    length (fetch_calls (evs r)) = n /\
    sleep_calls (evs r) = repeat 60%Z n /\
    exists st',
      out r = Ret (Next st') /\
      cluster_status_check_counter st' = (MAX_CLUSTER_STATUS_CHECK_COUNT + 1)%Z.
Proof.
  intros Hw. induction n as [|n IH]; intros st w Hs Hc r; subst r.
  - rewrite while_done.
    + cbn. repeat split. exists st. split; [reflexivity|]. rewrite Hc. cbn. lia.
    + unfold poll_cond. rewrite Hc. cbn. apply andb_false_r.
  - rewrite while_step.
    2:{ unfold poll_cond. apply andb_true_intro. split.
        - apply negb_true_iff, String.eqb_neq, Hs.
        - apply Z.leb_le. lia. }
    destruct (Hw w) as [c [w' [Hg Hst]]].
    set (st' := mkPoll (Some c) "PROVISIONING"
                  (cluster_status_check_counter st + 1)).
    assert (Hb : poll_body cn z p st w =
                 mkRun (Ret (Next st')) (sleep_op 60 w')
                   [EvGetCluster cn z p;
                    EvLog DEBUG "Cluster status: PROVISIONING ";
                    EvLog INFO "Cluster in provisioning state... Sleeping.";
                    EvSleep 60]).
    { unfold poll_body, get_cluster, bind, call, log, ret, sleep.
      rewrite Hg, Hst. reflexivity. }
    rewrite (bind_Ret _ _ _ _ _ _ Hb).
    destruct (IH st' (sleep_op 60 w')) as [Hf [Hsl [st'' [Ho Hcnt]]]].
    + discriminate.
    + cbn [st' cluster_status_check_counter]. lia.
    + unfold prepend; cbn [out evs].
      cbn [app fetch_calls sleep_calls length repeat].
      rewrite Hf, Hsl. eauto.
Qed.

(** So the status of such a cluster is fetched
    [MAX_CLUSTER_STATUS_CHECK_COUNT + 1] times, in every world. *)
Lemma await_cluster_never_ready cn z p w :
  (forall w, exists c w',
      get_cluster_op cn z p w = (inr c, w') /\
      cluster_status_name c = "PROVISIONING") ->
  length (fetch_calls (evs (await_cluster cn z p w))) =
    Z.to_nat (MAX_CLUSTER_STATUS_CHECK_COUNT + 1) /\
  exists st, out (await_cluster cn z p w) = Ret (Next st).
Proof.
  intros Hw. unfold await_cluster.
  destruct (readiness_loop_provisioning_rounds cn z p Hw
              (Z.to_nat (MAX_CLUSTER_STATUS_CHECK_COUNT + 1))
              (mkPoll None "" 0) w) as [Hf [_ [st [Ho _]]]].
  - discriminate.
  - reflexivity.
  - split; [exact Hf | eauto].
Qed.

Lemma await_cluster_halts cn z p w : out (await_cluster cn z p w) <> Diverge.
Proof.
  apply readiness_loop_fuel_suffices. cbn. unfold MAX_CLUSTER_STATUS_CHECK_COUNT. lia.
Qed.

(** *** The handler up to the readiness loop *)

Lemma main_try_parsed fuel data s cn p z w :
  payload_asset_name b64_json_loads data = inr (PStr s) ->
  nth_error (split "/" s) 8 = Some cn ->
  nth_error (split "/" s) 4 = Some p ->
  nth_error (split "/" s) 6 = Some z ->
  main_try cfg yaml_dump b64_json_loads fuel data w =
  prepend (identity_log s cn p z)
    (ready_then_protect cfg yaml_dump fuel true cn z p w).
Proof.
  intros Hp H8 H4 H6. unfold main_try. rewrite Hp, bind_lift_inr.
  cbn [split_slash rbind]. unfold index.
  rewrite H8, bind_lift_inr, H4, bind_lift_inr, H6, bind_lift_inr.
  rewrite !bind_log, !prepend_prepend. reflexivity.
Qed.

Lemma main_try_short fuel data s w :
  payload_asset_name b64_json_loads data = inr (PStr s) ->
  nth_error (split "/" s) 8 = None ->
  main_try cfg yaml_dump b64_json_loads fuel data w = mkRun (Raise IndexError) w [].
Proof.
  intros Hp H8. unfold main_try. rewrite Hp, bind_lift_inr.
  cbn [split_slash rbind]. unfold index. rewrite H8. apply bind_lift_inl.
Qed.

(** *** Calls a step never makes *)

Lemma configure_emits (P : event -> Prop) is_autopilot :
  (forall lvl msg, P (EvLog lvl msg)) ->
  P (EvWriteFile "node_sensor_manifest.yaml"
       (yaml_dump (rendered_manifest cfg is_autopilot))) ->
  emits P (configure_falcon_deployment_manifest cfg yaml_dump is_autopilot).
Proof.
  intros Hlog Hw w. rewrite configure_falcon_deployment_manifest_run. cbv zeta.
  assert (Hb : Forall P (build_log cfg)).
  { eapply Forall_impl; [|apply build_log_only_logs].
    intros [] H; cbn in H; try contradiction. apply Hlog. }
  destruct (write_file_op _ _ w) as [[e|u] w']; cbn [evs];
    apply Forall_app; split; auto.
Qed.

Ltac emits_handler side :=
  repeat first
    [ apply emits_sleep; solve [side]
    | apply configure_emits; [intros; solve [side] | solve [side]]
    | emits_step side ].

Lemma protect_cluster_no_fetch fuel is_autopilot cn st :
  emits (fun ev => ~ is_fetch ev)
    (protect_cluster cfg yaml_dump fuel is_autopilot cn st).
Proof. emits_handler absent. Qed.

Lemma deploy_operator_carries fuel api :
  emits (carries_autopilot_manifest cfg yaml_dump) (deploy_operator fuel api).
Proof. emits_handler ltac:(exact I). Qed.

Lemma protect_cluster_carries fuel cn st :
  emits (carries_autopilot_manifest cfg yaml_dump)
    (protect_cluster cfg yaml_dump fuel true cn st).
Proof.
  unfold protect_cluster.
  apply emits_bind; [emits_handler ltac:(exact I)|]. intros _.
  apply emits_bind_ret with (Q := fun m => m = rendered_manifest cfg true).
  - emits_handler ltac:(first [exact I | reflexivity]).
  - intros w m. apply configure_falcon_deployment_manifest_returns.
  - intros m ->. apply emits_bind; [apply emits_lift|]. intros c.
    apply emits_bind; [emits_handler ltac:(exact I)|]. intros api.
    apply emits_bind; [apply deploy_operator_carries|]. intros _.
    emits_handler ltac:(first [exact I | reflexivity]).
Qed.

Lemma main_carries fuel data :
  emits (carries_autopilot_manifest cfg yaml_dump)
    (main cfg yaml_dump b64_json_loads fuel data).
Proof.
  unfold main, main_try, main_except, ready_then_protect.
  repeat first
    [ apply protect_cluster_carries
    | apply emits_sleep; exact I
    | emits_step ltac:(exact I) ].
Qed.

Lemma ready_then_protect_fetches fuel is_autopilot cn z p :
  emits (fetches_only cn z p)
    (ready_then_protect cfg yaml_dump fuel is_autopilot cn z p).
Proof. emits_handler ltac:(first [exact I | reflexivity]). Qed.

Lemma check_resources_deployed_no_apply api ns :
  emits (fun ev => ~ is_apply ev) (check_resources_deployed api ns).
Proof.
  unfold check_resources_deployed, read_namespace, list_namespaced_pod.
  emits_with absent.
Qed.

Lemma await_operator_pods_no_apply fuel api :
  emits (fun ev => ~ is_apply ev) (await_operator_pods fuel api).
Proof.
  unfold await_operator_pods, check_pods_are_ready, list_namespaced_pod.
  emits_with absent. apply emits_sleep. absent.
Qed.

Lemma apply_then_wait_apply_calls fuel api w :
  apply_calls
    (evs ((try_except
             (log INFO "Deploying Falcon operator";;
              create_from_yaml api "falcon_operator.yaml")
             (fun e => log ERROR (exn_str e);; raise e);;
           await_operator_pods fuel api) w)) =
  [(api, "falcon_operator.yaml")].
Proof.
  unfold bind, try_except, create_from_yaml, call, log.
  cbn -[await_operator_pods].
  destruct (create_from_yaml_op api "falcon_operator.yaml" w) as [[e|[]] w'];
    cbn -[await_operator_pods]; [reflexivity|].
  pose proof (no_apply_calls _ (await_operator_pods_no_apply fuel api w')) as H.
  destruct (await_operator_pods fuel api w') as [o w'' t'].
  cbn in *. now rewrite H.
Qed.

(** The applies of [deploy_operator] are decided by the existence check. *)
Lemma deploy_operator_apply_calls fuel api w :
  apply_calls (evs (deploy_operator fuel api w)) =
  match out (check_resources_deployed api "falcon-operator" w) with
  | Ret false => [(api, "falcon_operator.yaml")]
  | _ => []
  end.
Proof.
  unfold deploy_operator. rewrite evs_bind, apply_calls_app.
  rewrite (no_apply_calls _ (check_resources_deployed_no_apply _ _ w)).
  destruct (out (check_resources_deployed api "falcon-operator" w)) as [[|]| |];
    try reflexivity; cbn [app].
  - rewrite bind_log. cbn [prepend evs app apply_calls].
    apply no_apply_calls, await_operator_pods_no_apply.
  - apply apply_then_wait_apply_calls.
Qed.

(** C1. Operator deployment is idempotent.  From every state of the world in
    which reading the namespace [falcon-operator] succeeds and its pod list
    is not empty, [deploy_operator] makes no [create_from_yaml] call, however
    long its wait for the pods is followed.  When reading the namespace answers
    404, or succeeds with an empty pod list, it makes exactly one, of
    [falcon_operator.yaml], the file the fetched operator descriptor is
    stored in by [download_operator_manifest]. *)
Theorem deploy_operator_idempotent fuel api w :
  (forall w1 pods w2,
      read_namespace_op api "falcon-operator" w = (inr tt, w1) ->
      list_namespaced_pod_op api "falcon-operator" w1 = (inr pods, w2) ->
      pods <> [] ->
      apply_calls (evs (deploy_operator fuel api w)) = []) /\
  (forall reason w1,
      read_namespace_op api "falcon-operator" w =
        (inl (ApiException 404 reason), w1) ->
      apply_calls (evs (deploy_operator fuel api w)) =
        [(api, "falcon_operator.yaml")]) /\
  (forall w1 w2,
      read_namespace_op api "falcon-operator" w = (inr tt, w1) ->
      list_namespaced_pod_op api "falcon-operator" w1 = (inr [], w2) ->
      apply_calls (evs (deploy_operator fuel api w)) =
        [(api, "falcon_operator.yaml")]) /\
  download_calls (evs (download_operator_manifest w)) =
    [(FALCON_OPERATOR_URL, "falcon_operator.yaml")].
Proof.
  repeat split.
  - intros w1 pods w2 H1 H2 Hne. rewrite deploy_operator_apply_calls.
    rewrite (check_resources_deployed_listed _ _ _ _ _ _ H1 H2).
    destruct pods; [contradiction | reflexivity].
  - intros reason w1 H. rewrite deploy_operator_apply_calls.
    now rewrite (check_resources_deployed_not_found _ _ _ _ _ H).
  - intros w1 w2 H1 H2. rewrite deploy_operator_apply_calls.
    now rewrite (check_resources_deployed_listed _ _ _ _ _ _ H1 H2).
  - unfold download_operator_manifest, urlretrieve, read_file, bind, call.
    destruct (urlretrieve_op FALCON_OPERATOR_URL "falcon_operator.yaml" w)
      as [[e|[]] w1]; cbn; [reflexivity|].
    now destruct (read_file_op "falcon_operator.yaml" w1) as [[e|s] w2].
Qed.

(** C8. A 404 is the only expected negative answer of the two existence
    checks.  [check_resources_deployed] returns [False] when reading the
    namespace answers 404 and [list_falcon_deployments] returns the empty list
    when the listing answers 404; an [ApiException] with any other status is
    re-raised by both, and so is whatever the pod listing raises. *)
Theorem not_found_is_the_only_absence_signal api ns w :
  (forall reason w',
      read_namespace_op api ns w = (inl (ApiException 404 reason), w') ->
      out (check_resources_deployed api ns w) = Ret false) /\
  (forall status reason w',
      status <> 404%Z ->
      read_namespace_op api ns w = (inl (ApiException status reason), w') ->
      out (check_resources_deployed api ns w) =
        Raise (ApiException status reason)) /\
  (forall w1 e w2,
      read_namespace_op api ns w = (inr tt, w1) ->
      list_namespaced_pod_op api ns w1 = (inl e, w2) ->
      out (check_resources_deployed api ns w) = Raise e) /\
  (forall reason w',
      list_cluster_custom_object_op api
        "falcon.crowdstrike.com" "v1alpha1" "falcondeployments" w =
        (inl (ApiException 404 reason), w') ->
      out (list_falcon_deployments api w) = Ret []) /\
  (forall status reason w',
      status <> 404%Z ->
      list_cluster_custom_object_op api
        "falcon.crowdstrike.com" "v1alpha1" "falcondeployments" w =
        (inl (ApiException status reason), w') ->
      out (list_falcon_deployments api w) = Raise (ApiException status reason)).
Proof.
  repeat split.
  - intros reason w' H.
    now rewrite (check_resources_deployed_not_found _ _ _ _ _ H).
  - intros status reason w' Hs H.
    rewrite (check_resources_deployed_read_raises _ _ _ _ _ H); [reflexivity|].
    intros r Heq. now inversion Heq.
  - intros w1 e w2 H1 H2.
    now rewrite (check_resources_deployed_list_raises _ _ _ _ _ _ H1 H2).
  - intros reason w' H.
    now rewrite (list_falcon_deployments_not_found _ _ _ _ H).
  - intros status reason w' Hs H.
    rewrite (list_falcon_deployments_raises _ _ _ _ H); [reflexivity|].
    intros r Heq. now inversion Heq.
Qed.

(** *** The agent descriptor *)

Lemma new_dynamic_client_ok api (w : W) w0 :
  dynamic_client_op api w = (inr tt, w0) ->
  new_dynamic_client api w =
  mkRun (Ret (mkDynamicClient api)) w0 [EvDynamicClient api].
Proof.
  intros H. unfold new_dynamic_client, bind, call, ret. now rewrite H.
Qed.

Lemma new_dynamic_client_raises api (w : W) e w0 :
  dynamic_client_op api w = (inl e, w0) ->
  new_dynamic_client api w = mkRun (Raise e) w0 [EvDynamicClient api].
Proof.
  intros H. unfold new_dynamic_client, bind, call, ret. now rewrite H.
Qed.

Lemma deploy_falcon_manifest_after_list api body (w : W) w0 items w1 t :
  dynamic_client_op api w = (inr tt, w0) ->
  list_falcon_deployments api w0 = mkRun (Ret items) w1 t ->
  deploy_falcon_manifest api body w =
  prepend (EvDynamicClient api :: t)
    (match items with
     | [] =>
         let found :=
           [EvLog INFO "There are no existing Falcon deployments";
            EvLog INFO "Deploying Falcon";
            EvResourcesGet api "falcon.crowdstrike.com/v1alpha1" "FalconDeployment"] in
         let (r, w2) :=
           resources_get_op api "falcon.crowdstrike.com/v1alpha1"
             "FalconDeployment" w1 in
         match r with
         | inl e => mkRun (Raise e) w2 (found ++ [EvLog ERROR (exn_str e)])
         | inr _ =>
             let (r', w3) :=
               create_op api "falcon.crowdstrike.com/v1alpha1" "FalconDeployment"
                 body "falcon-operator" w2 in
             match r' with
             | inr _ => mkRun (Ret tt) w3 (found ++ [falcon_create_event api body])
             | inl e =>
                 mkRun (Raise e) w3
                   (found ++ [falcon_create_event api body; EvLog ERROR (exn_str e)])
             end
         end
     | _ :: _ =>
         mkRun (Ret tt) w1
           [EvLog INFO "There are existing Falcon deployments. Exiting..."]
     end).
Proof.
  intros Hd H. unfold deploy_falcon_manifest.
  rewrite (bind_Ret _ _ _ _ _ _ (new_dynamic_client_ok _ _ _ Hd)).
  rewrite (bind_Ret _ _ _ _ _ _ H). rewrite prepend_prepend. cbn [app].
  f_equal. destruct items as [|item items]; [|reflexivity].
  unfold resources_get, create.
  unfold bind, try_except, call, log, ret, raise; cbn.
  destruct (resources_get_op api "falcon.crowdstrike.com/v1alpha1"
              "FalconDeployment" w1) as [[e|[]] w2]; [reflexivity|].
  cbn. destruct (create_op api "falcon.crowdstrike.com/v1alpha1" "FalconDeployment"
                  body "falcon-operator" w2) as [[e|[]] w3]. all: reflexivity.
Qed.

Lemma deploy_falcon_manifest_on_empty api body (w : W) w0 w1 t :
  dynamic_client_op api w = (inr tt, w0) ->
  list_falcon_deployments api w0 = mkRun (Ret []) w1 t ->
  create_calls t = [] ->
  (forall e w2,
      resources_get_op api "falcon.crowdstrike.com/v1alpha1" "FalconDeployment" w1 =
        (inl e, w2) ->
      create_calls (evs (deploy_falcon_manifest api body w)) = [] /\
      out (deploy_falcon_manifest api body w) = Raise e) /\
  (forall w2,
      resources_get_op api "falcon.crowdstrike.com/v1alpha1" "FalconDeployment" w1 =
        (inr tt, w2) ->
      create_calls (evs (deploy_falcon_manifest api body w)) =
        [(api, body, "falcon-operator")] /\
      (forall e w3,
          create_op api "falcon.crowdstrike.com/v1alpha1" "FalconDeployment" body
            "falcon-operator" w2 = (inl e, w3) ->
          out (deploy_falcon_manifest api body w) = Raise e) /\
      (forall w3,
          create_op api "falcon.crowdstrike.com/v1alpha1" "FalconDeployment" body
            "falcon-operator" w2 = (inr tt, w3) ->
          out (deploy_falcon_manifest api body w) = Ret tt)).
Proof.
  intros Hd H Ht. rewrite (deploy_falcon_manifest_after_list _ _ _ _ _ _ _ Hd H).
  unfold prepend. cbv zeta. split.
  - intros e w2 Hg. rewrite Hg. cbn [out evs].
    rewrite !create_calls_app. cbn [create_calls app]. rewrite Ht.
    split; reflexivity.
  - intros w2 Hg. rewrite Hg.
    destruct (create_op api "falcon.crowdstrike.com/v1alpha1" "FalconDeployment"
                body "falcon-operator" w2) as [[e|[]] w3];
      cbn [out evs]; rewrite !create_calls_app; cbn [create_calls app];
      rewrite Ht; repeat split; try reflexivity; intros; congruence.
Qed.

(** C2, as the code has it.  [deploy_falcon_manifest] first constructs the
    dynamic client, whose discovery may raise: then it raises, before any
    listing.  Once the client is constructed: when the cluster-scoped listing
    of FalconDeployment resources is not empty, it makes no create call and
    returns; when the listing is empty (or answers 404, which
    [list_falcon_deployments] turns into the empty list) it resolves the
    kind, and if that raises it raises too, without a create call; otherwise
    it makes exactly one create call, of the manifest it was given, in the
    namespace [falcon-operator], raises what that call raises and returns
    when the call succeeds. *)
Theorem deploy_falcon_manifest_first_writer_wins api body (w : W) :
  (forall e w0,
      dynamic_client_op api w = (inl e, w0) ->
      deploy_falcon_manifest api body w =
        mkRun (Raise e) w0 [EvDynamicClient api]) /\
  (forall w0 items w1,
      dynamic_client_op api w = (inr tt, w0) ->
      list_cluster_custom_object_op api
        "falcon.crowdstrike.com" "v1alpha1" "falcondeployments" w0 =
        (inr items, w1) ->
      items <> [] ->
      create_calls (evs (deploy_falcon_manifest api body w)) = [] /\
      out (deploy_falcon_manifest api body w) = Ret tt) /\
  (forall w0 r w1,
      dynamic_client_op api w = (inr tt, w0) ->
      list_cluster_custom_object_op api
        "falcon.crowdstrike.com" "v1alpha1" "falcondeployments" w0 = (r, w1) ->
      r = inr [] \/ (exists reason, r = inl (ApiException 404 reason)) ->
      (forall e w2,
          resources_get_op api "falcon.crowdstrike.com/v1alpha1"
            "FalconDeployment" w1 = (inl e, w2) ->
          create_calls (evs (deploy_falcon_manifest api body w)) = [] /\
          out (deploy_falcon_manifest api body w) = Raise e) /\
      (forall w2,
          resources_get_op api "falcon.crowdstrike.com/v1alpha1"
            "FalconDeployment" w1 = (inr tt, w2) ->
          create_calls (evs (deploy_falcon_manifest api body w)) =
            [(api, body, "falcon-operator")] /\
          (forall e w3,
              create_op api "falcon.crowdstrike.com/v1alpha1" "FalconDeployment"
                body "falcon-operator" w2 = (inl e, w3) ->
              out (deploy_falcon_manifest api body w) = Raise e) /\
          (forall w3,
              create_op api "falcon.crowdstrike.com/v1alpha1" "FalconDeployment"
                body "falcon-operator" w2 = (inr tt, w3) ->
              out (deploy_falcon_manifest api body w) = Ret tt))).
Proof.
  split; [|split].
  - intros e w0 Hd. unfold deploy_falcon_manifest.
    apply bind_Raise. now apply new_dynamic_client_raises.
  - intros w0 items w1 Hd H Hne.
    rewrite (deploy_falcon_manifest_after_list _ _ _ _ _ _ _ Hd
               (list_falcon_deployments_listed _ _ _ _ H)).
    destruct items; [contradiction | split; reflexivity].
  - intros w0 r w1 Hd H [->|[reason ->]].
    + apply (deploy_falcon_manifest_on_empty _ _ _ _ _ _ Hd
               (list_falcon_deployments_listed _ _ _ _ H)).
      reflexivity.
    + apply (deploy_falcon_manifest_on_empty _ _ _ _ _ _ Hd
               (list_falcon_deployments_not_found _ _ _ _ H)).
      reflexivity.
Qed.

(** *** The handler *)

Lemma protect_cluster_first_call fuel is_autopilot cn st w :
  exists rest,
    evs (protect_cluster cfg yaml_dump fuel is_autopilot cn st w) =
    EvUrlRetrieve FALCON_OPERATOR_URL "falcon_operator.yaml" :: rest.
Proof.
  unfold protect_cluster, download_operator_manifest, urlretrieve.
  rewrite evs_bind, evs_bind, evs_call. cbn [app]. eauto.
Qed.

(** C3. A cluster in an unmanageable state is left alone.  When the first
    status fetched is STOPPING, ERROR, DEGRADED or STATUS_UNSPECIFIED, the
    handler returns at once without raising: after the identity log it makes
    that one fetch, logs the status and a warning, and stops, so it never
    sleeps, downloads, applies or creates. *)
Theorem unmanageable_cluster_is_left_alone fuel data s cn p z w c w1 :
  payload_asset_name b64_json_loads data = inr (PStr s) ->
  nth_error (split "/" s) 8 = Some cn ->
  nth_error (split "/" s) 4 = Some p ->
  nth_error (split "/" s) 6 = Some z ->
  get_cluster_op cn z p w = (inr c, w1) ->
  In (cluster_status_name c) ["STOPPING"; "ERROR"; "DEGRADED"; "STATUS_UNSPECIFIED"] ->
  let r := main cfg yaml_dump b64_json_loads fuel data w in
  r = mkRun (Ret tt) w1
        (identity_log s cn p z ++
         [EvGetCluster cn z p;
          EvLog DEBUG ("Cluster status: " ++ cluster_status_name c ++ " ");
          EvLog WARNING ("Cluster in unmanageable state: "
                         ++ cluster_status_name c ++ "... Exiting")]) /\
  fetch_calls (evs r) = [(cn, z, p)] /\
  sleep_calls (evs r) = [] /\
  download_calls (evs r) = [] /\
  write_calls (evs r) = [] /\
  apply_calls (evs r) = [] /\
  create_calls (evs r) = [].
Proof.
  intros Hp H8 H4 H6 Hc Hs r.
  assert (E : r = mkRun (Ret tt) w1
                    (identity_log s cn p z ++
                     [EvGetCluster cn z p;
                      EvLog DEBUG ("Cluster status: " ++ cluster_status_name c ++ " ");
                      EvLog WARNING ("Cluster in unmanageable state: "
                                     ++ cluster_status_name c ++ "... Exiting")])).
  { subst r. unfold main.
    rewrite (try_except_prepend _ _ _ _ _ _ (main_try_parsed fuel _ _ _ _ _ _ Hp H8 H4 H6)).
    erewrite try_Ret; [reflexivity|].
    unfold ready_then_protect.
    now rewrite (bind_Ret _ _ _ _ _ _ (await_cluster_unmanageable _ _ _ _ _ _ Hc Hs)). }
  rewrite E. repeat split.
Qed.

(** C5. A running cluster is protected at once.  When the first status
    fetched is RUNNING, the readiness loop ends after that one fetch without
    sleeping, and the handler goes on with the deployment sequence, which
    starts with the download of the operator manifest; no other status fetch
    is made in the whole run. *)
Theorem running_cluster_is_protected_at_once fuel data s cn p z w c w1 :
  payload_asset_name b64_json_loads data = inr (PStr s) ->
  nth_error (split "/" s) 8 = Some cn ->
  nth_error (split "/" s) 4 = Some p ->
  nth_error (split "/" s) 6 = Some z ->
  get_cluster_op cn z p w = (inr c, w1) ->
  cluster_status_name c = "RUNNING" ->
  let poller :=
    [EvGetCluster cn z p;
     EvLog DEBUG "Cluster status: RUNNING ";
     EvLog INFO "Deploying operator on cluster"] in
  let deployment :=
    protect_cluster cfg yaml_dump fuel true cn (mkPoll (Some c) "RUNNING" 1) in
  await_cluster cn z p w =
    mkRun (Ret (Next (mkPoll (Some c) "RUNNING" 1))) w1 poller /\
  sleep_calls poller = [] /\
  main cfg yaml_dump b64_json_loads fuel data w =
    prepend (identity_log s cn p z ++ poller)
      (try_except deployment main_except w1) /\
  (exists rest,
      evs (deployment w1) =
      EvUrlRetrieve FALCON_OPERATOR_URL "falcon_operator.yaml" :: rest) /\
  fetch_calls (evs (main cfg yaml_dump b64_json_loads fuel data w)) = [(cn, z, p)].
Proof.
  intros Hp H8 H4 H6 Hc Hs poller deployment.
  assert (E : main cfg yaml_dump b64_json_loads fuel data w =
              prepend (identity_log s cn p z ++ poller)
                (try_except deployment main_except w1)).
  { unfold main.
    rewrite (try_except_prepend _ _ _ _ _ _ (main_try_parsed fuel _ _ _ _ _ _ Hp H8 H4 H6)).
    unfold ready_then_protect.
    rewrite (try_except_prepend _ (fun w => deployment w) _ _ w1 poller).
    - now rewrite prepend_prepend.
    - now rewrite (bind_Ret _ _ _ _ _ _ (await_cluster_running _ _ _ _ _ _ Hc Hs)). }
  split; [now apply await_cluster_running|].
  split; [reflexivity|].
  split; [exact E|].
  split; [apply protect_cluster_first_call|].
  rewrite E. unfold prepend; cbn [evs]. rewrite fetch_calls_app.
  rewrite (no_fetch_calls (evs (try_except deployment main_except w1))).
  - reflexivity.
  - apply emits_try_except; [apply protect_cluster_no_fetch|].
    intros e. emits_with absent.
Qed.

(** C9. Identity extraction.  An asset name with fewer than 9 segments
    between slashes makes the handler fail: it logs the error and raises
    [IndexError], having called no collaborator.  With 9 segments or more the
    segments 8, 4 and 6 (counted from 0) are the cluster name, the project id
    and the zone: they are what the handler logs and what every status fetch
    of the run asks for, the first call of the run being such a fetch. *)
Theorem identity_extraction fuel data s w :
  payload_asset_name b64_json_loads data = inr (PStr s) ->
  (length (split "/" s) < 9 ->
   main cfg yaml_dump b64_json_loads fuel data w =
   mkRun (Raise IndexError) w
     [EvLog ERROR "Unexpected error in main function: list index out of range"]) /\
  (9 <= length (split "/" s) ->
   exists cn p z rest,
     nth_error (split "/" s) 8 = Some cn /\
     nth_error (split "/" s) 4 = Some p /\
     nth_error (split "/" s) 6 = Some z /\
     evs (main cfg yaml_dump b64_json_loads fuel data w) =
       identity_log s cn p z ++ EvGetCluster cn z p :: rest /\
     Forall (eq (cn, z, p))
       (fetch_calls (evs (main cfg yaml_dump b64_json_loads fuel data w)))).
Proof.
  intros Hp. split; intros Hlen.
  - assert (H8 : nth_error (split "/" s) 8 = None) by (apply nth_error_None; lia).
    unfold main. rewrite (try_Raise _ _ _ _ _ _ (main_try_short fuel _ _ w Hp H8)).
    reflexivity.
  - destruct (nth_error (split "/" s) 8) as [cn|] eqn:H8;
      [|apply nth_error_None in H8; lia].
    destruct (nth_error (split "/" s) 4) as [p|] eqn:H4;
      [|apply nth_error_None in H4; lia].
    destruct (nth_error (split "/" s) 6) as [z|] eqn:H6;
      [|apply nth_error_None in H6; lia].
    assert (E : main cfg yaml_dump b64_json_loads fuel data w =
                prepend (identity_log s cn p z)
                  (try_except (ready_then_protect cfg yaml_dump fuel true cn z p)
                     main_except w)).
    { unfold main.
      apply (try_except_prepend _ _ _ _ _ _
               (main_try_parsed fuel _ _ _ _ _ _ Hp H8 H4 H6)). }
    destruct (await_cluster_first_call cn z p w) as [rest0 Hfirst].
    assert (Hev : exists rest,
               evs (try_except (ready_then_protect cfg yaml_dump fuel true cn z p)
                      main_except w) = EvGetCluster cn z p :: rest).
    { rewrite evs_try_except. unfold ready_then_protect at 1.
      rewrite evs_bind, Hfirst. cbn [app]. eauto. }
    destruct Hev as [rest Hev].
    exists cn, p, z, rest. repeat split; try reflexivity.
    + rewrite E. unfold prepend; cbn [evs]. now rewrite Hev.
    + rewrite E. unfold prepend; cbn [evs]. rewrite fetch_calls_app. cbn [app].
      assert (Hf : emits (fetches_only cn z p)
                     (try_except (ready_then_protect cfg yaml_dump fuel true cn z p)
                        main_except)).
      { apply emits_try_except; [apply ready_then_protect_fetches|].
        intros e. emits_with ltac:(exact I). }
      specialize (Hf w). clear - Hf.
      induction Hf as [|ev tr Hev _ IH]; [constructor|].
      destruct ev; cbn in *; auto.
Qed.

Lemma carried_calls tr :
  Forall (carries_autopilot_manifest cfg yaml_dump) tr ->
  Forall (fun c => snd (fst c) = rendered_manifest cfg true) (create_calls tr) /\
  Forall (fun f => snd f = yaml_dump (rendered_manifest cfg true)) (write_calls tr).
Proof.
  induction 1 as [|ev tr Hev _ [IHc IHw]]; [split; constructor|].
  destruct ev; cbn in *; split; auto.
Qed.

End HandlerFacts.

(** Runs of C1 on sample worlds: an installed operator, an absent namespace,
    a namespace without pods. *)
Lemma deploy_operator_idempotent_witness :
  apply_calls (evs (deploy_operator (world_ops := scripted protected) 3 api0 start)) = [] /\
  apply_calls (evs (deploy_operator (world_ops := scripted fresh) 3 api0 start)) =
    [(api0, "falcon_operator.yaml")] /\
  apply_calls (evs (deploy_operator (world_ops := scripted empty_namespace) 3 api0 start)) =
    [(api0, "falcon_operator.yaml")].
Proof.
  split; [|split].
  - apply (proj1 (deploy_operator_idempotent (world_ops := scripted protected)
                    3 api0 start)) with (w1 := start) (pods := [running_pod])
                                        (w2 := mkCounters 0 1);
      [reflexivity | reflexivity | discriminate].
  - apply (proj1 (proj2 (deploy_operator_idempotent (world_ops := scripted fresh)
                           3 api0 start))) with (reason := mkResponse "Not Found" "" "") (w1 := start).
    reflexivity.
  - apply (proj1 (proj2 (proj2 (deploy_operator_idempotent
                                  (world_ops := scripted empty_namespace)
                                  3 api0 start)))) with (w1 := start)
                                                        (w2 := mkCounters 0 1);
      reflexivity.
Defined.

(** Runs of C2 on sample worlds: an existing deployment, none, and none
    with a create call that is refused. *)
Lemma deploy_falcon_manifest_first_writer_wins_witness :
  (create_calls
     (evs (deploy_falcon_manifest (world_ops := scripted protected)
             api0 existing_deployment start)) = [] /\
   out (deploy_falcon_manifest (world_ops := scripted protected)
          api0 existing_deployment start) = Ret tt) /\
  (create_calls
     (evs (deploy_falcon_manifest (world_ops := scripted fresh)
             api0 existing_deployment start)) =
     [(api0, existing_deployment, "falcon-operator")] /\
   out (deploy_falcon_manifest (world_ops := scripted fresh)
          api0 existing_deployment start) = Ret tt) /\
  out (deploy_falcon_manifest (world_ops := scripted (with_create (inl conflict) fresh))
         api0 existing_deployment start) = Raise conflict.
Proof.
  split; [|split; [split|]].
  - apply (proj1 (proj2 (deploy_falcon_manifest_first_writer_wins
                    (world_ops := scripted protected) api0 existing_deployment start)))
      with (w0 := start) (items := [existing_deployment]) (w1 := start);
      [reflexivity | reflexivity | discriminate].
  - apply (proj2 (proj2 (deploy_falcon_manifest_first_writer_wins
                    (world_ops := scripted fresh) api0 existing_deployment start)))
      with (w0 := start) (r := inr []) (w1 := start) (w2 := start);
      [reflexivity | reflexivity | now left | reflexivity].
  - apply (proj2 (proj2 (deploy_falcon_manifest_first_writer_wins
                    (world_ops := scripted fresh) api0 existing_deployment start)))
      with (w0 := start) (r := inr []) (w1 := start) (w2 := start) (w3 := start);
      [reflexivity | reflexivity | now left | reflexivity | reflexivity].
  - apply (proj2 (proj2 (deploy_falcon_manifest_first_writer_wins
                    (world_ops := scripted (with_create (inl conflict) fresh))
                    api0 existing_deployment start)))
      with (w0 := start) (r := inr []) (w1 := start) (w2 := start) (w3 := start);
      [reflexivity | reflexivity | now left | reflexivity | reflexivity].
Defined.

(** C2 as it was claimed fails where the dynamic client cannot be
    constructed or the kind is not served: on a cluster with an existing
    FalconDeployment whose API discovery is down the function raises instead
    of returning, and on a cluster with none that does not serve the kind it
    raises without a create call. *)
Lemma first_writer_wins_needs_the_dynamic_client :
  (list_cluster_custom_object_op
     (World := scripted (with_dynamic_client (inl service_unavailable) protected))
     api0 "falcon.crowdstrike.com" "v1alpha1" "falcondeployments" start =
     (inr [existing_deployment], start) /\
   out (deploy_falcon_manifest
          (world_ops := scripted (with_dynamic_client (inl service_unavailable) protected))
          api0 existing_deployment start) <> Ret tt) /\
  (list_cluster_custom_object_op
     (World := scripted (with_resources_get (inl kind_not_found) fresh))
     api0 "falcon.crowdstrike.com" "v1alpha1" "falcondeployments" start =
     (inr [], start) /\
   create_calls
     (evs (deploy_falcon_manifest
             (world_ops := scripted (with_resources_get (inl kind_not_found) fresh))
             api0 existing_deployment start)) = []).
Proof.
  split; split; try reflexivity. discriminate.
Qed.

(** Runs of C8 on sample worlds: a 404 and a 403 on each check. *)
Lemma not_found_is_the_only_absence_signal_witness :
  out (check_resources_deployed (world_ops := scripted fresh)
         api0 "falcon-operator" start) = Ret false /\
  out (check_resources_deployed
         (world_ops := scripted (with_read_namespace (inl forbidden) protected))
         api0 "falcon-operator" start) = Raise forbidden /\
  out (check_resources_deployed
         (world_ops := scripted (with_pods (fun _ => inl not_found) protected))
         api0 "falcon-operator" start) = Raise not_found /\
  out (list_falcon_deployments
         (world_ops := scripted (with_custom_objects (inl not_found) protected))
         api0 start) = Ret [] /\
  out (list_falcon_deployments
         (world_ops := scripted (with_custom_objects (inl forbidden) protected))
         api0 start) = Raise forbidden.
Proof.
  split; [|split; [|split; [|split]]].
  - apply (proj1 (not_found_is_the_only_absence_signal
                    (world_ops := scripted fresh) api0 "falcon-operator" start))
      with (reason := mkResponse "Not Found" "" "") (w' := start).
    reflexivity.
  - apply (proj1 (proj2 (not_found_is_the_only_absence_signal
                    (world_ops := scripted (with_read_namespace (inl forbidden) protected))
                    api0 "falcon-operator" start))) with (w' := start);
      [discriminate | reflexivity].
  - apply (proj1 (proj2 (proj2 (not_found_is_the_only_absence_signal
                    (world_ops := scripted (with_pods (fun _ => inl not_found) protected))
                    api0 "falcon-operator" start))))
      with (w1 := start) (w2 := mkCounters 0 1); reflexivity.
  - apply (proj1 (proj2 (proj2 (proj2 (not_found_is_the_only_absence_signal
                    (world_ops := scripted (with_custom_objects (inl not_found) protected))
                    api0 "falcon-operator" start)))))
      with (reason := mkResponse "Not Found" "" "") (w' := start).
    reflexivity.
  - apply (proj2 (proj2 (proj2 (proj2 (not_found_is_the_only_absence_signal
                    (world_ops := scripted (with_custom_objects (inl forbidden) protected))
                    api0 "falcon-operator" start)))))
      with (w' := start); [discriminate | reflexivity].
Defined.

(** C6. Manifest building is deterministic.  Two runs of the builder with
    the same configuration, the same serializer and the same autopilot flag,
    from any two states of any two worlds, write one file each, with the same
    name and the same content, the serialization of one document [m]; and each
    run returns [m] unless its write raises. *)
Theorem manifest_building_is_deterministic
    (cfg : Config) (yaml_dump : pyval -> string) (is_autopilot : bool)
    {W1 : Type} {ops1 : World W1} {W2 : Type} {ops2 : World W2}
    (w1 : W1) (w2 : W2) :
  let r1 := configure_falcon_deployment_manifest cfg yaml_dump is_autopilot w1 in
  let r2 := configure_falcon_deployment_manifest cfg yaml_dump is_autopilot w2 in
  exists m : pyval,
    write_calls (evs r1) = [("node_sensor_manifest.yaml", yaml_dump m)] /\
    write_calls (evs r2) = [("node_sensor_manifest.yaml", yaml_dump m)] /\
    (out r1 = Ret m \/ exists e, out r1 = Raise e) /\
    (out r2 = Ret m \/ exists e, out r2 = Raise e).
Proof.
  cbv zeta. exists (rendered_manifest cfg is_autopilot).
  repeat split;
    auto using configure_falcon_deployment_manifest_writes,
      configure_falcon_deployment_manifest_outcome.
Qed.

(** A run of C7 with every option set. *)
Lemma manifest_field_placement_witness :
  out (configure_falcon_deployment_manifest (world_ops := scripted protected)
         all_options outline true start) = Ret (rendered_manifest all_options true) /\
  key_paths "tags" (rendered_manifest all_options true) =
    [["spec"; "falcon"; "tags"]] /\
  key_paths "version" (rendered_manifest all_options true) =
    [["spec"; "falconNodeSensor"; "node"; "version"]].
Proof.
  pose proof (manifest_field_placement (world_ops := scripted protected)
                all_options outline true start
                (rendered_manifest all_options true) eq_refl) as H.
  split; [reflexivity|].
  split; [exact (proj1 H) | exact (proj1 (proj2 (proj2 H)))].
Defined.

(** A run of C3 on a cluster that is being torn down. *)
Lemma unmanageable_cluster_is_left_alone_witness :
  main (world_ops := scripted stopping) no_options outline decoded 3
    (event_for demo_asset) start =
  mkRun (Ret tt) (mkCounters 1 0)
    (identity_log demo_asset "demo" "proj1" "us-central1-a" ++
     [EvGetCluster "demo" "us-central1-a" "proj1";
      EvLog DEBUG "Cluster status: STOPPING ";
      EvLog WARNING "Cluster in unmanageable state: STOPPING... Exiting"]).
Proof.
  apply (proj1 (unmanageable_cluster_is_left_alone (world_ops := scripted stopping)
                  no_options outline decoded 3 (event_for demo_asset) demo_asset
                  "demo" "proj1" "us-central1-a" start stopping_cluster
                  (mkCounters 1 0) eq_refl eq_refl eq_refl eq_refl eq_refl
                  (or_introl eq_refl))).
Defined.

(** A run of C5 on a running cluster nothing was installed on. *)
Lemma running_cluster_is_protected_at_once_witness :
  fetch_calls
    (evs (main (world_ops := scripted fresh) no_options outline decoded 3
            (event_for demo_asset) start)) =
  [("demo", "us-central1-a", "proj1")].
Proof.
  apply (running_cluster_is_protected_at_once (world_ops := scripted fresh)
           no_options outline decoded 3 (event_for demo_asset) demo_asset
           "demo" "proj1" "us-central1-a" start running_cluster
           (mkCounters 1 0) eq_refl eq_refl eq_refl eq_refl eq_refl eq_refl).
Defined.

(** Runs of C9 on an asset name of 5 segments and on one of 9. *)
Lemma identity_extraction_witness :
  main (world_ops := scripted fresh) no_options outline decoded 3
    (event_for short_asset) start =
  mkRun (Raise IndexError) start
    [EvLog ERROR "Unexpected error in main function: list index out of range"] /\
  exists cn p z rest,
    nth_error (split "/" demo_asset) 8 = Some cn /\
    nth_error (split "/" demo_asset) 4 = Some p /\
    nth_error (split "/" demo_asset) 6 = Some z /\
    evs (main (world_ops := scripted fresh) no_options outline decoded 3
           (event_for demo_asset) start) =
      identity_log demo_asset cn p z ++ EvGetCluster cn z p :: rest /\
    Forall (eq (cn, z, p))
      (fetch_calls (evs (main (world_ops := scripted fresh) no_options outline
                           decoded 3 (event_for demo_asset) start))).
Proof.
  split.
  - apply (proj1 (identity_extraction (world_ops := scripted fresh)
                    no_options outline decoded 3 (event_for short_asset)
                    short_asset start eq_refl)).
    cbn. lia.
  - apply (proj2 (identity_extraction (world_ops := scripted fresh)
                    no_options outline decoded 3 (event_for demo_asset)
                    demo_asset start eq_refl)).
    cbn. lia.
Defined.

(** C4 on a cluster that reports PROVISIONING at every fetch: the readiness
    loop fetches the status 21 times, one more than
    [MAX_CLUSTER_STATUS_CHECK_COUNT], sleeping a minute after each; then the
    handler goes on without raising, downloads the operator manifest and
    deploys with the cluster it fetched last. *)
Theorem provisioning_cluster_is_fetched_21_times :
  let r := main (world_ops := scripted never_ready) no_options outline decoded 3
             (event_for demo_asset) start in
  length (fetch_calls (evs r)) = 21 /\
  (MAX_CLUSTER_STATUS_CHECK_COUNT < Z.of_nat (length (fetch_calls (evs r))))%Z /\
  length (filter (Z.eqb 60) (sleep_calls (evs r))) = 21 /\
  out r = Ret tt /\
  download_calls (evs r) = [(FALCON_OPERATOR_URL, "falcon_operator.yaml")] /\
  client_calls (evs r) = [provisioning_cluster] /\
  apply_calls (evs r) = [(api0, "falcon_operator.yaml")] /\
  create_calls (evs r) =
    [(api0, rendered_manifest no_options true, "falcon-operator")].
Proof. vm_compute. repeat split. Qed.

(** The end-to-end scenario of the specification: the handler waits through
    two PROVISIONING answers, applies the operator descriptor once, waits for
    its pods, creates the agent descriptor once, and returns. *)
Example end_to_end_scenario :
  let r := main (world_ops := scripted becoming_ready) no_options outline decoded 3
             (event_for demo_asset) start in
  out r = Ret tt /\
  fetch_calls (evs r) =
    repeat ("demo", "us-central1-a", "proj1") 3 /\
  sleep_calls (evs r) = [60; 60; 10]%Z /\
  apply_calls (evs r) = [(api0, "falcon_operator.yaml")] /\
  install_calls (evs r) =
    [EvCreateFromYaml api0 "falcon_operator.yaml";
     falcon_create_event api0 (rendered_manifest no_options true)].
Proof. vm_compute. repeat split. Qed.

(** ** Further properties of the handler *)

Lemma pod_listing_calls_app t1 t2 :
  pod_listing_calls (t1 ++ t2) = pod_listing_calls t1 ++ pod_listing_calls t2.
Proof. induction t1 as [|[] t1 IH]; cbn; congruence. Qed.

Lemma custom_listing_calls_app t1 t2 :
  custom_listing_calls (t1 ++ t2) =
  custom_listing_calls t1 ++ custom_listing_calls t2.
Proof. induction t1 as [|[] t1 IH]; cbn; congruence. Qed.

Lemma any_pod_running_Exists pods :
  any_pod_running pods false = true <->
  Exists (fun pod => pod_phase pod = "Running") pods.
Proof.
  induction pods as [|pod pods IH]; cbn.
  - split; [discriminate | intros H; inversion H].
  - destruct (String.eqb_spec (pod_phase pod) "Running") as [E|E].
    + split; auto.
    + rewrite IH. split; [auto|]. intros H. inversion H; [contradiction | assumption].
Qed.

(** *** Splitting text *)

Lemma split_not_nil sep s : split sep s <> [].
Proof.
  destruct s as [|c s]; cbn; [discriminate|].
  destruct (Ascii.eqb c sep); [discriminate|].
  destruct (split sep s); discriminate.
Qed.

Lemma split_without_separator sep a :
  contains sep a = false -> split sep a = [a].
Proof.
  induction a as [|c a IH]; cbn; [reflexivity|].
  intros H. apply orb_false_iff in H as [Hc Ha].
  now rewrite Hc, (IH Ha).
Qed.

Lemma split_at_separator sep a b :
  contains sep a = false ->
  split sep (a ++ String sep b) = a :: split sep b.
Proof.
  induction a as [|c a IH]; cbn.
  - intros _. now rewrite Ascii.eqb_refl.
  - intros H. apply orb_false_iff in H as [Hc Ha].
    now rewrite Hc, (IH Ha).
Qed.

Lemma concat_cons_char sep c seg segs :
  String.concat sep (String c seg :: segs) =
  String c (String.concat sep (seg :: segs)).
Proof. destruct segs; reflexivity. Qed.

Lemma concat_cons_more sep x l :
  l <> [] -> String.concat sep (x :: l) = (x ++ sep ++ String.concat sep l)%string.
Proof. destruct l; [contradiction | reflexivity]. Qed.

(** X16. Splitting loses nothing.  Joining the segments of [s.split(sep)]
    with the separator gives [s] back, and a text with [n] separators has
    [n + 1] segments (one, the empty text, for the empty text): an asset name
    has 9 segments or more exactly when it has 8 slashes or more. *)
Theorem split_join_round_trip (sep : ascii) (s : string) :
  String.concat (String sep EmptyString) (split sep s) = s /\
  length (split sep s) = S (count_char sep s).
Proof.
  induction s as [|c s [IHj IHl]]; [split; reflexivity|].
  cbn [split count_char]. destruct (Ascii.eqb_spec c sep) as [->|Hc].
  - split; [|cbn [length]; now rewrite IHl].
    rewrite concat_cons_more by apply split_not_nil.
    now rewrite IHj.
  - destruct (split sep s) as [|seg segs] eqn:E; [now destruct (split_not_nil sep s)|].
    split; [|cbn [length] in *; lia].
    now rewrite concat_cons_char, IHj.
Qed.

Lemma split_gke_asset_name p z c :
  contains "/" p = false -> contains "/" z = false -> contains "/" c = false ->
  split "/" (gke_asset_name p z c) =
  [""; ""; "container.googleapis.com"; "projects"; p; "zones"; z; "clusters"; c].
Proof.
  intros Hp Hz Hc. unfold gke_asset_name.
  change ("//container.googleapis.com/projects/" ++ p ++ "/zones/" ++ z
          ++ "/clusters/" ++ c)%string
    with ("" ++ String "/" ("" ++ String "/" ("container.googleapis.com"
          ++ String "/" ("projects" ++ String "/" (p ++ String "/" ("zones"
          ++ String "/" (z ++ String "/" ("clusters" ++ String "/" c))))))))%string.
  rewrite !split_at_separator by (assumption || reflexivity).
  now rewrite split_without_separator.
Qed.

(** *** Counting *)

Lemma count_if_app p t1 t2 : count_if p (t1 ++ t2) = count_if p t1 + count_if p t2.
Proof. induction t1 as [|ev t1 IH]; cbn; [reflexivity | rewrite IH; lia]. Qed.

Lemma length_apply_calls tr : length (apply_calls tr) = count_if applyb tr.
Proof. induction tr as [|[] tr IH]; cbn; congruence. Qed.

Lemma length_create_calls tr : length (create_calls tr) = count_if createb tr.
Proof. induction tr as [|[] tr IH]; cbn; congruence. Qed.

Lemma no_create_calls tr :
  Forall (fun ev => ~ is_create ev) tr -> create_calls tr = [].
Proof.
  induction 1 as [|ev tr H _ IH]; [reflexivity|].
  destruct ev; cbn in *; auto. tauto.
Qed.

Section Bounds.
Context {W : Type}.
Variable p : event -> bool.

Lemma at_most_zero {A} (m : M W A) :
  emits (fun ev => p ev = false) m -> at_most p 0 m.
Proof.
  intros H w. specialize (H w).
  induction H as [|ev tr Hev _ IH]; cbn; [lia | rewrite Hev; exact IH].
Qed.

Lemma at_most_le {A} n n' (m : M W A) : n <= n' -> at_most p n m -> at_most p n' m.
Proof. intros Hle H w. specialize (H w). lia. Qed.

Lemma at_most_bind {A B} n1 n2 (m : M W A) (f : A -> M W B) :
  at_most p n1 m -> (forall a, at_most p n2 (f a)) -> at_most p (n1 + n2) (bind m f).
Proof.
  intros Hm Hf w. rewrite evs_bind, count_if_app. specialize (Hm w).
  destruct (out (m w)); [specialize (Hf a (world (m w))); lia | cbn; lia | cbn; lia].
Qed.

Lemma at_most_try_except {A} n1 n2 (m : M W A) h :
  at_most p n1 m -> (forall e, at_most p n2 (h e)) ->
  at_most p (n1 + n2) (try_except m h).
Proof.
  intros Hm Hh w. rewrite evs_try_except, count_if_app. specialize (Hm w).
  destruct (out (m w)); [cbn; lia | specialize (Hh e (world (m w))); lia | cbn; lia].
Qed.

Lemma at_most_call {A} ev (op : W -> result A * W) : at_most p 1 (call ev op).
Proof. intros w. rewrite evs_call. cbn. destruct (p ev); lia. Qed.

(** When the first part never returns, the rest makes no call. *)
Lemma emits_bind_stuck {A B} (P : event -> Prop) (m : M W A) (f : A -> M W B) :
  emits P m -> (forall w a, out (m w) <> Ret a) -> emits P (bind m f).
Proof.
  intros Hm Hstuck w. rewrite evs_bind. apply Forall_app. split; [apply Hm|].
  destruct (out (m w)) eqn:E; [now destruct (Hstuck w a) | constructor | constructor].
Qed.

End Bounds.

Ltac emits_all side :=
  repeat first
    [ apply emits_sleep; solve [side]
    | apply configure_emits; [intros; solve [side] | solve [side]]
    | emits_step side ].

Section MoreHandlerFacts.
Context {W : Type} {world_ops : World W}.
Variable cfg : Config.
Variable yaml_dump : pyval -> string.
Variable b64_json_loads : pyval -> result pyval.

(** *** The readiness of the pods *)

Lemma check_pods_are_ready_listed api ns (w : W) pods w' :
  list_namespaced_pod_op api ns w = (inr pods, w') ->
  check_pods_are_ready api ns w =
  mkRun (Ret (any_pod_running pods false)) w' [EvListNamespacedPod api ns].
Proof.
  intros H. unfold check_pods_are_ready, list_namespaced_pod, bind, call, ret.
  now rewrite H.
Qed.

Lemma check_pods_are_ready_raises api ns (w : W) e w' :
  list_namespaced_pod_op api ns w = (inl e, w') ->
  check_pods_are_ready api ns w = mkRun (Raise e) w' [EvListNamespacedPod api ns].
Proof.
  intros H. unfold check_pods_are_ready, list_namespaced_pod, bind, call, ret.
  now rewrite H.
Qed.

(** X1. [check_pods_are_ready] answers [True] exactly when at least one
    listed pod is in phase [Running] (one is enough, whatever the others
    are, and an empty listing gives [False]); it makes the one listing call,
    and what the listing raises is not caught. *)
Theorem check_pods_are_ready_one_running_pod api ns (w : W) :
  (forall pods w',
      list_namespaced_pod_op api ns w = (inr pods, w') ->
      exists b,
        check_pods_are_ready api ns w =
          mkRun (Ret b) w' [EvListNamespacedPod api ns] /\
        (b = true <-> Exists (fun pod => pod_phase pod = "Running") pods)) /\
  (forall e w',
      list_namespaced_pod_op api ns w = (inl e, w') ->
      check_pods_are_ready api ns w =
        mkRun (Raise e) w' [EvListNamespacedPod api ns]).
Proof.
  split.
  - intros pods w' H. exists (any_pod_running pods false). split.
    + now apply check_pods_are_ready_listed.
    + apply any_pod_running_Exists.
  - intros e w' H. now apply check_pods_are_ready_raises.
Qed.

Lemma pod_wait_body_listed api b (w : W) pods w' :
  list_namespaced_pod_op api "falcon-operator"
    (sleep_op POD_READY_STATE_SECONDS_TO_SLEEP w) = (inr pods, w') ->
  pod_wait_body api b w =
  mkRun (Ret (Next (any_pod_running pods false))) w'
    [EvLog INFO "Pods are not yet ready. Sleeping for 10 seconds";
     EvSleep 10;
     EvListNamespacedPod api "falcon-operator"].
Proof.
  intros H. unfold pod_wait_body, check_pods_are_ready, list_namespaced_pod,
    sleep, bind, call, log, ret.
  now rewrite H.
Qed.

(** The loop, entered with no pod ready, when a pod runs at the listing
    number [n] counted from the next one. *)
Lemma pod_wait_rounds api :
  forall n fuel (w : W),
    n < fuel ->
    pods_ready_after api n (sleep_op POD_READY_STATE_SECONDS_TO_SLEEP w) ->
    let r := while fuel (fun pods_ready => negb pods_ready)
               (pod_wait_body api) false w in
    out r = Ret (Next true) /\
    sleep_calls (evs r) = repeat 10%Z (S n) /\
    pod_listing_calls (evs r) = repeat (api, "falcon-operator") (S n).
Proof.
  induction n as [|n IH]; intros fuel w Hlt Hready r; subst r;
    (destruct fuel as [|fuel]; [lia|]);
    rewrite while_step by reflexivity.
  - destruct Hready as [pods [w' [Hl Hr]]].
    rewrite (bind_Ret _ _ _ _ _ _ (pod_wait_body_listed api false w pods w' Hl)).
    rewrite Hr, while_done by reflexivity. cbn. auto.
  - destruct Hready as [pods [w' [Hl [Hr Hnext]]]].
    rewrite (bind_Ret _ _ _ _ _ _ (pod_wait_body_listed api false w pods w' Hl)).
    rewrite Hr.
    destruct (IH fuel w' ltac:(lia) Hnext) as [Ho [Hs Hp]].
    unfold prepend; cbn [out evs].
    cbn [app sleep_calls pod_listing_calls].
    rewrite Hs, Hp. auto.
Qed.

(** X2. The wait for the pods of the operator ends at the first listing that
    shows a running pod.  When the next [n] listings show none and the one
    after them does, a wait followed for at least [n] rounds returns, having
    listed the pods [n + 1] times and slept 10 seconds [n] times, once
    between two listings. *)
Theorem await_operator_pods_returns_when_ready api n fuel (w : W) :
  pods_ready_after api n w ->
  n <= fuel ->
  let r := await_operator_pods fuel api w in
  out r = Ret tt /\
  sleep_calls (evs r) = repeat 10%Z n /\
  pod_listing_calls (evs r) = repeat (api, "falcon-operator") (S n).
Proof.
  intros Hready Hle r. subst r. unfold await_operator_pods.
  rewrite bind_log.
  change (fun _ : bool =>
            log INFO "Pods are not yet ready. Sleeping for 10 seconds";;
            sleep POD_READY_STATE_SECONDS_TO_SLEEP;;
            pods_ready <- check_pods_are_ready api "falcon-operator";;
            ret (Next pods_ready))
    with (pod_wait_body api).
  destruct n as [|n].
  - destruct Hready as [pods [w' [Hl Hr]]].
    rewrite (bind_Ret _ _ _ _ _ _ (check_pods_are_ready_listed _ _ _ _ _ Hl)).
    rewrite Hr. rewrite (bind_Ret _ _ w' (Next true) w' []).
    + cbn. auto.
    + now rewrite while_done.
  - destruct Hready as [pods [w' [Hl [Hr Hnext]]]].
    rewrite (bind_Ret _ _ _ _ _ _ (check_pods_are_ready_listed _ _ _ _ _ Hl)).
    rewrite Hr.
    destruct (pod_wait_rounds api n fuel w' ltac:(lia) Hnext) as [Ho [Hs Hp]].
    destruct (while fuel (fun pods_ready => negb pods_ready) (pod_wait_body api)
                false w') as [o w'' t] eqn:Ew.
    cbn [out evs] in *. subst o.
    rewrite (bind_Ret _ _ _ _ _ _ Ew). unfold prepend; cbn [out evs log].
    rewrite !sleep_calls_app, !pod_listing_calls_app, Hs, Hp. cbn.
    rewrite !app_nil_r. auto.
Qed.

(** The loop on pods that never run: it uses up whatever fuel it is given. *)
Lemma pod_wait_never_ends api :
  pods_never_ready api ->
  forall fuel (w : W),
    let r := while fuel (fun pods_ready => negb pods_ready)
               (pod_wait_body api) false w in
    out r = Diverge /\
    sleep_calls (evs r) = repeat 10%Z fuel /\
    pod_listing_calls (evs r) = repeat (api, "falcon-operator") fuel.
Proof.
  intros Hnever. induction fuel as [|fuel IH]; intros w r; subst r.
  - cbn. auto.
  - rewrite while_step by reflexivity.
    destruct (Hnever (sleep_op POD_READY_STATE_SECONDS_TO_SLEEP w))
      as [pods [w' [Hl Hr]]].
    rewrite (bind_Ret _ _ _ _ _ _ (pod_wait_body_listed api false w pods w' Hl)).
    rewrite Hr. destruct (IH w') as [Ho [Hs Hp]].
    unfold prepend; cbn [out evs]. cbn [app sleep_calls pod_listing_calls].
    rewrite Hs, Hp. auto.
Qed.

Lemma await_operator_pods_never_ready api fuel (w : W) :
  pods_never_ready api ->
  out (await_operator_pods fuel api w) = Diverge /\
  sleep_calls (evs (await_operator_pods fuel api w)) = repeat 10%Z fuel /\
  pod_listing_calls (evs (await_operator_pods fuel api w)) =
    repeat (api, "falcon-operator") (S fuel).
Proof.
  intros Hnever. unfold await_operator_pods. rewrite bind_log.
  change (fun _ : bool =>
            log INFO "Pods are not yet ready. Sleeping for 10 seconds";;
            sleep POD_READY_STATE_SECONDS_TO_SLEEP;;
            pods_ready <- check_pods_are_ready api "falcon-operator";;
            ret (Next pods_ready))
    with (pod_wait_body api).
  destruct (Hnever w) as [pods [w' [Hl Hr]]].
  rewrite (bind_Ret _ _ _ _ _ _ (check_pods_are_ready_listed _ _ _ _ _ Hl)).
  rewrite Hr.
  destruct (pod_wait_never_ends api Hnever fuel w') as [Ho [Hs Hp]].
  destruct (while fuel (fun pods_ready => negb pods_ready) (pod_wait_body api)
              false w') as [o w'' t] eqn:Ew.
  cbn [out evs] in *. subst o.
  rewrite (bind_Diverge _ _ _ _ _ Ew). unfold prepend; cbn [out evs].
  cbn [app sleep_calls pod_listing_calls]. rewrite Hs, Hp. auto.
Qed.

Lemma out_bind_Ret {A B} (m : M W A) (f : A -> M W B) w b :
  out (bind m f w) = Ret b ->
  exists a, out (m w) = Ret a /\ out (f a (world (m w))) = Ret b.
Proof.
  unfold bind. destruct (m w) as [[a|e|] w' t]; cbn; try discriminate.
  destruct (f a w') as [o w'' t'] eqn:E. cbn. intros ->. exists a.
  split; [reflexivity|]. now rewrite E.
Qed.

(** X3. The wait for the pods of the operator has no bound.  On a cluster
    where no listing ever shows a running pod, the wait is still running after
    any number of rounds, having slept 10 seconds in each; so
    [deploy_operator] never returns there, whether it applied the operator or
    skipped it. *)
Theorem deploy_operator_waits_without_bound api fuel (w : W) :
  pods_never_ready api ->
  out (await_operator_pods fuel api w) = Diverge /\
  sleep_calls (evs (await_operator_pods fuel api w)) = repeat 10%Z fuel /\
  (forall u, out (deploy_operator fuel api w) <> Ret u).
Proof.
  intros Hnever.
  destruct (await_operator_pods_never_ready api fuel w Hnever) as [Ho [Hs _]].
  repeat split; try assumption.
  intros u H. unfold deploy_operator in H.
  apply out_bind_Ret in H as [deployed [_ H]].
  apply out_bind_Ret in H as [u' [_ H]].
  rewrite (proj1 (await_operator_pods_never_ready api fuel _ Hnever)) in H.
  discriminate.
Qed.

(** X4. A failed apply is fatal.  The operator counts as not deployed when
    the read of the namespace answers 404, or when the namespace exists and
    the listing of its pods is empty.  If [create_from_yaml] then raises,
    [deploy_operator] logs the text of the error and raises it again, and the
    run ends there: the wait for the pods is not started, so nothing sleeps
    and no pod is listed after the apply (the only listing is the one of the
    existence check, when the namespace exists). *)
Theorem deploy_operator_apply_failure_is_fatal fuel api (w : W) :
  (forall reason w1 e w2,
      read_namespace_op api "falcon-operator" w =
        (inl (ApiException 404 reason), w1) ->
      create_from_yaml_op api "falcon_operator.yaml" w1 = (inl e, w2) ->
      deploy_operator fuel api w =
        mkRun (Raise e) w2
          [EvLog DEBUG "Checking for namespace: falcon-operator.";
           EvReadNamespace api "falcon-operator";
           EvLog INFO "Deploying Falcon operator";
           EvCreateFromYaml api "falcon_operator.yaml";
           EvLog ERROR (exn_str e)]) /\
  (forall w1 w2 e w3,
      read_namespace_op api "falcon-operator" w = (inr tt, w1) ->
      list_namespaced_pod_op api "falcon-operator" w1 = (inr [], w2) ->
      create_from_yaml_op api "falcon_operator.yaml" w2 = (inl e, w3) ->
      deploy_operator fuel api w =
        mkRun (Raise e) w3
          [EvLog DEBUG "Checking for namespace: falcon-operator.";
           EvReadNamespace api "falcon-operator";
           EvLog DEBUG "Namespace falcon-operator exists.";
           EvListNamespacedPod api "falcon-operator";
           EvLog INFO "Deploying Falcon operator";
           EvCreateFromYaml api "falcon_operator.yaml";
           EvLog ERROR (exn_str e)]).
Proof.
  assert (fatal : forall w1 t e w2,
             check_resources_deployed api "falcon-operator" w =
               mkRun (Ret false) w1 t ->
             create_from_yaml_op api "falcon_operator.yaml" w1 = (inl e, w2) ->
             deploy_operator fuel api w =
               mkRun (Raise e) w2
                 (t ++ [EvLog INFO "Deploying Falcon operator";
                        EvCreateFromYaml api "falcon_operator.yaml";
                        EvLog ERROR (exn_str e)])).
  { intros w1 t e w2 Hcheck Happly. unfold deploy_operator.
    rewrite (bind_Ret _ _ _ _ _ _ Hcheck). cbv beta iota.
    erewrite bind_Raise; [reflexivity|].
    unfold try_except, bind, log, create_from_yaml, call, raise.
    now rewrite Happly. }
  split.
  - intros reason w1 e w2 Hread Happly.
    exact (fatal _ _ _ _ (check_resources_deployed_not_found _ _ _ _ _ Hread) Happly).
  - intros w1 w2 e w3 Hread Hlist Happly.
    exact (fatal _ _ _ _ (check_resources_deployed_listed _ _ _ _ _ _ Hread Hlist)
             Happly).
Qed.

(** X5. The existence checks only read.  In every world,
    [check_resources_deployed], [check_pods_are_ready] and
    [list_falcon_deployments] make no call other than logging, reading the
    namespace, listing its pods and listing the custom resources: they never
    apply, create, write, download or sleep. *)
Theorem existence_checks_only_read api ns :
  emits read_only (check_resources_deployed (W := W) api ns) /\
  emits read_only (check_pods_are_ready (W := W) api ns) /\
  emits read_only (list_falcon_deployments (W := W) api).
Proof.
  repeat split; emits_with ltac:(exact I).
Qed.

(** X6. A failed listing stops the agent deployment.  Once the dynamic
    client is constructed, when the listing of FalconDeployment resources
    raises anything but a 404 [ApiException], [deploy_falcon_manifest] raises
    it too: the run is the construction of the client, one log line and the
    listing, and neither the kind is resolved nor a creation attempted. *)
Theorem deploy_falcon_manifest_listing_failure api body (w : W) w0 e w' :
  dynamic_client_op api w = (inr tt, w0) ->
  list_cluster_custom_object_op api
    "falcon.crowdstrike.com" "v1alpha1" "falcondeployments" w0 = (inl e, w') ->
  (forall reason, e <> ApiException 404 reason) ->
  deploy_falcon_manifest api body w =
    mkRun (Raise e) w'
      [EvDynamicClient api;
       EvLog INFO "Checking to see if there are existing Falcon deployments";
       custom_list_event api] /\
  create_calls (evs (deploy_falcon_manifest api body w)) = [].
Proof.
  intros Hd H Hne.
  assert (E : deploy_falcon_manifest api body w =
              mkRun (Raise e) w'
                [EvDynamicClient api;
                 EvLog INFO "Checking to see if there are existing Falcon deployments";
                 custom_list_event api]).
  { unfold deploy_falcon_manifest.
    rewrite (bind_Ret _ _ _ _ _ _ (new_dynamic_client_ok _ _ _ Hd)).
    erewrite bind_Raise; [reflexivity|].
    now apply list_falcon_deployments_raises. }
  split; [exact E | now rewrite E].
Qed.

(** *** The readiness loop in every world *)

Lemma poll_body_fetched cn z p st (w : W) c w' :
  get_cluster_op cn z p w = (inr c, w') ->
  poll_body cn z p st w =
  let s := cluster_status_name c in
  let next := Next (mkPoll (Some c) s (cluster_status_check_counter st + 1)) in
  let seen := [EvGetCluster cn z p; EvLog DEBUG ("Cluster status: " ++ s ++ " ")] in
  if str_in s unmanageable then
    mkRun (Ret Return) w'
      (seen ++ [EvLog WARNING ("Cluster in unmanageable state: " ++ s ++ "... Exiting")])
  else if str_in s ["PROVISIONING"] then
    mkRun (Ret next) (sleep_op 60 w')
      (seen ++ [EvLog INFO "Cluster in provisioning state... Sleeping."; EvSleep 60])
  else if str_in s ["RUNNING"] then
    mkRun (Ret next) w' (seen ++ [EvLog INFO "Deploying operator on cluster"])
  else mkRun (Ret next) w' seen.
Proof.
  intros H. unfold poll_body, get_cluster, bind, call, log, ret, sleep.
  rewrite H. cbv zeta.
  destruct (str_in (cluster_status_name c) unmanageable); [reflexivity|].
  destruct (str_in (cluster_status_name c) ["PROVISIONING"]); [reflexivity|].
  destruct (str_in (cluster_status_name c) ["RUNNING"]); reflexivity.
Qed.

Lemma poll_body_raises cn z p st (w : W) e w' :
  get_cluster_op cn z p w = (inl e, w') ->
  poll_body cn z p st w = mkRun (Raise e) w' [EvGetCluster cn z p].
Proof.
  intros H. unfold poll_body, get_cluster, bind, call. now rewrite H.
Qed.

Lemma readiness_facts_stopped cn z p st fuel (w : W) o :
  (forall st', o = Ret (Next st') -> st' = st /\ poll_cond st = false) ->
  (poll_cond st = true -> fuel = 0) ->
  readiness_facts cn z p st fuel (mkRun o w []).
Proof.
  intros Ho Hf. unfold readiness_facts. cbn.
  split; [lia|]. split; [constructor|]. split; [lia|]. split; [constructor|].
  split; [intros E; rewrite (Hf E); lia|].
  intros st' H. destruct (Ho st' H) as [-> E].
  split; [lia|]. split; [assumption|]. congruence.
Qed.

Lemma readiness_facts_failed cn z p st fuel (w : W) (o : outcome (ctl poll_vars)) t :
  (forall st', o <> Ret (Next st')) ->
  fetch_calls t = [] ->
  sleep_calls t = [] ->
  readiness_facts cn z p st (S fuel) (mkRun o w (EvGetCluster cn z p :: t)).
Proof.
  intros Ho Hf Hs. unfold readiness_facts. cbn. rewrite Hf, Hs. cbn.
  split; [lia|]. split; [repeat constructor|]. split; [lia|].
  split; [constructor|]. split; [lia|].
  intros st' H. now destruct (Ho st').
Qed.

(** One more round in front of a run of the loop. *)
Lemma readiness_facts_round cn z p st c fuel t (r : run W (ctl poll_vars)) :
  poll_cond st = true ->
  ~ In (cluster_status_name c) unmanageable ->
  fetch_calls t = [] ->
  length (sleep_calls t) <= 1 ->
  Forall (eq 60%Z) (sleep_calls t) ->
  (poll_cond (mkPoll (Some c) (cluster_status_name c)
                (cluster_status_check_counter st + 1)) = false ->
   forall st', out r = Ret (Next st') ->
     st' = mkPoll (Some c) (cluster_status_name c)
             (cluster_status_check_counter st + 1)) ->
  readiness_facts cn z p
    (mkPoll (Some c) (cluster_status_name c)
       (cluster_status_check_counter st + 1)) fuel r ->
  readiness_facts cn z p st (S fuel) (prepend (EvGetCluster cn z p :: t) r).
Proof.
  intros E Hu Hf Hs H60 Hdone [I1 [I2 [I3 [I4 [I5 I6]]]]].
  unfold readiness_facts, prepend. cbn [out evs].
  cbn [app fetch_calls sleep_calls].
  rewrite fetch_calls_app, sleep_calls_app, Hf. cbn [app length].
  rewrite length_app.
  split; [lia|]. split; [constructor; auto|]. split; [lia|].
  split; [apply Forall_app; auto|]. split; [lia|].
  intros st' Ho. destruct (I6 st' Ho) as [J1 [J2 J3]].
  split; [|split; [assumption|]].
  - rewrite J1. cbn [cluster_status_check_counter]. lia.
  - intros _.
    destruct (poll_cond (mkPoll (Some c) (cluster_status_name c)
                           (cluster_status_check_counter st + 1))) eqn:E1;
      [now apply J3|].
    rewrite (Hdone eq_refl st' Ho). exists c. repeat split; auto.
Qed.

(** Whatever the cluster answers, the loop fetches the status once a round,
    sleeps a minute at most once a fetch, and counts its fetches. *)
Lemma readiness_loop_rounds cn z p :
  forall fuel st (w : W),
    readiness_facts cn z p st fuel (while fuel poll_cond (poll_body cn z p) st w).
Proof.
  induction fuel as [|fuel IH]; intros st w.
  - cbn [while]. destruct (poll_cond st) eqn:E.
    + apply readiness_facts_stopped; [discriminate | reflexivity].
    + apply readiness_facts_stopped; [|congruence].
      intros st' H. inversion H; subst. split; [reflexivity | assumption].
  - destruct (poll_cond st) eqn:E.
    2:{ rewrite while_done by assumption.
        apply readiness_facts_stopped; [|congruence].
        intros st' H. inversion H; subst. split; [reflexivity | assumption]. }
    rewrite while_step by assumption.
    destruct (get_cluster_op cn z p w) as [[e|c] w'] eqn:Hg.
    { rewrite (bind_Raise _ _ _ _ _ _ (poll_body_raises _ _ _ st _ _ _ Hg)).
      apply readiness_facts_failed; [discriminate | reflexivity | reflexivity]. }
    pose proof (poll_body_fetched cn z p st w c w' Hg) as Hb. cbv zeta in Hb.
    destruct (str_in (cluster_status_name c) unmanageable) eqn:Eu.
    { rewrite (bind_Ret _ _ _ _ _ _ Hb). cbn [app prepend out world evs ret].
      apply readiness_facts_failed; [discriminate | reflexivity | reflexivity]. }
    assert (Hu : ~ In (cluster_status_name c) unmanageable).
    { intros Hin. apply str_in_In in Hin. congruence. }
    assert (Hdone : forall w1,
      poll_cond (mkPoll (Some c) (cluster_status_name c)
                   (cluster_status_check_counter st + 1)) = false ->
      forall st',
        out (while fuel poll_cond (poll_body cn z p)
               (mkPoll (Some c) (cluster_status_name c)
                  (cluster_status_check_counter st + 1)) w1) = Ret (Next st') ->
        st' = mkPoll (Some c) (cluster_status_name c)
                (cluster_status_check_counter st + 1)).
    { intros w1 E1 st' Ho. rewrite while_done in Ho by assumption.
      cbn in Ho. now inversion Ho. }
    destruct (str_in (cluster_status_name c) ["PROVISIONING"]);
      [|destruct (str_in (cluster_status_name c) ["RUNNING"])];
      rewrite (bind_Ret _ _ _ _ _ _ Hb); cbn [app]; cbv beta iota;
      (apply (readiness_facts_round cn z p st c);
       [assumption | assumption | reflexivity | cbn; lia
       | cbn; repeat constructor | apply Hdone | apply IH]).
Qed.

(** X7. The readiness loop is bounded in every world.  Whatever the cluster
    API answers, the loop ends (it never uses up its fuel) after at least
    one and at most [MAX_CLUSTER_STATUS_CHECK_COUNT + 1] status fetches, all
    for the cluster of the event; it sleeps at most once per fetch, each time
    for 60 seconds. *)
Theorem await_cluster_is_bounded cn z p (w : W) :
  let r := await_cluster cn z p w in
  out r <> Diverge /\
  1 <= length (fetch_calls (evs r)) <= Z.to_nat (MAX_CLUSTER_STATUS_CHECK_COUNT + 1) /\
  Forall (eq (cn, z, p)) (fetch_calls (evs r)) /\
  length (sleep_calls (evs r)) <= length (fetch_calls (evs r)) /\
  Forall (eq 60%Z) (sleep_calls (evs r)).
Proof.
  cbv zeta. split; [apply await_cluster_halts|].
  destruct (readiness_loop_rounds cn z p
              (Z.to_nat (MAX_CLUSTER_STATUS_CHECK_COUNT + 1))
              (mkPoll None "" 0) w) as [I1 [I2 [I3 [I4 [I5 _]]]]].
  unfold await_cluster. repeat split; auto.
  apply I5; [reflexivity | cbn; lia].
Qed.

(** X8. What the loop hands over.  When the readiness loop is left by its
    condition, the [cluster] variable is bound to a fetched cluster whose
    status is the last one seen and is not an unmanageable one, the counter is
    the number of fetches made, and either the status is RUNNING or the
    counter is [MAX_CLUSTER_STATUS_CHECK_COUNT + 1]. *)
Theorem await_cluster_hands_over_a_cluster cn z p (w : W) st :
  out (await_cluster cn z p w) = Ret (Next st) ->
  exists c,
    cluster st = Some c /\
    cluster_status st = cluster_status_name c /\
    ~ In (cluster_status st) unmanageable /\
    cluster_status_check_counter st =
      Z.of_nat (length (fetch_calls (evs (await_cluster cn z p w)))) /\
    (cluster_status st = "RUNNING" \/
     cluster_status_check_counter st = (MAX_CLUSTER_STATUS_CHECK_COUNT + 1)%Z).
Proof.
  intros Ho.
  destruct (readiness_loop_rounds cn z p
              (Z.to_nat (MAX_CLUSTER_STATUS_CHECK_COUNT + 1))
              (mkPoll None "" 0) w) as [I1 [_ [_ [_ [_ I6]]]]].
  fold (await_cluster cn z p) in I1, I6.
  destruct (I6 st Ho) as [J1 [J2 J3]].
  destruct (J3 eq_refl) as [c [Hc [Hs Hu]]].
  exists c. repeat split; auto.
  unfold poll_cond in J2. apply andb_false_iff in J2 as [J2|J2].
  - left. apply negb_false_iff, String.eqb_eq in J2. exact J2.
  - right. apply Z.leb_gt in J2. cbn in J1, I1.
    unfold MAX_CLUSTER_STATUS_CHECK_COUNT in *. lia.
Qed.

Lemma readiness_loop_other_status_rounds cn z p :
  (forall w : W, exists c w',
      get_cluster_op cn z p w = (inr c, w') /\
      ~ In (cluster_status_name c) known_statuses) ->
  forall n st (w : W),
    cluster_status st <> "RUNNING" ->
    cluster_status_check_counter st =
      (MAX_CLUSTER_STATUS_CHECK_COUNT + 1 - Z.of_nat n)%Z ->
    let r := while n poll_cond (poll_body cn z p) st w in
    length (fetch_calls (evs r)) = n /\
    sleep_calls (evs r) = [] /\
    exists st', out r = Ret (Next st').
Proof.
  intros Hw. induction n as [|n IH]; intros st w Hs Hc r; subst r.
  - rewrite while_done.
    + cbn. eauto.
    + unfold poll_cond. rewrite Hc. cbn. apply andb_false_r.
  - rewrite while_step.
    2:{ unfold poll_cond. apply andb_true_intro. split.
        - apply negb_true_iff, String.eqb_neq, Hs.
        - apply Z.leb_le. lia. }
    destruct (Hw w) as [c [w' [Hg Hst]]].
    pose proof (poll_body_fetched cn z p st w c w' Hg) as Hb. cbv zeta in Hb.
    assert (Hn : forall l, incl l known_statuses ->
                           str_in (cluster_status_name c) l = false).
    { intros l Hl. destruct (str_in (cluster_status_name c) l) eqn:E; [|reflexivity].
      apply str_in_In in E. destruct Hst. now apply Hl. }
    rewrite (Hn unmanageable), (Hn ["PROVISIONING"]), (Hn ["RUNNING"]) in Hb;
      try (intros x Hx; unfold known_statuses; cbn in *; tauto).
    rewrite (bind_Ret _ _ _ _ _ _ Hb).
    destruct (IH (mkPoll (Some c) (cluster_status_name c)
                    (cluster_status_check_counter st + 1)) w')
      as [Hf [Hsl [st'' Ho]]].
    + cbn. intros E. apply Hst. rewrite E. unfold known_statuses. cbn. tauto.
    + cbn [cluster_status_check_counter]. lia.
    + unfold prepend; cbn [out evs]. cbn [app fetch_calls sleep_calls length].
      rewrite Hf, Hsl. eauto.
Qed.

(** X9. A status the loop has no branch for is polled without a pause.  On a
    cluster whose status is, at every fetch, none of STOPPING, ERROR,
    DEGRADED, STATUS_UNSPECIFIED, PROVISIONING and RUNNING (RECONCILING, for
    one), the loop fetches the status [MAX_CLUSTER_STATUS_CHECK_COUNT + 1]
    times in a row without sleeping, then ends normally and hands over to the
    deployment. *)
Theorem other_status_is_polled_without_sleeping cn z p (w : W) :
  (forall w : W, exists c w',
      get_cluster_op cn z p w = (inr c, w') /\
      ~ In (cluster_status_name c) known_statuses) ->
  length (fetch_calls (evs (await_cluster cn z p w))) =
    Z.to_nat (MAX_CLUSTER_STATUS_CHECK_COUNT + 1) /\
  sleep_calls (evs (await_cluster cn z p w)) = [] /\
  exists st, out (await_cluster cn z p w) = Ret (Next st).
Proof.
  intros Hw. unfold await_cluster.
  apply (readiness_loop_other_status_rounds cn z p Hw
           (Z.to_nat (MAX_CLUSTER_STATUS_CHECK_COUNT + 1)) (mkPoll None "" 0) w).
  - discriminate.
  - reflexivity.
Qed.

(** *** Failures before and at the first fetch *)

(** X10. A malformed event fails before any call.  When the event has no
    [data] field, or its payload does not decode, or the payload has no
    [asset] or no [name], the handler logs the error and raises it again
    without calling any collaborator; the same holds when the asset name is
    not a string, with the [AttributeError] that names the type of the value
    found (['NoneType' object has no attribute 'split'], for one). *)
Theorem malformed_event_fails_before_any_call fuel data (w : W) :
  (forall e,
      payload_asset_name b64_json_loads data = inl e ->
      main cfg yaml_dump b64_json_loads fuel data w =
        mkRun (Raise e) w
          [EvLog ERROR ("Unexpected error in main function: " ++ exn_str e)]) /\
  (forall v,
      payload_asset_name b64_json_loads data = inr v ->
      (forall s, v <> PStr s) ->
      main cfg yaml_dump b64_json_loads fuel data w =
        mkRun
          (Raise (AttributeError
                    ("'" ++ type_name v ++ "' object has no attribute 'split'")))
          w
          [EvLog ERROR
             ("Unexpected error in main function: '" ++ type_name v
              ++ "' object has no attribute 'split'")]) /\
  (forall d,
      data = PDict d -> Dict.get d "data" = None ->
      payload_asset_name b64_json_loads data = inl (KeyError "data")) /\
  (forall blob payload d,
      getitem data "data" = inr blob ->
      b64_json_loads blob = inr payload ->
      payload = PDict d -> Dict.get d "asset" = None ->
      payload_asset_name b64_json_loads data = inl (KeyError "asset")) /\
  (forall blob e,
      getitem data "data" = inr blob ->
      b64_json_loads blob = inl e ->
      payload_asset_name b64_json_loads data = inl e).
Proof.
  split; [|split; [|split; [|split]]].
  - intros e H.
    assert (E : main_try cfg yaml_dump b64_json_loads fuel data w =
                mkRun (Raise e) w []).
    { unfold main_try. rewrite H. apply bind_lift_inl. }
    unfold main. now rewrite (try_Raise _ _ _ _ _ _ E).
  - intros v H Hv.
    assert (E : main_try cfg yaml_dump b64_json_loads fuel data w =
                mkRun
                  (Raise (AttributeError
                            ("'" ++ type_name v
                             ++ "' object has no attribute 'split'")))
                  w []).
    { unfold main_try. rewrite H, bind_lift_inr.
      destruct v; try (apply bind_lift_inl). now destruct (Hv s). }
    unfold main. now rewrite (try_Raise _ _ _ _ _ _ E).
  - intros d -> H. unfold payload_asset_name, getitem. now rewrite H.
  - intros blob payload d H1 H2 -> H3. unfold payload_asset_name.
    rewrite H1. cbn [rbind]. rewrite H2. cbn [rbind getitem]. now rewrite H3.
  - intros blob e H1 H2. unfold payload_asset_name.
    rewrite H1. cbn [rbind]. now rewrite H2.
Qed.

(** X11. A failed status fetch is fatal.  When the first fetch of the
    cluster raises, the handler does not retry: it logs the error and raises
    it again, having made that one call. *)
Theorem failed_status_fetch_is_fatal fuel data s cn p z (w : W) e w1 :
  payload_asset_name b64_json_loads data = inr (PStr s) ->
  nth_error (split "/" s) 8 = Some cn ->
  nth_error (split "/" s) 4 = Some p ->
  nth_error (split "/" s) 6 = Some z ->
  get_cluster_op cn z p w = (inl e, w1) ->
  main cfg yaml_dump b64_json_loads fuel data w =
  mkRun (Raise e) w1
    (identity_log s cn p z ++
     [EvGetCluster cn z p;
      EvLog ERROR ("Unexpected error in main function: " ++ exn_str e)]).
Proof.
  intros Hp H8 H4 H6 Hg.
  assert (E : ready_then_protect cfg yaml_dump fuel true cn z p w =
              mkRun (Raise e) w1 [EvGetCluster cn z p]).
  { unfold ready_then_protect. apply bind_Raise. unfold await_cluster.
    change (Z.to_nat (MAX_CLUSTER_STATUS_CHECK_COUNT + 1)) with 21%nat.
    rewrite while_step by reflexivity.
    apply bind_Raise. now apply poll_body_raises. }
  unfold main.
  rewrite (try_except_prepend _ _ _ _ _ _
             (main_try_parsed cfg yaml_dump _ fuel _ _ _ _ _ _ Hp H8 H4 H6)).
  now rewrite (try_Raise _ _ _ _ _ _ E).
Qed.

(** *** More on the manifest *)

(** X12. The fixed part of the manifest.  For every configuration and flag,
    the manifest the builder returns has exactly the top-level entries
    [apiVersion], [kind], [metadata] and [spec], in that order; its
    [spec.falcon_api] holds the configured credential pair and the region
    [us-2], and the four deployment toggles keep their fixed values, whatever
    options are set. *)
Theorem manifest_fixed_part is_autopilot (w : W) m :
  out (configure_falcon_deployment_manifest cfg yaml_dump is_autopilot w) = Ret m ->
  (exists spec,
      m = PDict [("apiVersion", PStr "falcon.crowdstrike.com/v1alpha1");
                 ("kind", PStr "FalconDeployment");
                 ("metadata", PDict [("name", PStr "falcon-deployment")]);
                 ("spec", PDict spec)]) /\
  lookup_path m ["spec"; "falcon_api"] =
    Some (PDict [("client_id", PStr (FALCON_CLIENT_ID cfg));
                 ("client_secret", PStr (FALCON_CLIENT_SECRET cfg));
                 ("cloud_region", PStr "us-2")]) /\
  lookup_path m ["spec"; "deployAdmissionController"] = Some (PBool true) /\
  lookup_path m ["spec"; "deployNodeSensor"] = Some (PBool true) /\
  lookup_path m ["spec"; "deployImageAnalyzer"] = Some (PBool false) /\
  lookup_path m ["spec"; "deployContainerSensor"] = Some (PBool false).
Proof.
  intros H. apply (configure_falcon_deployment_manifest_returns cfg yaml_dump) in H.
  subst m. unfold rendered_manifest.
  split; [eexists; reflexivity|].
  destruct (truthy (FALCON_SENSOR_TAGS cfg)); cbn; repeat split; reflexivity.
Qed.

(** X13. What enables auto-update.  Any value of FALCON_AUTO_UPDATE other
    than the exact string [off] (the empty string included) is copied to
    [advanced.autoUpdate] of the node section; with [off] the key is absent,
    and so is the whole [advanced] entry unless an update policy is set.  A
    non-empty FALCON_UPDATE_POLICY is copied to [advanced.updatePolicy], a
    non-empty FALCON_SENSOR_VERSION to [version]. *)
Theorem manifest_update_settings is_autopilot (w : W) m :
  out (configure_falcon_deployment_manifest cfg yaml_dump is_autopilot w) = Ret m ->
  (FALCON_AUTO_UPDATE cfg <> "off" ->
   lookup_path m ["spec"; "falconNodeSensor"; "node"; "advanced"; "autoUpdate"] =
     Some (PStr (FALCON_AUTO_UPDATE cfg))) /\
  (FALCON_AUTO_UPDATE cfg = "off" ->
   lookup_path m ["spec"; "falconNodeSensor"; "node"; "advanced"; "autoUpdate"] =
     None) /\
  (FALCON_AUTO_UPDATE cfg = "off" -> FALCON_UPDATE_POLICY cfg = "" ->
   lookup_path m ["spec"; "falconNodeSensor"; "node"; "advanced"] = None) /\
  (FALCON_UPDATE_POLICY cfg <> "" ->
   lookup_path m ["spec"; "falconNodeSensor"; "node"; "advanced"; "updatePolicy"] =
     Some (PStr (FALCON_UPDATE_POLICY cfg))) /\
  (FALCON_SENSOR_VERSION cfg <> "" ->
   lookup_path m ["spec"; "falconNodeSensor"; "node"; "version"] =
     Some (PStr (FALCON_SENSOR_VERSION cfg))).
Proof.
  intros H. apply (configure_falcon_deployment_manifest_returns cfg yaml_dump) in H.
  subst m. unfold rendered_manifest, node_section, advanced_settings, autopilot_config.
  destruct cfg as [id secret auto policy version tags]; cbn [FALCON_CLIENT_ID
    FALCON_CLIENT_SECRET FALCON_AUTO_UPDATE FALCON_UPDATE_POLICY
    FALCON_SENSOR_VERSION FALCON_SENSOR_TAGS].
  destruct (String.eqb_spec auto "off") as [Ea|Ea], policy, version, tags, is_autopilot;
    cbn; repeat split; intros; try reflexivity; try congruence.
Qed.

(** X14. Without the autopilot flag nothing of the autopilot sub-config is
    in the manifest: none of its keys occurs anywhere in the document the
    builder returns, and with no option set the node section is the empty
    mapping. *)
Theorem manifest_without_autopilot (w : W) m :
  out (configure_falcon_deployment_manifest cfg yaml_dump false w) = Ret m ->
  Forall (fun k => key_paths k m = []) autopilot_keys /\
  (FALCON_AUTO_UPDATE cfg = "off" -> FALCON_UPDATE_POLICY cfg = "" ->
   FALCON_SENSOR_VERSION cfg = "" ->
   lookup_path m ["spec"; "falconNodeSensor"; "node"] = Some (PDict [])).
Proof.
  intros H. apply (configure_falcon_deployment_manifest_returns cfg yaml_dump) in H.
  subst m. unfold rendered_manifest, node_section, advanced_settings, autopilot_keys.
  destruct cfg as [id secret auto policy version tags]; cbn [FALCON_CLIENT_ID
    FALCON_CLIENT_SECRET FALCON_AUTO_UPDATE FALCON_UPDATE_POLICY
    FALCON_SENSOR_VERSION FALCON_SENSOR_TAGS].
  destruct (String.eqb_spec auto "off") as [Ea|Ea], policy, version, tags;
    cbn; split; intros; try (repeat constructor); try congruence.
Qed.

(** X15. The credentials leave the process in the manifest.  Every run of
    the builder writes to [node_sensor_manifest.yaml] the serialization of a
    document that holds the client secret under [spec.falcon_api], and, when
    the write succeeds, logs the same serialization at DEBUG level before it
    returns the document. *)
Theorem manifest_carries_the_secret is_autopilot (w : W) :
  exists m,
    lookup_path m ["spec"; "falcon_api"; "client_secret"] =
      Some (PStr (FALCON_CLIENT_SECRET cfg)) /\
    write_calls
      (evs (configure_falcon_deployment_manifest cfg yaml_dump is_autopilot w)) =
      [("node_sensor_manifest.yaml", yaml_dump m)] /\
    (forall m',
        out (configure_falcon_deployment_manifest cfg yaml_dump is_autopilot w) =
          Ret m' ->
        m' = m /\
        In (EvLog DEBUG ("Generated manifest:" ++ newline ++ yaml_dump m))
          (evs (configure_falcon_deployment_manifest cfg yaml_dump is_autopilot w))).
Proof.
  exists (rendered_manifest cfg is_autopilot). split; [|split].
  - unfold rendered_manifest.
    destruct (truthy (FALCON_SENSOR_TAGS cfg)); reflexivity.
  - apply configure_falcon_deployment_manifest_writes.
  - intros m' H. split.
    + now apply (configure_falcon_deployment_manifest_returns cfg yaml_dump) in H.
    + revert H. rewrite configure_falcon_deployment_manifest_run. cbv zeta.
      destruct (write_file_op _ _ w) as [[e|u] w']; cbn [out evs];
        [discriminate|].
      intros _. apply in_or_app. right. right. left. reflexivity.
Qed.

(** *** The identity of the cluster *)

(** X17. The asset name of a zonal cluster gives its identity.  For an event
    whose asset name is
    [//container.googleapis.com/projects/P/zones/Z/clusters/C], with no slash
    in [P], [Z] and [C], the handler logs [C], [P] and [Z] as cluster name,
    project id and zone, and its first call is the status fetch of cluster
    [C] in zone [Z] of project [P]. *)
Theorem zonal_asset_name_gives_the_identity fuel data p z c (w : W) :
  contains "/" p = false -> contains "/" z = false -> contains "/" c = false ->
  payload_asset_name b64_json_loads data = inr (PStr (gke_asset_name p z c)) ->
  exists rest,
    evs (main cfg yaml_dump b64_json_loads fuel data w) =
    identity_log (gke_asset_name p z c) c p z ++ EvGetCluster c z p :: rest.
Proof.
  intros Hp Hz Hc Hd.
  pose proof (split_gke_asset_name p z c Hp Hz Hc) as Hs.
  assert (E : main cfg yaml_dump b64_json_loads fuel data w =
              prepend (identity_log (gke_asset_name p z c) c p z)
                (try_except (ready_then_protect cfg yaml_dump fuel true c z p)
                   main_except w)).
  { unfold main. apply try_except_prepend.
    apply main_try_parsed; [assumption| | |]; now rewrite Hs. }
  destruct (await_cluster_first_call c z p w) as [rest0 Hfirst].
  rewrite E. unfold prepend; cbn [evs].
  rewrite evs_try_except. unfold ready_then_protect at 1.
  rewrite evs_bind, Hfirst. cbn [app]. eauto.
Qed.

(** *** One run, one deployment *)

Ltac no_call := apply at_most_zero; emits_all ltac:(reflexivity).

Ltac skip_quiet_steps :=
  repeat (apply (at_most_bind _ 0 1); [solve [no_call] | intros ?]).

Lemma deploy_operator_applies_at_most_once fuel api :
  at_most applyb 1 (deploy_operator (W := W) fuel api).
Proof.
  unfold deploy_operator. skip_quiet_steps.
  apply (at_most_bind _ 1 0); [|intros ?; no_call].
  match goal with |- at_most _ _ (if ?b then _ else _) => destruct b end.
  - apply (at_most_le _ 0); [lia | no_call].
  - apply (at_most_try_except _ 1 0); [|intros ?; no_call].
    apply (at_most_bind _ 0 1); [no_call|]. intros _. apply at_most_call.
Qed.

Lemma deploy_falcon_manifest_creates_at_most_once api body :
  at_most createb 1 (deploy_falcon_manifest (W := W) api body).
Proof.
  unfold deploy_falcon_manifest. skip_quiet_steps.
  match goal with |- at_most _ _ (if ?b then _ else _) => destruct b end.
  - skip_quiet_steps.
    apply (at_most_try_except _ 1 0); [|intros ?; no_call].
    apply (at_most_bind _ 0 1); [no_call | intros ?; apply at_most_call].
  - apply (at_most_le _ 0); [lia | no_call].
Qed.

Lemma protect_cluster_applies_at_most_once fuel is_autopilot cn st :
  at_most applyb 1 (protect_cluster cfg yaml_dump fuel is_autopilot cn st).
Proof.
  unfold protect_cluster. skip_quiet_steps.
  apply (at_most_bind _ 1 0); [apply deploy_operator_applies_at_most_once|].
  intros _. no_call.
Qed.

Lemma protect_cluster_creates_at_most_once fuel is_autopilot cn st :
  at_most createb 1 (protect_cluster cfg yaml_dump fuel is_autopilot cn st).
Proof.
  unfold protect_cluster. skip_quiet_steps.
  apply (at_most_bind _ 1 0);
    [apply deploy_falcon_manifest_creates_at_most_once | intros ?; no_call].
Qed.

(** X18. One run, at most one deployment.  In every run of the handler,
    whatever the event and the world and however long the pod wait is
    followed, there is at most one [create_from_yaml] call and at most one
    creation of a custom resource. *)
Theorem main_deploys_at_most_once fuel data (w : W) :
  length (apply_calls (evs (main cfg yaml_dump b64_json_loads fuel data w))) <= 1 /\
  length (create_calls (evs (main cfg yaml_dump b64_json_loads fuel data w))) <= 1.
Proof.
  rewrite length_apply_calls, length_create_calls.
  split.
  - revert w. change (at_most applyb 1 (main cfg yaml_dump b64_json_loads fuel data)).
    unfold main. apply (at_most_try_except _ 1 0); [|intros ?; no_call].
    unfold main_try, ready_then_protect. skip_quiet_steps.
    match goal with |- at_most _ _ (match ?r with _ => _ end) => destruct r end.
    + apply protect_cluster_applies_at_most_once.
    + apply (at_most_le _ 0); [lia | no_call].
  - revert w. change (at_most createb 1 (main cfg yaml_dump b64_json_loads fuel data)).
    unfold main. apply (at_most_try_except _ 1 0); [|intros ?; no_call].
    unfold main_try, ready_then_protect. skip_quiet_steps.
    match goal with |- at_most _ _ (match ?r with _ => _ end) => destruct r end.
    + apply protect_cluster_creates_at_most_once.
    + apply (at_most_le _ 0); [lia | no_call].
Qed.

Lemma deploy_operator_never_returns api fuel (w : W) u :
  pods_never_ready api -> out (deploy_operator fuel api w) <> Ret u.
Proof.
  intros Hnever H. unfold deploy_operator in H.
  apply out_bind_Ret in H as [deployed [_ H]].
  apply out_bind_Ret in H as [u' [_ H]].
  rewrite (proj1 (await_operator_pods_never_ready api fuel _ Hnever)) in H.
  discriminate.
Qed.

Lemma protect_cluster_never_creates fuel is_autopilot cn st :
  (forall api, pods_never_ready (W := W) api) ->
  emits (fun ev => ~ is_create ev)
    (protect_cluster cfg yaml_dump fuel is_autopilot cn st).
Proof.
  intros Hnever. unfold protect_cluster.
  apply emits_bind; [emits_all absent | intros ?].
  apply emits_bind; [emits_all absent | intros ?].
  apply emits_bind; [emits_all absent | intros ?].
  apply emits_bind; [emits_all absent | intros api].
  apply emits_bind_stuck; [emits_all absent|].
  intros w u. now apply deploy_operator_never_returns.
Qed.

(** X19. The agent is created only after the operator's pods run.  On a
    cluster where no listing ever shows a running operator pod, no run of the
    handler creates the FalconDeployment resource, however long it is
    followed: the creation comes after the pod wait, which does not end. *)
Theorem main_creates_only_after_the_pods_run fuel data (w : W) :
  (forall api, pods_never_ready (W := W) api) ->
  create_calls (evs (main cfg yaml_dump b64_json_loads fuel data w)) = [].
Proof.
  intros Hnever. apply no_create_calls. revert w.
  change (emits (fun ev => ~ is_create ev)
            (main cfg yaml_dump b64_json_loads fuel data)).
  unfold main, main_try, main_except, ready_then_protect.
  repeat first
    [ apply protect_cluster_never_creates; assumption
    | apply emits_sleep; absent
    | emits_step absent ].
Qed.

(** X20. The deployment fails before it reaches the cluster.  When the
    download of the operator manifest raises, or reading the downloaded file
    raises, or writing [node_sensor_manifest.yaml] raises, the deployment
    sequence raises the same exception, and all it has done is log, download
    and touch local files: no Kubernetes client was requested and no call
    reached the cluster. *)
Theorem deployment_fails_before_reaching_the_cluster fuel is_autopilot cn st (w : W) :
  let r := protect_cluster cfg yaml_dump fuel is_autopilot cn st w in
  (forall e w1,
      urlretrieve_op FALCON_OPERATOR_URL "falcon_operator.yaml" w = (inl e, w1) ->
      r = mkRun (Raise e) w1
            [EvUrlRetrieve FALCON_OPERATOR_URL "falcon_operator.yaml"]) /\
  (forall w1 e w2,
      urlretrieve_op FALCON_OPERATOR_URL "falcon_operator.yaml" w = (inr tt, w1) ->
      read_file_op "falcon_operator.yaml" w1 = (inl e, w2) ->
      r = mkRun (Raise e) w2
            [EvUrlRetrieve FALCON_OPERATOR_URL "falcon_operator.yaml";
             EvReadFile "falcon_operator.yaml"]) /\
  (forall w1 text w2 e w3,
      urlretrieve_op FALCON_OPERATOR_URL "falcon_operator.yaml" w = (inr tt, w1) ->
      read_file_op "falcon_operator.yaml" w1 = (inr text, w2) ->
      (forall content,
          write_file_op "node_sensor_manifest.yaml" content w2 = (inl e, w3)) ->
      out r = Raise e /\ world r = w3 /\ Forall local_only (evs r)).
Proof.
  clear b64_json_loads. cbv zeta. split; [|split].
  - intros e w1 H. unfold protect_cluster. apply bind_Raise.
    unfold download_operator_manifest. apply bind_Raise.
    now apply call_inl.
  - intros w1 e w2 H1 H2. unfold protect_cluster. apply bind_Raise.
    unfold download_operator_manifest, urlretrieve, read_file.
    rewrite (bind_Ret _ _ _ _ _ _ (call_inr _ _ _ _ _ H1)).
    rewrite (bind_Raise _ _ _ _ _ _ (call_inl _ _ _ _ _ H2)). reflexivity.
  - intros w1 text w2 e w3 H1 H2 H3.
    assert (Hd : download_operator_manifest w =
                 mkRun (Ret text) w2
                   [EvUrlRetrieve FALCON_OPERATOR_URL "falcon_operator.yaml";
                    EvReadFile "falcon_operator.yaml"]).
    { unfold download_operator_manifest, urlretrieve, read_file.
      rewrite (bind_Ret _ _ _ _ _ _ (call_inr _ _ _ _ _ H1)).
      rewrite (bind_Ret _ _ _ _ _ _ (call_inr _ _ _ _ _ H2)). reflexivity. }
    assert (Hc : configure_falcon_deployment_manifest cfg yaml_dump is_autopilot w2 =
                 mkRun (Raise e) w3
                   (build_log cfg ++
                    [EvWriteFile "node_sensor_manifest.yaml"
                       (yaml_dump (rendered_manifest cfg is_autopilot))])).
    { rewrite configure_falcon_deployment_manifest_run. cbv zeta.
      now rewrite H3. }
    unfold protect_cluster. rewrite (bind_Ret _ _ _ _ _ _ Hd).
    rewrite (bind_Raise _ _ _ _ _ _ Hc). unfold prepend; cbn [out world evs].
    repeat split. repeat constructor.
    apply Forall_app. split; [|repeat constructor].
    eapply Forall_impl; [|apply build_log_only_logs].
    intros [] Hev; cbn in Hev |- *; tauto.
Qed.

(** *** The autopilot flag *)

Lemma no_write_calls tr : Forall not_write tr -> write_calls tr = [].
Proof.
  induction 1 as [|ev tr H _ IH]; [reflexivity|].
  destruct ev; cbn in *; auto. contradiction.
Qed.

Lemma after_the_builder_no_write fuel cn st manifest :
  emits not_write
    (cluster <- lift (match cluster st with
                      | Some c => inr c
                      | None => inl (UnboundLocalError "cluster")
                      end);;
     api_client <- get_kube_clients (W := W) cluster;;
     deploy_operator fuel api_client;;
     deploy_falcon_manifest api_client manifest;;
     log INFO ("Cluster " ++ cn ++ " protected.");;
     ret tt).
Proof. emits_all ltac:(exact I). Qed.

(** C10. The handler always builds the manifest for autopilot.  [main]
    passes [True] for the autopilot flag, whatever the cluster is.  So in
    every run of the handler that gets as far as the builder (the event
    names a cluster, the readiness loop hands over, the operator manifest is
    downloaded and read), whatever the configuration, the cluster and the
    rest of the world: the handler writes exactly one file,
    [node_sensor_manifest.yaml], holding the serialization of a document
    whose node section has the whole autopilot sub-config (the [bpf]
    backend, [gke.autopilot] set, the cpu and memory requests, the
    NoSchedule toleration); every custom resource it creates has that
    document as its body; and that document is the one the builder returns
    with the flag set, never the one it returns without it. *)
Theorem handler_always_builds_for_autopilot
    fuel data s cn p z (w : W) st w1 t text w2 w3 :
  payload_asset_name b64_json_loads data = inr (PStr s) ->
  nth_error (split "/" s) 8 = Some cn ->
  nth_error (split "/" s) 4 = Some p ->
  nth_error (split "/" s) 6 = Some z ->
  await_cluster cn z p w = mkRun (Ret (Next st)) w1 t ->
  urlretrieve_op FALCON_OPERATOR_URL "falcon_operator.yaml" w1 = (inr tt, w2) ->
  read_file_op "falcon_operator.yaml" w2 = (inr text, w3) ->
  let r := main cfg yaml_dump b64_json_loads fuel data w in
  exists m,
    write_calls (evs r) = [("node_sensor_manifest.yaml", yaml_dump m)] /\
    Forall (fun c => snd (fst c) = m) (create_calls (evs r)) /\
    lookup_path m ["spec"; "falconNodeSensor"; "node"; "backend"] =
      Some (PStr "bpf") /\
    lookup_path m ["spec"; "falconNodeSensor"; "node"; "gke"; "autopilot"] =
      Some (PBool true) /\
    lookup_path m ["spec"; "falconNodeSensor"; "node"; "resources"; "requests"] =
      Some (PDict [("cpu", PStr "750m"); ("memory", PStr "1.5Gi")]) /\
    lookup_path m ["spec"; "falconNodeSensor"; "node"; "tolerations"] =
      Some (PList [PDict [("effect", PStr "NoSchedule");
                          ("operator", PStr "Equal");
                          ("key", PStr "kubernetes.io/arch");
                          ("value", PStr "amd64")]]) /\
    autopilot_node m /\
    (forall w0 m0,
        out (configure_falcon_deployment_manifest cfg yaml_dump true w0) = Ret m0 ->
        m0 = m) /\
    (forall w0 m0,
        out (configure_falcon_deployment_manifest cfg yaml_dump false w0) = Ret m0 ->
        m0 <> m).
Proof.
  intros Hp H8 H4 H6 Ha Hu Hr r. subst r.
  exists (rendered_manifest cfg true).
  assert (E : main cfg yaml_dump b64_json_loads fuel data w =
              prepend (identity_log s cn p z ++ t)
                (try_except (protect_cluster cfg yaml_dump fuel true cn st)
                   main_except w1)).
  { unfold main.
    rewrite (try_except_prepend _ _ _ _ _ _
               (main_try_parsed cfg yaml_dump b64_json_loads fuel _ _ _ _ _ _
                  Hp H8 H4 H6)).
    unfold ready_then_protect.
    rewrite (try_except_prepend _
               (protect_cluster cfg yaml_dump fuel true cn st) _ _ w1 t).
    - now rewrite prepend_prepend.
    - now rewrite (bind_Ret _ _ _ _ _ _ Ha). }
  assert (Hd : download_operator_manifest w1 =
               mkRun (Ret text) w3
                 [EvUrlRetrieve FALCON_OPERATOR_URL "falcon_operator.yaml";
                  EvReadFile "falcon_operator.yaml"]).
  { unfold download_operator_manifest, urlretrieve, read_file.
    rewrite (bind_Ret _ _ _ _ _ _ (call_inr _ _ _ _ _ Hu)).
    rewrite (bind_Ret _ _ _ _ _ _ (call_inr _ _ _ _ _ Hr)). reflexivity. }
  assert (Ht : write_calls t = []).
  { replace t with (evs (await_cluster cn z p w)) by now rewrite Ha.
    apply no_write_calls. unfold await_cluster, poll_body.
    emits_all ltac:(exact I). }
  split; [|split].
  - rewrite E. unfold prepend; cbn [evs]. rewrite !write_calls_app, Ht.
    cbn [identity_log write_calls app].
    rewrite evs_try_except, write_calls_app.
    replace (write_calls
               match out (protect_cluster cfg yaml_dump fuel true cn st w1) with
               | Raise e =>
                   evs (main_except e
                          (world (protect_cluster cfg yaml_dump fuel true cn st w1)))
               | _ => []
               end) with (@nil (string * string)).
    2:{ now destruct (out (protect_cluster cfg yaml_dump fuel true cn st w1)). }
    rewrite app_nil_r. unfold protect_cluster.
    rewrite (bind_Ret _ _ _ _ _ _ Hd). unfold prepend; cbn [evs].
    cbn [write_calls app]. rewrite evs_bind, write_calls_app.
    rewrite configure_falcon_deployment_manifest_writes.
    destruct (out (configure_falcon_deployment_manifest cfg yaml_dump true w3));
      cbn [write_calls app]; try reflexivity.
    now rewrite (no_write_calls _ (after_the_builder_no_write fuel cn st a _)).
  - apply (carried_calls cfg yaml_dump).
    apply (main_carries cfg yaml_dump b64_json_loads fuel data w).
  - pose proof (rendered_manifest_autopilot_node cfg) as Hn.
    repeat match goal with |- _ /\ _ => split end; try exact Hn.
    1-4: unfold rendered_manifest, node_section, advanced_settings, autopilot_config;
      destruct (negb (FALCON_AUTO_UPDATE cfg =? "off")%string),
        (truthy (FALCON_UPDATE_POLICY cfg)), (truthy (FALCON_SENSOR_VERSION cfg)),
        (truthy (FALCON_SENSOR_TAGS cfg)); reflexivity.
    + intros w0 m0 H.
      now apply (configure_falcon_deployment_manifest_returns cfg yaml_dump) in H.
    + intros w0 m0 H Heq.
      apply (configure_falcon_deployment_manifest_returns cfg yaml_dump) in H.
      rewrite H in Heq.
      apply (f_equal (fun m =>
               lookup_path m ["spec"; "falconNodeSensor"; "node"; "backend"])) in Heq.
      revert Heq.
      unfold rendered_manifest, node_section, advanced_settings, autopilot_config.
      destruct (negb (FALCON_AUTO_UPDATE cfg =? "off")%string),
        (truthy (FALCON_UPDATE_POLICY cfg)), (truthy (FALCON_SENSOR_VERSION cfg)),
        (truthy (FALCON_SENSOR_TAGS cfg)); discriminate.
Qed.

End MoreHandlerFacts.

(** A run of C10: the handler on a running cluster nothing was installed
    on, with every option set.  It writes the document once and creates one
    custom resource from it. *)
Lemma handler_always_builds_for_autopilot_witness :
  (exists m,
      write_calls
        (evs (main (world_ops := scripted fresh) all_options outline decoded 3
                (event_for demo_asset) start)) =
        [("node_sensor_manifest.yaml", outline m)] /\
      Forall (fun c => snd (fst c) = m)
        (create_calls
           (evs (main (world_ops := scripted fresh) all_options outline decoded 3
                   (event_for demo_asset) start))) /\
      lookup_path m ["spec"; "falconNodeSensor"; "node"; "backend"] =
        Some (PStr "bpf") /\
      lookup_path m ["spec"; "falconNodeSensor"; "node"; "gke"; "autopilot"] =
        Some (PBool true) /\
      lookup_path m ["spec"; "falconNodeSensor"; "node"; "resources"; "requests"] =
        Some (PDict [("cpu", PStr "750m"); ("memory", PStr "1.5Gi")]) /\
      lookup_path m ["spec"; "falconNodeSensor"; "node"; "tolerations"] =
        Some (PList [PDict [("effect", PStr "NoSchedule");
                            ("operator", PStr "Equal");
                            ("key", PStr "kubernetes.io/arch");
                            ("value", PStr "amd64")]]) /\
      autopilot_node m /\
      (forall w0 m0,
          out (configure_falcon_deployment_manifest (world_ops := scripted fresh)
                 all_options outline true w0) = Ret m0 ->
          m0 = m) /\
      (forall w0 m0,
          out (configure_falcon_deployment_manifest (world_ops := scripted fresh)
                 all_options outline false w0) = Ret m0 ->
          m0 <> m)) /\
  out (main (world_ops := scripted fresh) all_options outline decoded 3
         (event_for demo_asset) start) = Ret tt /\
  map (fun c => lookup_path (snd (fst c))
                  ["spec"; "falconNodeSensor"; "node"; "gke"; "autopilot"])
    (create_calls
       (evs (main (world_ops := scripted fresh) all_options outline decoded 3
               (event_for demo_asset) start))) =
    [Some (PBool true)].
Proof.
  split; [|split; reflexivity].
  apply (handler_always_builds_for_autopilot (world_ops := scripted fresh)
           all_options outline decoded 3 (event_for demo_asset) demo_asset
           "demo" "proj1" "us-central1-a" start
           (mkPoll (Some running_cluster) "RUNNING" 1) (mkCounters 1 0)
           [EvGetCluster "demo" "us-central1-a" "proj1";
            EvLog DEBUG "Cluster status: RUNNING ";
            EvLog INFO "Deploying operator on cluster"]
           "kind: Namespace" (mkCounters 1 0) (mkCounters 1 0));
    reflexivity.
Defined.

(** A run of X1 on a namespace with a running pod. *)
Lemma check_pods_are_ready_one_running_pod_witness :
  exists b,
    check_pods_are_ready (world_ops := scripted protected) api0 "falcon-operator"
      start =
      mkRun (Ret b) (mkCounters 0 1) [EvListNamespacedPod api0 "falcon-operator"] /\
    (b = true <-> Exists (fun pod => pod_phase pod = "Running") [running_pod]).
Proof.
  apply (proj1 (check_pods_are_ready_one_running_pod (world_ops := scripted protected)
                  api0 "falcon-operator" start)).
  reflexivity.
Defined.

(** A run of X2: the pod runs at the third listing. *)
Lemma await_operator_pods_returns_when_ready_witness :
  out (await_operator_pods (world_ops := scripted (with_pods pods_after_two protected))
         5 api0 start) = Ret tt /\
  sleep_calls
    (evs (await_operator_pods
            (world_ops := scripted (with_pods pods_after_two protected))
            5 api0 start)) = [10; 10]%Z /\
  pod_listing_calls
    (evs (await_operator_pods
            (world_ops := scripted (with_pods pods_after_two protected))
            5 api0 start)) = repeat (api0, "falcon-operator") 3.
Proof.
  apply (await_operator_pods_returns_when_ready
           (world_ops := scripted (with_pods pods_after_two protected))
           api0 2 5 start); [|lia].
  cbn. do 2 eexists. split; [reflexivity|]. split; [reflexivity|].
  do 2 eexists. split; [reflexivity|]. split; [reflexivity|].
  do 2 eexists. split; reflexivity.
Defined.

Lemma stuck_pending_never_ready api :
  pods_never_ready (world_ops := scripted stuck_pending) api.
Proof. intros w. do 2 eexists. split; reflexivity. Defined.

(** A run of X3 on a pod that stays pending. *)
Lemma deploy_operator_waits_without_bound_witness :
  out (await_operator_pods (world_ops := scripted stuck_pending) 7 api0 start) =
    Diverge /\
  sleep_calls
    (evs (await_operator_pods (world_ops := scripted stuck_pending) 7 api0 start)) =
    repeat 10%Z 7 /\
  (forall u,
      out (deploy_operator (world_ops := scripted stuck_pending) 7 api0 start) <>
        Ret u).
Proof.
  apply (deploy_operator_waits_without_bound (world_ops := scripted stuck_pending)
           api0 7 start).
  apply stuck_pending_never_ready.
Defined.

(** Runs of X4: the apply is refused, on a cluster without the namespace
    and on one whose namespace has no pod. *)
Lemma deploy_operator_apply_failure_is_fatal_witness :
  (deploy_operator (world_ops := scripted (with_create_from_yaml (inl forbidden) fresh))
     3 api0 start =
   mkRun (Raise forbidden) start
     [EvLog DEBUG "Checking for namespace: falcon-operator.";
      EvReadNamespace api0 "falcon-operator";
      EvLog INFO "Deploying Falcon operator";
      EvCreateFromYaml api0 "falcon_operator.yaml";
      EvLog ERROR (exn_str forbidden)] /\
   exn_str forbidden = ("(403)" ++ newline ++ "Reason: Forbidden" ++ newline)%string) /\
  deploy_operator
    (world_ops := scripted (with_create_from_yaml (inl forbidden) empty_namespace))
    3 api0 start =
  mkRun (Raise forbidden) (mkCounters 0 1)
    [EvLog DEBUG "Checking for namespace: falcon-operator.";
     EvReadNamespace api0 "falcon-operator";
     EvLog DEBUG "Namespace falcon-operator exists.";
     EvListNamespacedPod api0 "falcon-operator";
     EvLog INFO "Deploying Falcon operator";
     EvCreateFromYaml api0 "falcon_operator.yaml";
     EvLog ERROR (exn_str forbidden)].
Proof.
  split; [split; [|reflexivity]|].
  - apply (proj1 (deploy_operator_apply_failure_is_fatal
                    (world_ops := scripted (with_create_from_yaml (inl forbidden) fresh))
                    3 api0 start))
      with (reason := mkResponse "Not Found" "" "") (w1 := start);
      reflexivity.
  - apply (proj2 (deploy_operator_apply_failure_is_fatal
                    (world_ops :=
                       scripted (with_create_from_yaml (inl forbidden) empty_namespace))
                    3 api0 start))
      with (w1 := start) (w2 := mkCounters 0 1);
      reflexivity.
Defined.

(** A run of X6: the listing is refused. *)
Lemma deploy_falcon_manifest_listing_failure_witness :
  create_calls
    (evs (deploy_falcon_manifest
            (world_ops := scripted (with_custom_objects (inl forbidden) protected))
            api0 existing_deployment start)) = [].
Proof.
  apply (deploy_falcon_manifest_listing_failure
           (world_ops := scripted (with_custom_objects (inl forbidden) protected))
           api0 existing_deployment start start forbidden start);
    [reflexivity | reflexivity | discriminate].
Defined.

(** A run of X8 on a running cluster. *)
Lemma await_cluster_hands_over_a_cluster_witness :
  exists c,
    Some running_cluster = Some c /\
    "RUNNING" = cluster_status_name c /\
    ~ In "RUNNING" unmanageable /\
    1%Z =
      Z.of_nat (length (fetch_calls
                          (evs (await_cluster (world_ops := scripted fresh)
                                  "demo" "us-central1-a" "proj1" start)))) /\
    ("RUNNING" = "RUNNING" \/ 1%Z = (MAX_CLUSTER_STATUS_CHECK_COUNT + 1)%Z).
Proof.
  apply (await_cluster_hands_over_a_cluster (world_ops := scripted fresh)
           "demo" "us-central1-a" "proj1" start
           (mkPoll (Some running_cluster) "RUNNING" 1)).
  reflexivity.
Defined.

(** A run of X9 on a cluster that is RECONCILING. *)
Lemma other_status_is_polled_without_sleeping_witness :
  length (fetch_calls
            (evs (await_cluster (world_ops := scripted reconciling)
                    "demo" "us-central1-a" "proj1" start))) = 21 /\
  sleep_calls
    (evs (await_cluster (world_ops := scripted reconciling)
            "demo" "us-central1-a" "proj1" start)) = [] /\
  exists st,
    out (await_cluster (world_ops := scripted reconciling)
           "demo" "us-central1-a" "proj1" start) = Ret (Next st).
Proof.
  apply (other_status_is_polled_without_sleeping (world_ops := scripted reconciling)
           "demo" "us-central1-a" "proj1" start).
  intros w. do 2 eexists. split; [reflexivity|].
  cbn. intuition discriminate.
Defined.

(** Runs of X10: an event without data, and one whose asset name is
    [None]. *)
Lemma malformed_event_fails_before_any_call_witness :
  main (world_ops := scripted fresh) no_options outline decoded 3 empty_event start =
  mkRun (Raise (KeyError "data")) start
    [EvLog ERROR "Unexpected error in main function: 'data'"] /\
  main (world_ops := scripted fresh) no_options outline decoded 3
    (PDict [("data", PNone)]) start =
  mkRun (Raise (AttributeError "'NoneType' object has no attribute 'split'")) start
    [EvLog ERROR
       "Unexpected error in main function: 'NoneType' object has no attribute 'split'"].
Proof.
  split.
  - apply (proj1 (malformed_event_fails_before_any_call (world_ops := scripted fresh)
                    no_options outline decoded 3 empty_event start)).
    apply (proj1 (proj2 (proj2 (malformed_event_fails_before_any_call
                    (world_ops := scripted fresh)
                    no_options outline decoded 3 empty_event start)))) with (d := []);
      reflexivity.
  - apply (proj1 (proj2 (malformed_event_fails_before_any_call
                    (world_ops := scripted fresh)
                    no_options outline decoded 3 (PDict [("data", PNone)]) start))
             PNone); [reflexivity | discriminate].
Defined.

(** A run of X11 while the cluster API is down. *)
Lemma failed_status_fetch_is_fatal_witness :
  main (world_ops := scripted unreachable) no_options outline decoded 3
    (event_for demo_asset) start =
  mkRun (Raise service_unavailable) (mkCounters 1 0)
    (identity_log demo_asset "demo" "proj1" "us-central1-a" ++
     [EvGetCluster "demo" "us-central1-a" "proj1";
      EvLog ERROR "Unexpected error in main function: 503 Service Unavailable"]).
Proof.
  apply (failed_status_fetch_is_fatal (world_ops := scripted unreachable)
           no_options outline decoded 3 (event_for demo_asset) demo_asset
           "demo" "proj1" "us-central1-a" start service_unavailable
           (mkCounters 1 0)); reflexivity.
Defined.

(** A run of X12 with every option set. *)
Lemma manifest_fixed_part_witness :
  lookup_path (rendered_manifest all_options false) ["spec"; "falcon_api"] =
  Some (PDict [("client_id", PStr "client-id");
               ("client_secret", PStr "client-secret");
               ("cloud_region", PStr "us-2")]).
Proof.
  apply (manifest_fixed_part (world_ops := scripted protected)
           all_options outline false start (rendered_manifest all_options false)).
  reflexivity.
Defined.

(** A run of X13 with auto-update set to the empty string. *)
Lemma manifest_update_settings_witness :
  lookup_path (rendered_manifest blank_auto_update true)
    ["spec"; "falconNodeSensor"; "node"; "advanced"; "autoUpdate"] =
  Some (PStr "").
Proof.
  apply (proj1 (manifest_update_settings (world_ops := scripted protected)
                  blank_auto_update outline true start
                  (rendered_manifest blank_auto_update true) eq_refl)).
  discriminate.
Defined.

(** A run of X14 with no option set. *)
Lemma manifest_without_autopilot_witness :
  lookup_path (rendered_manifest no_options false)
    ["spec"; "falconNodeSensor"; "node"] = Some (PDict []).
Proof.
  apply (proj2 (manifest_without_autopilot (world_ops := scripted protected)
                  no_options outline start
                  (rendered_manifest no_options false) eq_refl));
    reflexivity.
Defined.

(** A run of X15 with every option set. *)
Lemma manifest_carries_the_secret_witness :
  exists m,
    lookup_path m ["spec"; "falcon_api"; "client_secret"] =
      Some (PStr "client-secret") /\
    In (EvLog DEBUG ("Generated manifest:" ++ newline ++ outline m))
      (evs (configure_falcon_deployment_manifest (world_ops := scripted protected)
              all_options outline true start)).
Proof.
  destruct (manifest_carries_the_secret (world_ops := scripted protected)
              all_options outline true start) as [m [H1 [_ H3]]].
  exists m. split; [exact H1|].
  apply (H3 (rendered_manifest all_options true)). reflexivity.
Defined.

(** A run of X17 on the asset of cluster [demo]. *)
Lemma zonal_asset_name_gives_the_identity_witness :
  exists rest,
    evs (main (world_ops := scripted fresh) no_options outline decoded 3
           (event_for (gke_asset_name "proj1" "us-central1-a" "demo")) start) =
    identity_log (gke_asset_name "proj1" "us-central1-a" "demo")
      "demo" "proj1" "us-central1-a"
    ++ EvGetCluster "demo" "us-central1-a" "proj1" :: rest.
Proof.
  apply (zonal_asset_name_gives_the_identity (world_ops := scripted fresh)
           no_options outline decoded 3
           (event_for (gke_asset_name "proj1" "us-central1-a" "demo"))
           "proj1" "us-central1-a" "demo" start); reflexivity.
Defined.

(** A run of X19 on a pod that stays pending. *)
Lemma main_creates_only_after_the_pods_run_witness :
  create_calls
    (evs (main (world_ops := scripted stuck_pending) no_options outline decoded 40
            (event_for demo_asset) start)) = [].
Proof.
  apply (main_creates_only_after_the_pods_run (world_ops := scripted stuck_pending)
           no_options outline decoded 40 (event_for demo_asset) start).
  apply stuck_pending_never_ready.
Defined.

(** Runs of X20: the download fails; the disk is full. *)
Lemma deployment_fails_before_reaching_the_cluster_witness :
  protect_cluster (world_ops := scripted (with_urlretrieve (inl service_unavailable) fresh))
    no_options outline 3 true "demo" (mkPoll (Some running_cluster) "RUNNING" 1)
    start =
  mkRun (Raise service_unavailable) start
    [EvUrlRetrieve FALCON_OPERATOR_URL "falcon_operator.yaml"] /\
  Forall local_only
    (evs (protect_cluster (world_ops := scripted (with_write_file (inl disk_full) fresh))
            no_options outline 3 true "demo"
            (mkPoll (Some running_cluster) "RUNNING" 1) start)).
Proof.
  split.
  - apply (proj1 (deployment_fails_before_reaching_the_cluster
                    (world_ops := scripted (with_urlretrieve (inl service_unavailable) fresh))
                    no_options outline 3 true "demo"
                    (mkPoll (Some running_cluster) "RUNNING" 1) start)).
    reflexivity.
  - apply (proj2 (proj2 (deployment_fails_before_reaching_the_cluster
                    (world_ops := scripted (with_write_file (inl disk_full) fresh))
                    no_options outline 3 true "demo"
                    (mkPoll (Some running_cluster) "RUNNING" 1) start)))
      with (w1 := start) (text := "kind: Namespace") (w2 := start)
           (e := disk_full) (w3 := start); reflexivity.
Defined.

(** ** The configuration at import *)

(** X21. The credentials are required, the rest is optional.  Loading the
    configuration succeeds exactly when FALCON_CLIENT_ID and
    FALCON_CLIENT_SECRET are both set; a missing one raises [KeyError] with
    its name, the client id first.  An unset FALCON_AUTO_UPDATE reads as
    [off], the other unset options as the empty string, and a set variable is
    taken as it is. *)
Theorem load_config_requires_the_credentials (env : environ) :
  (env "FALCON_CLIENT_ID" = None ->
   load_config env = inl (KeyError "FALCON_CLIENT_ID")) /\
  (env "FALCON_CLIENT_ID" <> None -> env "FALCON_CLIENT_SECRET" = None ->
   load_config env = inl (KeyError "FALCON_CLIENT_SECRET")) /\
  (forall id secret,
      env "FALCON_CLIENT_ID" = Some id ->
      env "FALCON_CLIENT_SECRET" = Some secret ->
      exists c,
        load_config env = inr c /\
        FALCON_CLIENT_ID c = id /\
        FALCON_CLIENT_SECRET c = secret /\
        FALCON_AUTO_UPDATE c =
          match env "FALCON_AUTO_UPDATE" with Some v => v | None => "off" end /\
        FALCON_UPDATE_POLICY c =
          match env "FALCON_UPDATE_POLICY" with Some v => v | None => "" end /\
        FALCON_SENSOR_VERSION c =
          match env "FALCON_SENSOR_VERSION" with Some v => v | None => "" end /\
        FALCON_SENSOR_TAGS c =
          match env "FALCON_SENSOR_TAGS" with Some v => v | None => "" end) /\
  (forall c, load_config env = inr c ->
             env "FALCON_CLIENT_ID" = Some (FALCON_CLIENT_ID c) /\
             env "FALCON_CLIENT_SECRET" = Some (FALCON_CLIENT_SECRET c)).
Proof.
  unfold load_config, environ_getitem, environ_get.
  split; [|split; [|split]].
  - intros H. now rewrite H.
  - intros H1 H2. destruct (env "FALCON_CLIENT_ID"); [|contradiction].
    cbn. now rewrite H2.
  - intros id secret H1 H2. rewrite H1, H2. cbn. eexists. repeat split.
  - intros c. destruct (env "FALCON_CLIENT_ID"); [|discriminate].
    destruct (env "FALCON_CLIENT_SECRET"); [|discriminate].
    cbn. intros H. inversion H. auto.
Qed.

(** X22. The manifest of a bare environment.  When the environment sets no
    option besides the credentials, the manifest built for autopilot has a
    node section that is exactly the autopilot sub-config, no [falcon]
    entry in its [spec], and the builder logs nothing at INFO level. *)
Theorem bare_environment_manifest {W : Type} {world_ops : World W}
    (env : environ) (yaml_dump : pyval -> string) (c : Config) (w : W) m :
  env "FALCON_AUTO_UPDATE" = None ->
  env "FALCON_UPDATE_POLICY" = None ->
  env "FALCON_SENSOR_VERSION" = None ->
  env "FALCON_SENSOR_TAGS" = None ->
  load_config env = inr c ->
  out (configure_falcon_deployment_manifest c yaml_dump true w) = Ret m ->
  lookup_path m ["spec"; "falconNodeSensor"; "node"] = Some (PDict autopilot_config) /\
  lookup_path m ["spec"; "falcon"] = None /\
  evs (configure_falcon_deployment_manifest c yaml_dump true w) =
    [EvWriteFile "node_sensor_manifest.yaml" (yaml_dump m);
     EvLog DEBUG ("Generated manifest:" ++ newline ++ yaml_dump m)].
Proof.
  intros Ha Hp Hv Ht Hc Hm.
  unfold load_config, environ_getitem, environ_get in Hc.
  rewrite Ha, Hp, Hv, Ht in Hc.
  destruct (env "FALCON_CLIENT_ID") as [id|]; [|discriminate].
  destruct (env "FALCON_CLIENT_SECRET") as [secret|]; [|discriminate].
  cbn in Hc. inversion Hc; subst c. clear Hc.
  pose proof (configure_falcon_deployment_manifest_returns _ _ _ _ _ Hm) as E.
  subst m. revert Hm.
  rewrite configure_falcon_deployment_manifest_run. cbv zeta.
  destruct (write_file_op _ _ w) as [[e|u] w']; cbn [out evs]; [discriminate|].
  intros _. repeat split.
Qed.

(** A run of X21 on an environment without the client secret. *)
Lemma load_config_requires_the_credentials_witness :
  load_config secret_missing = inl (KeyError "FALCON_CLIENT_SECRET").
Proof.
  apply (proj1 (proj2 (load_config_requires_the_credentials secret_missing)));
    [discriminate | reflexivity].
Defined.

(** A run of X22 on an environment with the credentials only. *)
Lemma bare_environment_manifest_witness :
  lookup_path (rendered_manifest no_options true)
    ["spec"; "falconNodeSensor"; "node"] = Some (PDict autopilot_config).
Proof.
  apply (bare_environment_manifest (world_ops := scripted protected)
           credentials_only outline no_options start
           (rendered_manifest no_options true));
    reflexivity.
Defined.
